(** * The calculator service: operations and request handlers

    A shallow embedding of [app/operations.py] (the seven arithmetic
    functions) and of [main.py] (one request handler per function), with the
    part of the Python numeric semantics these two files rest on.

    Operands have the type [Union[int, float]]: an [int] is an unbounded
    integer ([Z]) and a [float] is an IEEE 754 binary64 number, taken here as
    the Standard Library's [spec_float] with a 53 bit mantissa and the
    exponent bound 1024.  Exceptions are threaded through an error monad.

    A call [logger.info(f"...")] evaluates its f-string and then hands the
    line to the logging machinery, which returns nothing and keeps its own
    failures to itself.  The text of the line is left out; the evaluation of
    the f-string is kept, because the conversion of an [int] to text raises
    a [ValueError] beyond the interpreter's limit of 4300 digits.  The
    exhaustion of memory on very large integers is not modelled. *)

From Stdlib Require Import ZArith QArith Qpower Bool String List Lia Lqa.
From Stdlib Require Import Floats.SpecFloat.
Import ListNotations.
Local Open Scope string_scope.
Local Open Scope Z_scope.

(** ** Exceptions and the error monad *)

Module Exn.

(** The exception classes that can reach a handler.  A pydantic
    [ValidationError] is a subclass of [ValueError]; every class is a subclass
    of [Exception]. *)
Inductive exn_class : Type :=
| ValueError
| ZeroDivisionError
| OverflowError
| ValidationError.

Record exn : Type := mk_exn { exn_cls : exn_class; exn_msg : string }.

(** [isinstance(e, ValueError)]. *)
Definition is_ValueError (c : exn_class) : bool :=
  match c with
  | ValueError | ValidationError => true
  | ZeroDivisionError | OverflowError => false
  end.

(** [str(e)]. *)
Definition str (e : exn) : string := exn_msg e.

Inductive result (A : Type) : Type :=
| Ok (a : A)
| Raise (e : exn).

Arguments Ok {A} a.
Arguments Raise {A} e.

Definition bind {A B : Type} (r : result A) (k : A -> result B) : result B :=
  match r with
  | Ok a => k a
  | Raise e => Raise e
  end.

End Exn.

Export Exn.

Notation "x <- r ;; k" := (bind r (fun x => k))
  (at level 61, r at next level, right associativity).

(** ** The numbers of the interpreter

    What [app/operations.py] asks of Python: the operators [+], [-], [*],
    [/], [**], [==] and [<] on [int] and [float], as the reference
    interpreter evaluates them (the special cases and the error messages of
    [**] and [/] are those of its [float_pow], [long_pow], [float_div] and
    [long_true_divide]). *)

Module Py.

Definition prec : Z := 53.
Definition emax : Z := 1024.

Definition float : Type := spec_float.

Definition fadd : float -> float -> float := SFadd prec emax.
Definition fsub : float -> float -> float := SFsub prec emax.
Definition fmul : float -> float -> float := SFmul prec emax.
Definition fdiv : float -> float -> float := SFdiv prec emax.
Definition fopp : float -> float := SFopp.
Definition fabs : float -> float := SFabs.
Definition fcompare : float -> float -> option comparison := SFcompare.
Definition feqb : float -> float -> bool := SFeqb.
Definition fltb : float -> float -> bool := SFltb.

(** [0.0], [1.0], [0.5] and [100.0]. *)
Definition f_zero : float := S754_zero false.
Definition f_one : float := S754_finite false 4503599627370496 (-52).
Definition f_half : float := S754_finite false 4503599627370496 (-53).
Definition f_hundred : float := S754_finite false 7036874417766400 (-46).

Definition is_nan (x : float) : bool :=
  match x with S754_nan => true | _ => false end.

Definition is_inf (x : float) : bool :=
  match x with S754_infinity _ => true | _ => false end.

Definition is_finite (x : float) : bool :=
  match x with
  | S754_zero _ | S754_finite _ _ _ => true
  | S754_infinity _ | S754_nan => false
  end.

(** [x == floor(x)] for a finite [x]. *)
Definition is_integer (x : float) : bool :=
  match x with
  | S754_zero _ => true
  | S754_finite _ m e =>
      if 0 <=? e then true else Zpos m mod 2 ^ (- e) =? 0
  | S754_infinity _ | S754_nan => false
  end.

(** [DOUBLE_IS_ODD_INTEGER(x)]: [fmod(fabs(x), 2.0) == 1.0]. *)
Definition is_odd_integer (x : float) : bool :=
  match x with
  | S754_finite _ m e =>
      if 0 <? e then false
      else (Zpos m mod 2 ^ (- e) =? 0) && Z.odd (Zpos m / 2 ^ (- e))
  | S754_zero _ | S754_infinity _ | S754_nan => false
  end.

(** A value of type [Union[int, float]]. *)
Inductive num : Type :=
| PyInt (n : Z)
| PyFloat (x : float).

(** What [**] can return: a number, or a complex number when a negative base
    meets an exponent that is no integer. *)
Inductive value : Type :=
| VNum (v : num)
| VComplex (re im : float).

(** The messages of the interpreter's own exceptions. *)
Definition int_too_large : exn :=
  mk_exn OverflowError "int too large to convert to float".
Definition int_division_too_large : exn :=
  mk_exn OverflowError "integer division result too large for a float".
Definition int_division_by_zero : exn :=
  mk_exn ZeroDivisionError "division by zero".
Definition float_division_by_zero : exn :=
  mk_exn ZeroDivisionError "float division by zero".
Definition zero_to_negative_power : exn :=
  mk_exn ZeroDivisionError "0.0 cannot be raised to a negative power".
Definition result_out_of_range : exn :=
  mk_exn OverflowError "(34, 'Numerical result out of range')".
Definition complex_overflow : exn :=
  mk_exn OverflowError "complex exponentiation".

(** The conversion of an [int] to text raises a [ValueError] when the [int]
    has more decimal digits than [sys.get_int_max_str_digits()], which is
    4300 unless the program or its environment changes it; the repository
    does not.  The sign is not counted. *)
Definition int_max_str_digits : Z := 4300.
Definition int_str_limit : exn :=
  mk_exn ValueError "Exceeds the limit (4300 digits) for integer string conversion; use sys.set_int_max_str_digits() to increase the limit".

(** An operand that has a text: any float, and an [int] of at most
    [int_max_str_digits] digits. *)
Definition printable (a : num) : bool :=
  match a with
  | PyInt n => Z.abs n <? 10 ^ int_max_str_digits
  | PyFloat _ => true
  end.

(** One replacement field [{v}] of an f-string: [format(v, '')], of which
    only the failure is kept.  A float and a complex number always have a
    text. *)
Definition format_field (v : value) : result unit :=
  match v with
  | VNum a => if printable a then Ok tt else Raise int_str_limit
  | VComplex _ _ => Ok tt
  end.

(** An f-string evaluates its fields from left to right. *)
Fixpoint f_string (fields : list value) : result unit :=
  match fields with
  | [] => Ok tt
  | v :: rest => _ <- format_field v ;; f_string rest
  end.

(** [logger.info(f"...")], given the fields of the f-string: the f-string is
    evaluated first, then the call returns [None]. *)
Definition logger_info (fields : list value) : result unit := f_string fields.

(** [float(n)] for an [int]: rounded to nearest, ties to even; an integer
    beyond the range of a float raises [OverflowError]. *)
Definition int_to_float (n : Z) : result float :=
  match binary_normalize prec emax n 0 false with
  | S754_infinity _ => Raise int_too_large
  | x => Ok x
  end.

(** The conversion of an operand of a float operation. *)
Definition as_float (a : num) : result float :=
  match a with
  | PyInt n => int_to_float n
  | PyFloat x => Ok x
  end.

(** [x / y] on two [int]s with [y] not zero: the quotient rounded once. *)
Definition int_true_divide (x y : Z) : result num :=
  match x with
  | Z0 => Ok (PyFloat (S754_zero (y <? 0)))
  | _ =>
      match fdiv (S754_finite (x <? 0) (Z.to_pos (Z.abs x)) 0)
                 (S754_finite (y <? 0) (Z.to_pos (Z.abs y)) 0) with
      | S754_infinity _ => Raise int_division_too_large
      | q => Ok (PyFloat q)
      end
  end.

(** [a + b], [a - b], [a * b]: exact on two [int]s, on floats otherwise. *)
Definition py_add (a b : num) : result num :=
  match a, b with
  | PyInt x, PyInt y => Ok (PyInt (x + y))
  | _, _ => x <- as_float a ;; y <- as_float b ;; Ok (PyFloat (fadd x y))
  end.

Definition py_sub (a b : num) : result num :=
  match a, b with
  | PyInt x, PyInt y => Ok (PyInt (x - y))
  | _, _ => x <- as_float a ;; y <- as_float b ;; Ok (PyFloat (fsub x y))
  end.

Definition py_mul (a b : num) : result num :=
  match a, b with
  | PyInt x, PyInt y => Ok (PyInt (x * y))
  | _, _ => x <- as_float a ;; y <- as_float b ;; Ok (PyFloat (fmul x y))
  end.

(** [a / b]: true division, which raises on a zero divisor. *)
Definition py_truediv (a b : num) : result num :=
  match a, b with
  | PyInt x, PyInt y =>
      if y =? 0 then Raise int_division_by_zero else int_true_divide x y
  | _, _ =>
      x <- as_float a ;;
      y <- as_float b ;;
      if feqb y f_zero then Raise float_division_by_zero
      else Ok (PyFloat (fdiv x y))
  end.

(** [-a]. *)
Definition py_neg (a : num) : num :=
  match a with
  | PyInt n => PyInt (- n)
  | PyFloat x => PyFloat (fopp x)
  end.

(** The exact comparison of a float with an [int]. *)
Definition compare_float_int (x : float) (n : Z) : option comparison :=
  match x with
  | S754_nan => None
  | S754_infinity s => Some (if s then Lt else Gt)
  | S754_zero _ => Some (0 ?= n)
  | S754_finite s m e =>
      let v := cond_Zopp s (Zpos m) in
      Some (if 0 <=? e then v * 2 ^ e ?= n else v ?= n * 2 ^ (- e))
  end.

Definition py_compare (a b : num) : option comparison :=
  match a, b with
  | PyInt x, PyInt y => Some (x ?= y)
  | PyFloat x, PyFloat y => fcompare x y
  | PyFloat x, PyInt n => compare_float_int x n
  | PyInt n, PyFloat x => option_map CompOpp (compare_float_int x n)
  end.

(** [a == b], [a < b], [a > b], [a >= b]: all false on a NaN. *)
Definition py_eq (a b : num) : bool :=
  match py_compare a b with Some Eq => true | _ => false end.
Definition py_lt (a b : num) : bool :=
  match py_compare a b with Some Lt => true | _ => false end.
Definition py_gt (a b : num) : bool :=
  match py_compare a b with Some Gt => true | _ => false end.
Definition py_ge (a b : num) : bool :=
  match py_compare a b with Some (Gt | Eq) => true | _ => false end.

(** The part of the platform under the interpreter that the model leaves
    open: the C library's [pow] on two doubles, which a range error leaves
    infinite; the complex power of a negative base and an exponent that is no
    integer, [None] on a range error; and the text of pydantic's report on a
    result that is no number. *)
Record platform : Type := mk_platform {
  c_pow : float -> float -> float;
  c_complex_pow : float -> float -> option (float * float);
  validation_report : string
}.

Section Power.

Variable P : platform.

(** [float_pow] on two doubles: the special cases are settled before the C
    library is called. *)
Definition float_pow (iv iw : float) : result value :=
  if feqb iw f_zero then Ok (VNum (PyFloat f_one))
  else if is_nan iv then Ok (VNum (PyFloat iv))
  else if is_nan iw then
    Ok (VNum (PyFloat (if feqb iv f_one then f_one else iw)))
  else if is_inf iw then
    let av := fabs iv in
    if feqb av f_one then Ok (VNum (PyFloat f_one))
    else if Bool.eqb (fltb f_zero iw) (fltb f_one av)
         then Ok (VNum (PyFloat (fabs iw)))
         else Ok (VNum (PyFloat f_zero))
  else if is_inf iv then
    let iw_is_odd := is_odd_integer iw in
    if fltb f_zero iw
    then Ok (VNum (PyFloat (if iw_is_odd then iv else fabs iv)))
    else Ok (VNum (PyFloat (if iw_is_odd
                            then S754_zero (fltb iv f_zero) else f_zero)))
  else if feqb iv f_zero then
    let iw_is_odd := is_odd_integer iw in
    if fltb iw f_zero then Raise zero_to_negative_power
    else Ok (VNum (PyFloat (if iw_is_odd then iv else f_zero)))
  else if fltb iv f_zero && negb (is_integer iw) then
    match c_complex_pow P iv iw with
    | Some (re, im) => Ok (VComplex re im)
    | None => Raise complex_overflow
    end
  else
    let negate_result := fltb iv f_zero && is_odd_integer iw in
    let iv := if fltb iv f_zero then fopp iv else iv in
    if feqb iv f_one
    then Ok (VNum (PyFloat (if negate_result then fopp f_one else f_one)))
    else
      let ix := c_pow P iv iw in
      if is_inf ix then Raise result_out_of_range
      else Ok (VNum (PyFloat (if negate_result then fopp ix else ix))).

(** [a ** b]: exact on two [int]s when the exponent is not negative, and
    [float_pow] on the converted operands otherwise. *)
Definition py_pow (a b : num) : result value :=
  match a, b with
  | PyInt x, PyInt y =>
      if 0 <=? y then Ok (VNum (PyInt (x ^ y)))
      else iv <- as_float a ;; iw <- as_float b ;; float_pow iv iw
  | _, _ => iv <- as_float a ;; iw <- as_float b ;; float_pow iv iw
  end.

End Power.

End Py.

Import Py.

(** ** app/operations.py *)

Module operations.

Definition divide_by_zero : exn :=
  mk_exn ValueError "Cannot divide by zero".
Definition negative_square_root : exn :=
  mk_exn ValueError "Cannot calculate square root of negative number".

Definition add (a b : num) : result num :=
  _ <- logger_info [VNum a; VNum b] ;;
  r <- py_add a b ;;
  _ <- logger_info [VNum r] ;;
  Ok r.

Definition subtract (a b : num) : result num :=
  _ <- logger_info [VNum b; VNum a] ;;
  r <- py_sub a b ;;
  _ <- logger_info [VNum r] ;;
  Ok r.

Definition multiply (a b : num) : result num :=
  _ <- logger_info [VNum a; VNum b] ;;
  r <- py_mul a b ;;
  _ <- logger_info [VNum r] ;;
  Ok r.

(** The operands are logged before the guard. *)
Definition divide (a b : num) : result num :=
  _ <- logger_info [VNum a; VNum b] ;;
  if py_eq b (PyInt 0) then Raise divide_by_zero
  else
    r <- py_truediv a b ;;
    _ <- logger_info [VNum r] ;;
    Ok r.

Definition power (P : platform) (a b : num) : result value :=
  _ <- logger_info [VNum a; VNum b] ;;
  r <- py_pow P a b ;;
  _ <- logger_info [r] ;;
  Ok r.

(** The operand is logged before the guard. *)
Definition square_root (P : platform) (a : num) : result value :=
  _ <- logger_info [VNum a] ;;
  if py_lt a (PyInt 0) then Raise negative_square_root
  else
    r <- py_pow P a (PyFloat f_half) ;;
    _ <- logger_info [r] ;;
    Ok r.

(** [(a * b) / 100]; the line logged first names [b] before [a]. *)
Definition percentage (a b : num) : result num :=
  _ <- logger_info [VNum b; VNum a] ;;
  r <- (p <- py_mul a b ;; py_truediv p (PyInt 100)) ;;
  _ <- logger_info [VNum r] ;;
  Ok r.

End operations.

Import operations.

(** ** main.py *)

Module main.

Record CalculationRequest : Type := mk_CalculationRequest {
  req_a : num;
  req_b : num
}.

Record SingleOperandRequest : Type := mk_SingleOperandRequest {
  single_a : num
}.

(** [operands] is a [dict] literal: the keys in the order they are written. *)
Record CalculationResponse : Type := mk_CalculationResponse {
  result_ : num;
  operation : string;
  operands : list (string * num)
}.

(** What a handler hands to the framework: the response it returns, which
    the framework sends with the status 200, or the [HTTPException] it raises.
    The serialization of the response is the framework's and not modelled. *)
Inductive reply : Type :=
| Returned (r : CalculationResponse)
| HTTPException (status_code : Z) (detail : string).

Definition status (r : reply) : Z :=
  match r with
  | Returned _ => 200
  | HTTPException code _ => code
  end.

Section Handlers.

Variable P : platform.

(** [CalculationResponse(result=..., operation=..., operands=...)]: the field
    [result] is validated as [Union[int, float]]. *)
Definition new_CalculationResponse
  (r : value) (op : string) (ops : list (string * num))
  : result CalculationResponse :=
  match r with
  | VNum v => Ok (mk_CalculationResponse v op ops)
  | VComplex _ _ => Raise (mk_exn ValidationError (validation_report P))
  end.

Definition two_operands (c : CalculationRequest) : list (string * num) :=
  [("a", req_a c); ("b", req_b c)].

(** [except Exception as e: raise HTTPException(status_code=400, ...)]. *)
Definition except_Exception (body : result CalculationResponse) : reply :=
  match body with
  | Ok r => Returned r
  | Raise e => HTTPException 400 (str e)
  end.

(** [except ValueError as e: ... 400] and then [except Exception: ... 500]. *)
Definition except_ValueError_Exception
  (body : result CalculationResponse) : reply :=
  match body with
  | Ok r => Returned r
  | Raise e =>
      if is_ValueError (exn_cls e) then HTTPException 400 (str e)
      else HTTPException 500 "Internal server error"
  end.

(** The [try] blocks of the seven handlers: the request is logged, the
    operation is called and the response is built.  The [logger.error] of an
    [except] block formats [str(e)], which has a text. *)
Definition try_add (c : CalculationRequest) : result CalculationResponse :=
  _ <- logger_info [VNum (req_a c); VNum (req_b c)] ;;
  r <- add (req_a c) (req_b c) ;;
  new_CalculationResponse (VNum r) "addition" (two_operands c).

Definition try_subtract (c : CalculationRequest)
  : result CalculationResponse :=
  _ <- logger_info [VNum (req_a c); VNum (req_b c)] ;;
  r <- subtract (req_a c) (req_b c) ;;
  new_CalculationResponse (VNum r) "subtraction" (two_operands c).

Definition try_multiply (c : CalculationRequest)
  : result CalculationResponse :=
  _ <- logger_info [VNum (req_a c); VNum (req_b c)] ;;
  r <- multiply (req_a c) (req_b c) ;;
  new_CalculationResponse (VNum r) "multiplication" (two_operands c).

Definition try_divide (c : CalculationRequest) : result CalculationResponse :=
  _ <- logger_info [VNum (req_a c); VNum (req_b c)] ;;
  r <- divide (req_a c) (req_b c) ;;
  new_CalculationResponse (VNum r) "division" (two_operands c).

Definition try_power (c : CalculationRequest) : result CalculationResponse :=
  _ <- logger_info [VNum (req_a c); VNum (req_b c)] ;;
  r <- power P (req_a c) (req_b c) ;;
  new_CalculationResponse r "power" (two_operands c).

Definition try_square_root (c : SingleOperandRequest)
  : result CalculationResponse :=
  _ <- logger_info [VNum (single_a c)] ;;
  r <- square_root P (single_a c) ;;
  new_CalculationResponse r "square_root" [("a", single_a c)].

Definition try_percentage (c : CalculationRequest)
  : result CalculationResponse :=
  _ <- logger_info [VNum (req_b c); VNum (req_a c)] ;;
  r <- percentage (req_a c) (req_b c) ;;
  new_CalculationResponse (VNum r) "percentage" (two_operands c).

Definition api_add (c : CalculationRequest) : reply :=
  except_Exception (try_add c).

Definition api_subtract (c : CalculationRequest) : reply :=
  except_Exception (try_subtract c).

Definition api_multiply (c : CalculationRequest) : reply :=
  except_Exception (try_multiply c).

Definition api_divide (c : CalculationRequest) : reply :=
  except_ValueError_Exception (try_divide c).

Definition api_power (c : CalculationRequest) : reply :=
  except_Exception (try_power c).

Definition api_square_root (c : SingleOperandRequest) : reply :=
  except_ValueError_Exception (try_square_root c).

Definition api_percentage (c : CalculationRequest) : reply :=
  except_Exception (try_percentage c).

End Handlers.

End main.

Import main.

(** A platform to run the model on at concrete inputs: [pow] answers the
    exponent one half with the correctly rounded square root and every other
    exponent with a NaN, and the complex power always reports a range error. *)
Definition sample_platform : platform :=
  mk_platform
    (fun x y => if feqb y f_half then SFsqrt prec emax x else S754_nan)
    (fun _ _ => None)
    "result: value is not a valid number".

(** ** The vocabulary of the statements *)

(** A finite real operand: any [int], or a float that is neither an infinity
    nor a NaN. *)
Definition finite_num (a : num) : bool :=
  match a with
  | PyInt _ => true
  | PyFloat x => is_finite x
  end.

Definition is_int (a : num) : bool :=
  match a with
  | PyInt _ => true
  | PyFloat _ => false
  end.

(** Two expressions agree: both return and the values compare equal with
    [==], or both raise the same exception. *)
Definition same_outcome (r r' : result num) : Prop :=
  match r, r' with
  | Ok v, Ok v' => py_eq v v' = true
  | Raise e, Raise e' => e = e'
  | _, _ => False
  end.

(** [-f(b, a)] for a function [f] that can raise. *)
Definition negated (r : result num) : result num :=
  v <- r ;; Ok (py_neg v).

(** An operand well inside the range of a float: any float, or an [int]
    below [2 ** 1023] in magnitude. *)
Definition fits_float (a : num) : bool :=
  match a with
  | PyInt n => Z.abs n <? 2 ^ 1023
  | PyFloat _ => true
  end.

(** The float [m * 2 ** e], to write the operands of the examples. *)
Definition dyadic (m e : Z) : float := binary_normalize prec emax m e false.

(** [r == v] for a call [r]: it returns a value that compares equal to [v]. *)
Definition returns (r : result num) (v : num) : bool :=
  match r with
  | Ok w => py_eq w v
  | Raise _ => false
  end.

Definition returns_value (r : result value) (v : num) : bool :=
  match r with
  | Ok (VNum w) => py_eq w v
  | Ok (VComplex _ _) | Raise _ => false
  end.

(** An operand that is not a NaN. *)
Definition not_nan (a : num) : bool :=
  match a with
  | PyInt _ => true
  | PyFloat x => negb (is_nan x)
  end.

(** A float of the binary64 format, as every float of the interpreter is:
    the mantissa of a finite one has its canonical number of digits. *)
Definition binary64 (x : float) : bool := valid_binary prec emax x.

(** What the line that logs a result makes of a call: the value, if it has a
    text, and the [ValueError] of the conversion otherwise. *)
Definition logged (r : result num) : result num :=
  v <- r ;; if printable v then Ok v else Raise int_str_limit.

Definition printable_value (v : value) : bool :=
  match v with
  | VNum a => printable a
  | VComplex _ _ => true
  end.

Definition logged_value (r : result value) : result value :=
  v <- r ;; if printable_value v then Ok v else Raise int_str_limit.





(** The case analysis of the conditionals of [float_pow]. *)
Ltac split_ifs :=
  repeat match goal with
    | |- context [if ?c then _ else _] => destruct c eqn:?
    | |- context [match c_complex_pow ?P ?x ?y with _ => _ end] =>
        destruct (c_complex_pow P x y) as [[? ?] | ]
    end.

(** ** Facts on the binary64 operations *)

Section Rounding.

Variables prec emax : Z.

Lemma iter_pos_preserves {A : Type} (f : A -> A) (I : A -> Prop) :
  (forall x, I x -> I (f x)) ->
  forall p x, I x -> I (iter_pos f p x).
Proof.
  intros Hf p. induction p as [p IH | p IH | ]; intros x Hx; simpl; auto.
Qed.

Lemma shr_1_nonneg (mrs : shr_record) :
  0 <= shr_m mrs -> 0 <= shr_m (shr_1 mrs).
Proof.
  destruct mrs as [m r s]. simpl.
  destruct m as [ | [p | p | ] | [p | p | ]]; simpl; lia.
Qed.

Lemma shr_nonneg (mrs : shr_record) (e n : Z) :
  0 <= shr_m mrs -> 0 <= shr_m (fst (shr mrs e n)).
Proof.
  intros H. destruct n as [ | p | p]; simpl; trivial.
  apply (iter_pos_preserves shr_1 (fun r => 0 <= shr_m r)); trivial.
  exact shr_1_nonneg.
Qed.

Lemma shr_record_of_loc_m (m : Z) (l : location) :
  shr_m (shr_record_of_loc m l) = m.
Proof. destruct l as [ | [ | | ]]; reflexivity. Qed.

Lemma shr_fexp_nonneg (m e : Z) (l : location) :
  0 <= m -> 0 <= shr_m (fst (shr_fexp prec emax m e l)).
Proof.
  intros H. unfold shr_fexp. apply shr_nonneg.
  now rewrite shr_record_of_loc_m.
Qed.

Lemma round_nearest_even_nonneg (m : Z) (l : location) :
  0 <= m -> 0 <= round_nearest_even m l.
Proof.
  intros H. destruct l as [ | [ | | ]]; simpl; trivial.
  - destruct (Z.even m); lia.
  - lia.
Qed.

(** Rounding a mantissa that is not negative never gives a NaN. *)
Lemma binary_round_aux_not_nan (s : bool) (m e : Z) (l : location) :
  0 <= m -> binary_round_aux prec emax s m e l <> S754_nan.
Proof.
  intros H. unfold binary_round_aux.
  pose proof (shr_fexp_nonneg m e l H) as H1.
  destruct (shr_fexp prec emax m e l) as [mrs' e']. simpl in H1.
  pose proof (shr_fexp_nonneg _ e' loc_Exact
                (round_nearest_even_nonneg _ (loc_of_shr_record mrs') H1))
    as H2.
  destruct (shr_fexp prec emax _ e' loc_Exact) as [mrs'' e'']. simpl in H2.
  destruct (shr_m mrs'') as [ | q | q]; try discriminate.
  - destruct (e'' <=? emax - prec); discriminate.
  - lia.
Qed.

(** Rounding is symmetric in the sign. *)
Lemma binary_round_aux_opp (s : bool) (m e : Z) (l : location) :
  SFopp (binary_round_aux prec emax s m e l)
  = binary_round_aux prec emax (negb s) m e l.
Proof.
  unfold binary_round_aux.
  destruct (shr_fexp prec emax m e l) as [mrs' e'].
  destruct (shr_fexp prec emax _ e' loc_Exact) as [mrs'' e''].
  destruct (shr_m mrs''); trivial.
  destruct (e'' <=? emax - prec); reflexivity.
Qed.

Lemma binary_round_not_nan (s : bool) (m : positive) (e : Z) :
  binary_round prec emax s m e <> S754_nan.
Proof.
  unfold binary_round.
  destruct (shl_align m e _) as [mz ez].
  apply binary_round_aux_not_nan. lia.
Qed.

Lemma binary_round_opp (s : bool) (m : positive) (e : Z) :
  SFopp (binary_round prec emax s m e) = binary_round prec emax (negb s) m e.
Proof.
  unfold binary_round.
  destruct (shl_align m e _) as [mz ez].
  apply binary_round_aux_opp.
Qed.

Lemma binary_normalize_not_nan (m e : Z) (sz : bool) :
  binary_normalize prec emax m e sz <> S754_nan.
Proof.
  destruct m; simpl; try discriminate; apply binary_round_not_nan.
Qed.

(** The two roundings of [m] and of [- m] are opposite, up to the sign of a
    zero. *)
Lemma binary_normalize_opp (m e : Z) :
  m <> 0 ->
  SFopp (binary_normalize prec emax (- m) e false)
  = binary_normalize prec emax m e false.
Proof.
  intros H. destruct m as [ | p | p]; simpl.
  - congruence.
  - apply binary_round_opp.
  - apply binary_round_opp.
Qed.

Lemma SFcompare_refl (x : spec_float) :
  x <> S754_nan -> SFcompare x x = Some Eq.
Proof.
  intros H. destruct x as [s | s | | s m e]; simpl.
  - reflexivity.
  - now destruct s.
  - congruence.
  - rewrite Z.compare_refl, Pos.compare_cont_refl. now destruct s.
Qed.

Lemma SFadd_comm (x y : spec_float) :
  SFadd prec emax x y = SFadd prec emax y x.
Proof.
  destruct x as [sx | sx | | sx mx ex], y as [sy | sy | | sy my ey];
    simpl; trivial.
  - now destruct sx, sy.
  - now destruct sx, sy.
  - rewrite (Z.min_comm ey ex). f_equal. apply Z.add_comm.
Qed.

Lemma SFmul_comm (x y : spec_float) :
  SFmul prec emax x y = SFmul prec emax y x.
Proof.
  destruct x as [sx | sx | | sx mx ex], y as [sy | sy | | sy my ey];
    simpl; trivial; try (now rewrite xorb_comm).
  now rewrite xorb_comm, Pos.mul_comm, Z.add_comm.
Qed.

End Rounding.

(** The digits of a mantissa through a rounding: an integer that is not
    zero does not round to zero. *)

Section Digits.

Variables prec emax : Z.
Hypothesis prec_pos : 0 < prec.

Lemma digits2_pos_succ (p : positive) :
  (digits2_pos p <= digits2_pos (Pos.succ p))%positive.
Proof.
  induction p as [p IH | p IH | ]; simpl; lia.
Qed.

Lemma Zdigits2_pos (m : Z) : 0 < m -> 0 < Zdigits2 m.
Proof. destruct m; simpl; lia. Qed.

Lemma Zdigits2_nonzero (m : Z) : 0 <= m -> 0 < Zdigits2 m -> 0 < m.
Proof. destruct m; simpl; lia. Qed.

Lemma Zdigits2_succ (m : Z) : 0 <= m -> Zdigits2 m <= Zdigits2 (m + 1).
Proof.
  intros H. destruct m as [ | p | p]; simpl; try lia.
  rewrite Pos.add_1_r. pose proof (digits2_pos_succ p). lia.
Qed.

Lemma Zdigits2_shr_1 (s : shr_record) :
  0 <= shr_m s ->
  Zdigits2 (shr_m (shr_1 s)) = Z.max 0 (Zdigits2 (shr_m s) - 1).
Proof.
  destruct s as [m r s]. cbn [shr_m]. intros H.
  destruct m as [ | [p | p | ] | p];
    cbn [shr_m shr_1 Zdigits2 digits2_pos]; lia.
Qed.

Lemma Zdigits2_iter_shr_1 (p : positive) :
  forall s, 0 <= shr_m s ->
  0 <= shr_m (iter_pos shr_1 p s) /\
  Zdigits2 (shr_m (iter_pos shr_1 p s))
  = Z.max 0 (Zdigits2 (shr_m s) - Zpos p).
Proof.
  induction p as [p IH | p IH | ]; intros s Hs; simpl.
  - pose proof (shr_1_nonneg s Hs) as H0.
    pose proof (Zdigits2_shr_1 s Hs) as D0.
    destruct (IH _ H0) as [H1 D1].
    destruct (IH _ H1) as [H2 D2].
    split; trivial. rewrite D2, D1, D0. lia.
  - destruct (IH _ Hs) as [H1 D1].
    destruct (IH _ H1) as [H2 D2].
    split; trivial. rewrite D2, D1. lia.
  - split; [ now apply shr_1_nonneg | rewrite Zdigits2_shr_1 by trivial; lia ].
Qed.

Lemma round_nearest_even_digits (m : Z) (l : location) :
  0 <= m ->
  0 <= round_nearest_even m l /\
  Zdigits2 m <= Zdigits2 (round_nearest_even m l).
Proof.
  intros H. pose proof (Zdigits2_succ m H).
  destruct l as [ | [ | | ]]; simpl; try lia.
  destruct (Z.even m); lia.
Qed.

(** One shift to the canonical exponent keeps a mantissa that is not zero,
    as long as the number is above the underflow threshold. *)
Lemma shr_fexp_digits (m e : Z) (l : location) :
  0 <= m -> 0 < Zdigits2 m -> emin prec emax <= Zdigits2 m + e - prec ->
  0 <= shr_m (fst (shr_fexp prec emax m e l)) /\
  0 < Zdigits2 (shr_m (fst (shr_fexp prec emax m e l))) /\
  Zdigits2 m + e
  <= Zdigits2 (shr_m (fst (shr_fexp prec emax m e l)))
     + snd (shr_fexp prec emax m e l).
Proof.
  intros Hm Hd Hu. unfold shr_fexp, shr, fexp.
  rewrite Z.max_l by lia.
  replace (Zdigits2 m + e - prec - e) with (Zdigits2 m - prec) by lia.
  destruct (Zdigits2 m - prec) as [ | p | p] eqn:E; simpl;
    rewrite ?shr_record_of_loc_m; try lia.
  destruct (Zdigits2_iter_shr_1 p (shr_record_of_loc m l)) as [H1 D1].
  { now rewrite shr_record_of_loc_m. }
  rewrite shr_record_of_loc_m in D1. rewrite D1. lia.
Qed.

Lemma binary_round_aux_nonzero (s s' : bool) (m e : Z) (l : location) :
  0 < m -> emin prec emax <= Zdigits2 m + e - prec ->
  binary_round_aux prec emax s m e l <> S754_zero s'.
Proof.
  intros Hm Hu. unfold binary_round_aux.
  destruct (shr_fexp_digits m e l) as (H1 & D1 & E1);
    [ lia | now apply Zdigits2_pos | trivial | ].
  destruct (shr_fexp prec emax m e l) as [mrs' e']. simpl in H1, D1, E1.
  destruct (round_nearest_even_digits (shr_m mrs') (loc_of_shr_record mrs') H1)
    as [Hr Dr].
  set (r := round_nearest_even (shr_m mrs') (loc_of_shr_record mrs')) in *.
  destruct (shr_fexp_digits r e' loc_Exact) as (H2 & D2 & _); [ lia .. | ].
  destruct (shr_fexp prec emax r e' loc_Exact) as [mrs'' e'']. simpl in H2, D2.
  pose proof (Zdigits2_nonzero _ H2 D2) as Hnz.
  destruct (shr_m mrs'') as [ | q | q]; try lia.
  destruct (e'' <=? emax - prec); discriminate.
Qed.

Lemma digits2_pos_iter_xO (m d : positive) :
  digits2_pos (Pos.iter xO m d) = (digits2_pos m + d)%positive.
Proof.
  induction d as [ | d IH] using Pos.peano_ind.
  - simpl. lia.
  - rewrite Pos.iter_succ. simpl. rewrite IH. lia.
Qed.

Lemma binary_round_nonzero (s s' : bool) (m : positive) (e : Z) :
  emin prec emax <= Zpos (digits2_pos m) + e - prec ->
  binary_round prec emax s m e <> S754_zero s'.
Proof.
  intros Hu. unfold binary_round, shl_align.
  destruct (fexp prec emax (Zpos (digits2_pos m) + e) - e) as [ | d | d] eqn:E.
  - apply binary_round_aux_nonzero; cbn [Zdigits2]; lia.
  - apply binary_round_aux_nonzero; cbn [Zdigits2]; lia.
  - apply binary_round_aux_nonzero; [ lia | ].
    cbn [Zdigits2]. rewrite digits2_pos_iter_xO.
    unfold fexp in *. lia.
Qed.

End Digits.

(** The digits of a mantissa against the powers of two. *)

Lemma digits2_pos_bounds (p : positive) :
  2 ^ (Zpos (digits2_pos p) - 1) <= Zpos p < 2 ^ Zpos (digits2_pos p).
Proof.
  induction p as [p IH | p IH | ]; cbn [digits2_pos].
  - rewrite Pos2Z.inj_succ.
    replace (Z.succ (Zpos (digits2_pos p)) - 1)
      with (Z.succ (Zpos (digits2_pos p) - 1)) by lia.
    rewrite !Z.pow_succ_r by lia. lia.
  - rewrite Pos2Z.inj_succ.
    replace (Z.succ (Zpos (digits2_pos p)) - 1)
      with (Z.succ (Zpos (digits2_pos p) - 1)) by lia.
    rewrite !Z.pow_succ_r by lia. lia.
  - simpl. lia.
Qed.

Lemma Zdigits2_nonneg (m : Z) : 0 <= Zdigits2 m.
Proof. destruct m; simpl; lia. Qed.

Lemma Zdigits2_le_pow (q k : Z) : 0 <= k -> 0 <= q < 2 ^ k -> Zdigits2 q <= k.
Proof.
  intros Hk [H0 H1]. destruct q as [ | p | p]; cbn [Zdigits2]; try lia.
  pose proof (digits2_pos_bounds p) as [Hl _].
  assert (H : 2 ^ (Zpos (digits2_pos p) - 1) < 2 ^ k) by lia.
  apply Z.pow_lt_mono_r_iff in H; lia.
Qed.

Lemma Zdigits2_ge_pow (q k : Z) : 2 ^ (k - 1) <= q -> k <= Zdigits2 q.
Proof.
  intros H. destruct (Z.le_gt_cases k 0) as [Hk | Hk].
  - pose proof (Zdigits2_nonneg q). lia.
  - assert (0 < 2 ^ (k - 1)) by (apply Z.pow_pos_nonneg; lia).
    destruct q as [ | p | p]; cbn [Zdigits2]; try lia.
    pose proof (digits2_pos_bounds p) as [_ Hu].
    assert (H' : 2 ^ (k - 1) < 2 ^ Zpos (digits2_pos p)) by lia.
    apply Z.pow_lt_mono_r_iff in H'; lia.
Qed.

(** A number below the overflow threshold does not round to an infinity. *)

Section Range.

Variables prec emax : Z.
Hypothesis prec_pos : 0 < prec.
Hypothesis emax_big : 3 <= 2 * emax.

Lemma digits2_pos_succ_le (p : positive) :
  (digits2_pos (Pos.succ p) <= Pos.succ (digits2_pos p))%positive.
Proof.
  induction p as [p IH | p IH | ]; simpl; lia.
Qed.

Lemma Zdigits2_succ_le (m : Z) : 0 <= m -> Zdigits2 (m + 1) <= Zdigits2 m + 1.
Proof.
  intros H. destruct m as [ | p | p]; simpl; try lia.
  rewrite Pos.add_1_r. pose proof (digits2_pos_succ_le p). lia.
Qed.

Lemma round_nearest_even_digits_le (m : Z) (l : location) :
  0 <= m -> Zdigits2 (round_nearest_even m l) <= Zdigits2 m + 1.
Proof.
  intros H. pose proof (Zdigits2_succ_le m H).
  destruct l as [ | [ | | ]]; simpl; try lia.
  destruct (Z.even m); lia.
Qed.

(** A shift to the canonical exponent of a mantissa that has at least its
    canonical number of digits: the exponent becomes canonical and the
    magnitude does not grow. *)
Lemma shr_fexp_canonical (m e : Z) (l : location) :
  0 <= m -> e <= fexp prec emax (Zdigits2 m + e) ->
  snd (shr_fexp prec emax m e l) = fexp prec emax (Zdigits2 m + e) /\
  0 <= shr_m (fst (shr_fexp prec emax m e l)) /\
  Zdigits2 (shr_m (fst (shr_fexp prec emax m e l)))
  + snd (shr_fexp prec emax m e l)
  <= Z.max (Zdigits2 m + e) (fexp prec emax (Zdigits2 m + e)).
Proof.
  intros Hm He. unfold shr_fexp, shr.
  destruct (fexp prec emax (Zdigits2 m + e) - e) as [ | p | p] eqn:E;
    cbn [fst snd]; rewrite ?shr_record_of_loc_m; try lia.
  destruct (Zdigits2_iter_shr_1 p (shr_record_of_loc m l)) as [H1 D1].
  { now rewrite shr_record_of_loc_m. }
  rewrite shr_record_of_loc_m in D1. rewrite D1. lia.
Qed.

Lemma binary_round_aux_finite (s s' : bool) (m e : Z) (l : location) :
  0 <= m -> e <= fexp prec emax (Zdigits2 m + e) ->
  Zdigits2 m + e < emax ->
  binary_round_aux prec emax s m e l <> S754_infinity s'.
Proof.
  intros Hm He Hd. unfold binary_round_aux.
  destruct (shr_fexp_canonical m e l Hm He) as (E1 & H1 & D1).
  destruct (shr_fexp prec emax m e l) as [mrs' e']. cbn [fst snd] in *.
  pose proof (round_nearest_even_digits
                (shr_m mrs') (loc_of_shr_record mrs') H1) as [Hr _].
  pose proof (round_nearest_even_digits_le (shr_m mrs')
                (loc_of_shr_record mrs') H1) as Dr.
  set (r := round_nearest_even (shr_m mrs') (loc_of_shr_record mrs')) in *.
  assert (E2 : snd (shr_fexp prec emax r e' loc_Exact)
               <= Z.max e' (fexp prec emax (Zdigits2 r + e'))).
  { unfold shr_fexp, shr.
    destruct (fexp prec emax (Zdigits2 r + e') - e') eqn:E; cbn [snd]; lia. }
  destruct (shr_fexp prec emax r e' loc_Exact) as [mrs'' e'']. cbn [snd] in E2.
  destruct (shr_m mrs''); try discriminate.
  assert (H : e'' <= emax - prec).
  { unfold fexp, emin in *. lia. }
  apply Z.leb_le in H. rewrite H. discriminate.
Qed.

Lemma binary_round_finite (s s' : bool) (m : positive) (e : Z) :
  Zpos (digits2_pos m) + e < emax ->
  binary_round prec emax s m e <> S754_infinity s'.
Proof.
  intros Hd. unfold binary_round, shl_align.
  destruct (fexp prec emax (Zpos (digits2_pos m) + e) - e) as [ | d | d] eqn:E.
  - apply binary_round_aux_finite; cbn [Zdigits2]; lia.
  - apply binary_round_aux_finite; cbn [Zdigits2]; lia.
  - apply binary_round_aux_finite; cbn [Zdigits2];
      rewrite ?digits2_pos_iter_xO; try lia.
    replace (Z.pos (digits2_pos m + d)
             + fexp prec emax (Z.pos (digits2_pos m) + e))
      with (Z.pos (digits2_pos m) + e) by lia.
    lia.
Qed.

End Range.


(** The digits of a quotient, from the digits of the two operands. *)
Lemma quotient_digits (a b da db : Z) :
  0 < da -> 0 < db ->
  2 ^ (da - 1) <= a < 2 ^ da -> 2 ^ (db - 1) <= b < 2 ^ db ->
  da - db <= Zdigits2 (a / b) <= Z.max 0 (da - db + 1).
Proof.
  intros Hda Hdb [La Ua] [Lb Ub].
  assert (Hb : 0 < b).
  { assert (0 < 2 ^ (db - 1)) by (apply Z.pow_pos_nonneg; lia). lia. }
  assert (Ha : 0 < a).
  { assert (0 < 2 ^ (da - 1)) by (apply Z.pow_pos_nonneg; lia). lia. }
  pose proof (Z.div_mod a b ltac:(lia)) as E.
  pose proof (Z.mod_pos_bound a b ltac:(lia)) as R.
  pose proof (Z.div_pos a b ltac:(lia) ltac:(lia)) as Q.
  set (q := a / b) in *.
  split.
  - apply Zdigits2_ge_pow.
    destruct (Z.le_gt_cases (da - db) 0) as [Hk | Hk].
    + assert (2 ^ (da - db - 1) = 0) by (apply Z.pow_neg_r; lia). lia.
    + assert (Hp : 2 ^ (da - 1) = 2 ^ (da - db - 1) * 2 ^ db).
      { rewrite <- Z.pow_add_r by lia. f_equal. lia. }
      assert (0 < 2 ^ (da - db - 1)) by (apply Z.pow_pos_nonneg; lia).
      assert (0 < 2 ^ db) by (apply Z.pow_pos_nonneg; lia).
      nia.
  - destruct (Z.le_gt_cases 0 (da - db + 1)) as [Hk | Hk].
    + rewrite Z.max_r by lia. apply Zdigits2_le_pow; trivial.
      split; trivial.
      assert (Hp : 2 ^ da = 2 ^ (da - db + 1) * 2 ^ (db - 1)).
      { rewrite <- Z.pow_add_r by lia. f_equal. lia. }
      assert (0 < 2 ^ (da - db + 1)) by (apply Z.pow_pos_nonneg; lia).
      assert (0 < 2 ^ (db - 1)) by (apply Z.pow_pos_nonneg; lia).
      nia.
    + rewrite Z.max_l by lia.
      assert (Hlt : 2 ^ da < 2 ^ (db - 1))
        by (apply Z.pow_lt_mono_r; lia).
      assert (Hq : q = 0) by nia. rewrite Hq. reflexivity.
Qed.


Section Division.

Variables prec emax : Z.

Lemma SFdiv_core_binary_nonneg (m1 m2 : positive) (e1 e2 : Z) :
  0 <= fst (fst (SFdiv_core_binary prec emax (Zpos m1) e1 (Zpos m2) e2)).
Proof.
  unfold SFdiv_core_binary.
  set (s := e1 - e2 - _).
  set (m' := match s with Zpos _ => Z.shiftl (Zpos m1) s | Z0 => Zpos m1
                        | Zneg _ => 0 end).
  assert (Hm' : 0 <= m').
  { subst m'. destruct s; try lia. apply Z.shiftl_nonneg. lia. }
  pose proof (Z_div_mod m' (Zpos m2) eq_refl) as H.
  destruct (Z.div_eucl m' (Zpos m2)) as [q r]. simpl.
  destruct H as [H1 H2]. nia.
Qed.

(** A quotient by a finite divisor that is not zero is a NaN only if the
    dividend is one. *)
Lemma SFdiv_not_nan (x : spec_float) (s : bool) (m : positive) (e : Z) :
  x <> S754_nan -> SFdiv prec emax x (S754_finite s m e) <> S754_nan.
Proof.
  intros H. destruct x as [sx | sx | | sx mx ex]; simpl; try discriminate.
  - congruence.
  - pose proof (SFdiv_core_binary_nonneg mx m ex e) as Hq.
    destruct (SFdiv_core_binary prec emax (Zpos mx) ex (Zpos m) e)
      as [[q ez] l].
    apply binary_round_aux_not_nan. exact Hq.
Qed.

End Division.

Section DivisionRange.

Variables prec emax : Z.
Hypothesis prec_pos : 0 < prec.
Hypothesis emax_big : 3 <= 2 * emax.

(** The quotient of two finite floats is finite when the magnitudes of the
    operands leave room for it. *)
Lemma SFdiv_finite (sx sy s' : bool) (mx my : positive) (ex ey : Z) :
  Zpos (digits2_pos mx) + ex - (Zpos (digits2_pos my) + ey) + 1 < emax ->
  SFdiv prec emax (S754_finite sx mx ex) (S754_finite sy my ey)
  <> S754_infinity s'.
Proof.
  intros Hd. cbn [SFdiv]. unfold SFdiv_core_binary. cbn [Zdigits2].
  set (d1 := Zpos (digits2_pos mx)) in *.
  set (d2 := Zpos (digits2_pos my)) in *.
  set (e' := Z.min (fexp prec emax (d1 + ex - (d2 + ey))) (ex - ey)).
  set (s := ex - ey - e').
  assert (Hs : 0 <= s) by (subst s e'; lia).
  set (m' := match s with Zpos _ => Z.shiftl (Zpos mx) s | Z0 => Zpos mx
                        | Zneg _ => 0 end).
  assert (Em' : m' = Zpos mx * 2 ^ s).
  { subst m'. destruct s as [ | p | p] eqn:Es; try lia.
    apply Z.shiftl_mul_pow2. lia. }
  pose proof (digits2_pos_bounds mx) as [L1 U1].
  pose proof (digits2_pos_bounds my) as B2.
  fold d1 in L1, U1. fold d2 in B2.
  assert (B1 : 2 ^ (d1 + s - 1) <= m' < 2 ^ (d1 + s)).
  { rewrite Em'. replace (d1 + s - 1) with (d1 - 1 + s) by lia.
    rewrite !Z.pow_add_r by (subst d1; lia).
    assert (0 < 2 ^ s) by (apply Z.pow_pos_nonneg; lia). nia. }
  pose proof (quotient_digits m' (Zpos my) (d1 + s) d2
                ltac:(subst d1; lia) ltac:(subst d2; lia) B1 B2) as [Dl Du].
  pose proof (Z.div_pos m' (Zpos my) ltac:(lia) ltac:(lia)) as Q.
  unfold Z.div in Dl, Du, Q.
  destruct (Z.div_eucl m' (Zpos my)) as [q r]. cbn [fst] in Dl, Du, Q.
  apply binary_round_aux_finite; trivial.
  - subst s e'. unfold fexp in *. lia.
  - subst s e'. unfold fexp, emin in *. lia.
Qed.

End DivisionRange.

(** ** Facts on the numbers of the interpreter *)

Lemma feqb_refl (x : float) : x <> S754_nan -> feqb x x = true.
Proof.
  intros H. unfold feqb, SFeqb. now rewrite SFcompare_refl.
Qed.

Lemma is_finite_not_nan (x : float) : is_finite x = true -> x <> S754_nan.
Proof. destruct x; simpl; congruence. Qed.

Lemma fadd_comm (x y : float) : fadd x y = fadd y x.
Proof. apply SFadd_comm. Qed.

Lemma fmul_comm (x y : float) : fmul x y = fmul y x.
Proof. apply SFmul_comm. Qed.

Lemma fadd_not_nan (x y : float) :
  is_finite x = true -> is_finite y = true -> fadd x y <> S754_nan.
Proof.
  destruct x as [sx | sx | | sx mx ex], y as [sy | sy | | sy my ey];
    simpl; try discriminate; intros _ _.
  - destruct sx, sy; discriminate.
  - apply binary_normalize_not_nan.
Qed.

Lemma fsub_not_nan (x y : float) :
  is_finite x = true -> is_finite y = true -> fsub x y <> S754_nan.
Proof.
  destruct x as [sx | sx | | sx mx ex], y as [sy | sy | | sy my ey];
    simpl; try discriminate; intros _ _.
  - destruct sx, sy; discriminate.
  - apply binary_normalize_not_nan.
Qed.

Lemma fmul_not_nan (x y : float) :
  is_finite x = true -> is_finite y = true -> fmul x y <> S754_nan.
Proof.
  destruct x as [sx | sx | | sx mx ex], y as [sy | sy | | sy my ey];
    simpl; try discriminate; intros _ _.
  apply binary_round_aux_not_nan. lia.
Qed.

Lemma fdiv_hundred_not_nan (x : float) :
  x <> S754_nan -> fdiv x f_hundred <> S754_nan.
Proof. apply SFdiv_not_nan. Qed.

(** [x - y] and [-(y - x)] compare equal: they differ at most in the sign of
    a zero. *)
Lemma fsub_antisym (x y : float) :
  is_finite x = true -> is_finite y = true ->
  feqb (fsub x y) (fopp (fsub y x)) = true.
Proof.
  destruct x as [sx | sx | | sx mx ex], y as [sy | sy | | sy my ey];
    simpl; try discriminate; intros _ _.
  - now destruct sx, sy.
  - unfold feqb, SFeqb. simpl.
    rewrite Z.compare_refl, Pos.compare_cont_refl. now destruct sy.
  - unfold feqb, SFeqb. simpl.
    rewrite Z.compare_refl, Pos.compare_cont_refl. now destruct sx.
  - rewrite (Z.min_comm ey ex).
    set (ez := Z.min ex ey).
    set (X := cond_Zopp sx (Zpos (fst (shl_align mx ex ez)))).
    set (Y := cond_Zopp sy (Zpos (fst (shl_align my ey ez)))).
    destruct (Z.eq_dec (X - Y) 0) as [E | E].
    + replace (Y - X) with 0 by lia. rewrite E. reflexivity.
    + replace (Y - X) with (- (X - Y)) by lia.
      rewrite binary_normalize_opp by exact E.
      apply feqb_refl, binary_normalize_not_nan.
Qed.

Lemma int_to_float_finite (n : Z) (x : float) :
  int_to_float n = Ok x -> is_finite x = true.
Proof.
  unfold int_to_float.
  pose proof (binary_normalize_not_nan prec emax n 0 false) as H.
  destruct (binary_normalize prec emax n 0 false);
    intros E; inversion E; subst; simpl; congruence.
Qed.

Lemma py_eq_float (x y : float) : py_eq (PyFloat x) (PyFloat y) = feqb x y.
Proof. reflexivity. Qed.

Lemma py_eq_int (x y : Z) : py_eq (PyInt x) (PyInt y) = (x =? y).
Proof.
  unfold py_eq. simpl. destruct (Z.compare_spec x y) as [E | E | E];
    symmetry; [ now apply Z.eqb_eq | apply Z.eqb_neq; lia
              | apply Z.eqb_neq; lia ].
Qed.

Lemma same_outcome_float (x y : float) :
  feqb x y = true -> same_outcome (Ok (PyFloat x)) (Ok (PyFloat y)).
Proof. intros H. exact H. Qed.

Lemma same_outcome_refl_float (x : float) :
  x <> S754_nan -> same_outcome (Ok (PyFloat x)) (Ok (PyFloat x)).
Proof. intros H. apply same_outcome_float, feqb_refl, H. Qed.

Lemma same_outcome_refl_int (n : Z) :
  same_outcome (Ok (PyInt n)) (Ok (PyInt n)).
Proof. unfold same_outcome. rewrite py_eq_int. apply Z.eqb_refl. Qed.

(** A finite operand converts to a finite float or raises. *)
Lemma as_float_finite (a : num) (x : float) :
  finite_num a = true -> as_float a = Ok x -> is_finite x = true.
Proof.
  destruct a as [n | y]; simpl; intros H E.
  - eapply int_to_float_finite, E.
  - now inversion E; subst.
Qed.

(** A number above the overflow threshold rounds to an infinity. *)

Section Overflow.

Variables prec emax : Z.
Hypothesis prec_pos : 0 < prec.
Hypothesis prec_le_emax : prec <= emax.

Lemma shr_fexp_exponent (m e : Z) (l : location) :
  e <= fexp prec emax (Zdigits2 m + e) ->
  e <= snd (shr_fexp prec emax m e l).
Proof.
  intros H. unfold shr_fexp, shr.
  destruct (fexp prec emax (Zdigits2 m + e) - e); cbn [snd]; lia.
Qed.

Lemma binary_round_aux_overflow (s : bool) (m e : Z) (l : location) :
  0 < m -> e <= fexp prec emax (Zdigits2 m + e) ->
  emax < Zdigits2 m + e ->
  exists s', binary_round_aux prec emax s m e l = S754_infinity s'.
Proof.
  intros Hm He Hd.
  assert (Hu : emin prec emax <= Zdigits2 m + e - prec)
    by (unfold emin; lia).
  pose proof (binary_round_aux_not_nan prec emax s m e l ltac:(lia)) as Hnan.
  pose proof (fun s' => binary_round_aux_nonzero prec emax prec_pos
                          s s' m e l Hm Hu) as Hz.
  unfold binary_round_aux in *.
  destruct (shr_fexp_canonical prec emax m e l ltac:(lia) He) as (E1 & H1 & _).
  destruct (shr_fexp prec emax m e l) as [mrs' e']. cbn [fst snd] in *.
  set (r := round_nearest_even (shr_m mrs') (loc_of_shr_record mrs')) in *.
  assert (E2 : e' <= snd (shr_fexp prec emax r e' loc_Exact)).
  { unfold shr_fexp, shr.
    destruct (fexp prec emax (Zdigits2 r + e') - e'); cbn [snd]; lia. }
  destruct (shr_fexp prec emax r e' loc_Exact) as [mrs'' e''].
  cbn [snd] in E2.
  assert (Hle : (e'' <=? emax - prec) = false).
  { apply Z.leb_gt. unfold fexp in E1. lia. }
  destruct (shr_m mrs'') as [ | q | q].
  - now elim (Hz s).
  - rewrite Hle. now exists s.
  - now elim Hnan.
Qed.

Lemma binary_round_overflow (s : bool) (m : positive) :
  emax < Zpos (digits2_pos m) ->
  exists s', binary_round prec emax s m 0 = S754_infinity s'.
Proof.
  intros Hd. unfold binary_round, shl_align.
  assert (Hf : 0 < fexp prec emax (Zpos (digits2_pos m) + 0))
    by (unfold fexp; lia).
  destruct (fexp prec emax (Zpos (digits2_pos m) + 0) - 0) as [ | d | d] eqn:E;
    try lia;
    apply binary_round_aux_overflow; cbn [Zdigits2]; lia.
Qed.

End Overflow.

(** ** The arithmetic of the interpreter *)

Section Arithmetic.

Variables a b : num.
Hypothesis finite_a : finite_num a = true.
Hypothesis finite_b : finite_num b = true.

Lemma py_add_comm_outcome : same_outcome (py_add a b) (py_add b a).
Proof.
  unfold py_add.
  destruct a as [x | x], b as [y | y];
    try (rewrite Z.add_comm; apply same_outcome_refl_int);
    simpl in *.
  - destruct (int_to_float x) as [x' | e] eqn:E; simpl; trivial.
    rewrite fadd_comm. apply same_outcome_refl_float, fadd_not_nan; trivial.
    eapply int_to_float_finite, E.
  - destruct (int_to_float y) as [y' | e] eqn:E; simpl; trivial.
    rewrite fadd_comm. apply same_outcome_refl_float, fadd_not_nan; trivial.
    eapply int_to_float_finite, E.
  - rewrite fadd_comm. apply same_outcome_refl_float, fadd_not_nan; trivial.
Qed.

Lemma py_mul_comm_outcome : same_outcome (py_mul a b) (py_mul b a).
Proof.
  unfold py_mul.
  destruct a as [x | x], b as [y | y];
    try (rewrite Z.mul_comm; apply same_outcome_refl_int);
    simpl in *.
  - destruct (int_to_float x) as [x' | e] eqn:E; simpl; trivial.
    rewrite fmul_comm. apply same_outcome_refl_float, fmul_not_nan; trivial.
    eapply int_to_float_finite, E.
  - destruct (int_to_float y) as [y' | e] eqn:E; simpl; trivial.
    rewrite fmul_comm. apply same_outcome_refl_float, fmul_not_nan; trivial.
    eapply int_to_float_finite, E.
  - rewrite fmul_comm. apply same_outcome_refl_float, fmul_not_nan; trivial.
Qed.

Lemma py_sub_antisym_outcome :
  same_outcome (py_sub a b) (negated (py_sub b a)).
Proof.
  unfold py_sub, negated.
  destruct a as [x | x], b as [y | y]; simpl in *.
  - replace (- (y - x)) with (x - y) by lia. apply same_outcome_refl_int.
  - destruct (int_to_float x) as [x' | e] eqn:E; simpl; trivial.
    apply same_outcome_float, fsub_antisym; trivial.
    eapply int_to_float_finite, E.
  - destruct (int_to_float y) as [y' | e] eqn:E; simpl; trivial.
    apply same_outcome_float, fsub_antisym; trivial.
    eapply int_to_float_finite, E.
  - apply same_outcome_float, fsub_antisym; trivial.
Qed.

End Arithmetic.

(** ** Conversions and comparisons with zero *)

Lemma binary_round_aux_sign (s : bool) (m e : Z) (l : location) :
  match binary_round_aux prec emax s m e l with
  | S754_zero s' | S754_infinity s' | S754_finite s' _ _ => s' = s
  | S754_nan => True
  end.
Proof.
  unfold binary_round_aux.
  destruct (shr_fexp prec emax m e l) as [mrs' e'].
  destruct (shr_fexp prec emax _ e' loc_Exact) as [mrs'' e''].
  destruct (shr_m mrs''); trivial.
  destruct (e'' <=? emax - prec); reflexivity.
Qed.

Lemma binary_round_int (s : bool) (m : positive) (x : float) :
  binary_round prec emax s m 0 = x ->
  (exists m' e', x = S754_finite s m' e') \/ x = S754_infinity s.
Proof.
  intros E.
  pose proof (binary_round_not_nan prec emax s m 0) as Hnan.
  pose proof (fun s' => binary_round_nonzero prec emax eq_refl s s' m 0) as Hz.
  assert (Hs : match x with
               | S754_zero s' | S754_infinity s' | S754_finite s' _ _ => s' = s
               | S754_nan => True
               end).
  { subst x. unfold binary_round. destruct (shl_align m 0 _) as [mz ez].
    apply binary_round_aux_sign. }
  rewrite E in Hnan, Hz.
  destruct x as [s' | s' | | s' m' e'].
  - exfalso. apply (Hz s'); trivial.
    unfold emin, prec, emax. pose proof (Pos2Z.is_pos (digits2_pos m)). lia.
  - right. now subst.
  - congruence.
  - left. subst. now exists m', e'.
Qed.

(** An [int] converts to a float of its own sign. *)
Lemma int_to_float_cases (n : Z) (x : float) :
  int_to_float n = Ok x ->
  match n with
  | Z0 => x = S754_zero false
  | Zpos _ => exists m e, x = S754_finite false m e
  | Zneg _ => exists m e, x = S754_finite true m e
  end.
Proof.
  unfold int_to_float. destruct n as [ | p | p]; cbn [binary_normalize].
  - intros E. now inversion E.
  - destruct (binary_round_int false p _ eq_refl) as [(m & e & H) | H];
      rewrite H; intros E; inversion E. now exists m, e.
  - destruct (binary_round_int true p _ eq_refl) as [(m & e & H) | H];
      rewrite H; intros E; inversion E. now exists m, e.
Qed.

Lemma compare_float_int_zero (x : float) :
  compare_float_int x 0 = fcompare x f_zero.
Proof.
  destruct x as [s | s | | s m e]; cbn [compare_float_int]; trivial.
  unfold fcompare, f_zero, SFcompare. f_equal.
  destruct (0 <=? e) eqn:E.
  - apply Z.leb_le in E. pose proof (Z.pow_pos_nonneg 2 e).
    destruct s; cbn [cond_Zopp]; [ apply Z.compare_lt_iff
                                 | apply Z.compare_gt_iff ]; nia.
  - now destruct s.
Qed.

(** The converted operand compares with [0.0] as the operand with [0]. *)
Lemma as_float_compare_zero (a : num) (x : float) :
  as_float a = Ok x -> fcompare x f_zero = py_compare a (PyInt 0).
Proof.
  destruct a as [n | y]; cbn [as_float py_compare].
  - intros E. apply int_to_float_cases in E.
    destruct n as [ | p | p].
    + now subst.
    + destruct E as (m & e & ->). reflexivity.
    + destruct E as (m & e & ->). reflexivity.
  - intros E. inversion E; subst. symmetry. apply compare_float_int_zero.
Qed.

Lemma as_float_eq_zero (a : num) (x : float) :
  as_float a = Ok x -> feqb x f_zero = py_eq a (PyInt 0).
Proof.
  intros E. unfold feqb, SFeqb, py_eq.
  now rewrite <- (as_float_compare_zero a x E).
Qed.

Lemma as_float_lt_zero (a : num) (x : float) :
  as_float a = Ok x -> fltb x f_zero = py_lt a (PyInt 0).
Proof.
  intros E. unfold fltb, SFltb, py_lt.
  now rewrite <- (as_float_compare_zero a x E).
Qed.

Lemma fltb_zero_gt (x : float) :
  fltb f_zero x = match fcompare x f_zero with Some Gt => true | _ => false end.
Proof.
  destruct x as [s | s | | s m e]; trivial; now destruct s.
Qed.

Lemma as_float_gt_zero (a : num) (x : float) :
  as_float a = Ok x -> fltb f_zero x = py_gt a (PyInt 0).
Proof.
  intros E. rewrite fltb_zero_gt. unfold py_gt.
  now rewrite <- (as_float_compare_zero a x E).
Qed.

Lemma py_eq_zero_cases (b : num) :
  py_eq b (PyInt 0) = true <->
  b = PyInt 0 \/ b = PyFloat (S754_zero false) \/ b = PyFloat (S754_zero true).
Proof.
  split.
  - destruct b as [n | x].
    + rewrite py_eq_int. intros H. apply Z.eqb_eq in H. left. now subst.
    + unfold py_eq. cbn [py_compare]. rewrite compare_float_int_zero.
      destruct x as [[ | ] | [ | ] | | [ | ] m e]; simpl; try discriminate;
        auto.
  - intros [-> | [-> | ->]]; reflexivity.
Qed.

Lemma py_ge_not_lt (a b : num) : py_ge a b = true -> py_lt a b = false.
Proof.
  unfold py_ge, py_lt. now destruct (py_compare a b) as [[ | | ] | ].
Qed.

(** ** The true division *)

Lemma int_true_divide_outcomes (x y : Z) :
  (exists q, int_true_divide x y = Ok (PyFloat q)) \/
  int_true_divide x y = Raise int_division_too_large.
Proof.
  unfold int_true_divide. destruct x as [ | p | p].
  - left. eauto.
  - destruct (fdiv _ _); eauto.
  - destruct (fdiv _ _); eauto.
Qed.

(** Past the guard the division returns a float, or an [int] operand is too
    large for one; the division by zero of the interpreter is out of reach. *)
Lemma py_truediv_nonzero_outcomes (a b : num) :
  py_eq b (PyInt 0) = false ->
  (exists q, py_truediv a b = Ok (PyFloat q)) \/
  (exists e, py_truediv a b = Raise e /\ exn_cls e = OverflowError /\
             is_int a || is_int b = true).
Proof.
  intros H. unfold py_truediv.
  destruct a as [x | x], b as [y | y].
  - rewrite py_eq_int in H. rewrite H.
    destruct (int_true_divide_outcomes x y) as [[q E] | E]; rewrite E.
    + left. now exists q.
    + right. now exists int_division_too_large.
  - cbn [as_float bind]. destruct (int_to_float x) as [x' | e] eqn:E.
    + cbn [bind]. rewrite (as_float_eq_zero (PyFloat y) y eq_refl), H.
      left. eauto.
    + right. exists e. unfold int_to_float in E.
      destruct (binary_normalize _ _ _ _ _); inversion E. now subst.
  - cbn [as_float bind]. destruct (int_to_float y) as [y' | e] eqn:E.
    + cbn [bind]. rewrite (as_float_eq_zero (PyInt y) y' E), H.
      left. eauto.
    + right. exists e. unfold int_to_float in E.
      destruct (binary_normalize _ _ _ _ _); inversion E. now subst.
  - cbn [as_float bind]. rewrite (as_float_eq_zero (PyFloat y) y eq_refl), H.
    left. eauto.
Qed.

(** ** The power *)

Lemma int_to_float_error (n : Z) (e : exn) :
  int_to_float n = Raise e -> e = int_too_large.
Proof.
  unfold int_to_float.
  destruct (binary_normalize _ _ _ _ _); intros E; now inversion E.
Qed.

Lemma as_float_error (a : num) (e : exn) :
  as_float a = Raise e -> e = int_too_large /\ is_int a = true.
Proof.
  destruct a as [n | x]; cbn [as_float].
  - intros E. split; trivial. eapply int_to_float_error, E.
  - discriminate.
Qed.




(** With the exponent one half and a base that is not negative, [float_pow]
    returns a float unless the C library reports a range error. *)
Lemma float_pow_half (P : platform) (iv : float) :
  fltb iv f_zero = false ->
  (exists r, float_pow P iv f_half = Ok (VNum (PyFloat r))) \/
  (float_pow P iv f_half = Raise result_out_of_range /\
   is_inf (c_pow P iv f_half) = true).
Proof.
  intros H. unfold float_pow. rewrite H. cbn [andb].
  change (feqb f_half f_zero) with false.
  change (is_nan f_half) with false.
  change (is_inf f_half) with false.
  change (fltb f_half f_zero) with false.
  cbv iota.
  split_ifs; eauto.
Qed.

Lemma py_pow_half (P : platform) (a : num) :
  py_pow P a (PyFloat f_half)
  = iv <- as_float a ;; float_pow P iv f_half.
Proof. now destruct a. Qed.

(** ** Results that compare equal to themselves *)

Lemma py_eq_refl_float (x : float) :
  x <> S754_nan -> py_eq (PyFloat x) (PyFloat x) = true.
Proof. intros H. rewrite py_eq_float. now apply feqb_refl. Qed.

Lemma py_eq_refl_int (n : Z) : py_eq (PyInt n) (PyInt n) = true.
Proof. rewrite py_eq_int. apply Z.eqb_refl. Qed.

Lemma same_outcome_refl (r : result num) :
  (forall x, r = Ok (PyFloat x) -> x <> S754_nan) -> same_outcome r r.
Proof.
  intros H. destruct r as [[n | x] | e]; cbn [same_outcome]; trivial.
  - apply py_eq_refl_int.
  - apply py_eq_refl_float. now apply H.
Qed.

Lemma int_true_divide_not_nan (x y : Z) (q : float) :
  int_true_divide x y = Ok (PyFloat q) -> q <> S754_nan.
Proof.
  unfold int_true_divide. destruct x as [ | p | p].
  - intros E. inversion E. discriminate.
  - pose proof (SFdiv_not_nan prec emax
                  (S754_finite (Z.pos p <? 0) (Z.to_pos (Z.abs (Z.pos p))) 0)
                  (y <? 0) (Z.to_pos (Z.abs y)) 0) as H.
    fold (fdiv (S754_finite (Z.pos p <? 0) (Z.to_pos (Z.abs (Z.pos p))) 0)
               (S754_finite (y <? 0) (Z.to_pos (Z.abs y)) 0)) in H.
    destruct (fdiv _ _); intros E; inversion E; subst;
      apply H; discriminate.
  - pose proof (SFdiv_not_nan prec emax
                  (S754_finite (Z.neg p <? 0) (Z.to_pos (Z.abs (Z.neg p))) 0)
                  (y <? 0) (Z.to_pos (Z.abs y)) 0) as H.
    fold (fdiv (S754_finite (Z.neg p <? 0) (Z.to_pos (Z.abs (Z.neg p))) 0)
               (S754_finite (y <? 0) (Z.to_pos (Z.abs y)) 0)) in H.
    destruct (fdiv _ _); intros E; inversion E; subst;
      apply H; discriminate.
Qed.

(** A float operation on finite operands never gives a NaN. *)
Lemma float_op_not_nan (a b : num) (f : float -> float -> float) (z : float) :
  finite_num a = true -> finite_num b = true ->
  (forall x y, is_finite x = true -> is_finite y = true ->
               f x y <> S754_nan) ->
  (x <- as_float a ;; y <- as_float b ;; Ok (PyFloat (f x y)))
  = Ok (PyFloat z) ->
  z <> S754_nan.
Proof.
  intros Ha Hb Hf.
  destruct (as_float a) as [x | e] eqn:Ea; cbn [bind]; try discriminate.
  destruct (as_float b) as [y | e] eqn:Eb; cbn [bind]; try discriminate.
  intros E. inversion E. subst.
  apply Hf; [ apply (as_float_finite a) | apply (as_float_finite b) ];
    trivial.
Qed.

Lemma py_add_not_nan (a b : num) (z : float) :
  finite_num a = true -> finite_num b = true ->
  py_add a b = Ok (PyFloat z) -> z <> S754_nan.
Proof.
  intros Ha Hb. unfold py_add.
  destruct a as [x | x], b as [y | y]; try discriminate;
    apply (float_op_not_nan _ _ fadd z Ha Hb fadd_not_nan).
Qed.

Lemma py_sub_not_nan (a b : num) (z : float) :
  finite_num a = true -> finite_num b = true ->
  py_sub a b = Ok (PyFloat z) -> z <> S754_nan.
Proof.
  intros Ha Hb. unfold py_sub.
  destruct a as [x | x], b as [y | y]; try discriminate;
    apply (float_op_not_nan _ _ fsub z Ha Hb fsub_not_nan).
Qed.

Lemma py_mul_not_nan (a b : num) (z : float) :
  finite_num a = true -> finite_num b = true ->
  py_mul a b = Ok (PyFloat z) -> z <> S754_nan.
Proof.
  intros Ha Hb. unfold py_mul.
  destruct a as [x | x], b as [y | y]; try discriminate;
    apply (float_op_not_nan _ _ fmul z Ha Hb fmul_not_nan).
Qed.

Lemma percent_not_nan (a b : num) (z : float) :
  finite_num a = true -> finite_num b = true ->
  (p <- py_mul a b ;; py_truediv p (PyInt 100)) = Ok (PyFloat z) ->
  z <> S754_nan.
Proof.
  intros Ha Hb.
  destruct (py_mul a b) as [[p | p] | e] eqn:E; cbn [bind];
    try discriminate.
  - change (py_truediv (PyInt p) (PyInt 100)) with (int_true_divide p 100).
    apply int_true_divide_not_nan.
  - change (py_truediv (PyFloat p) (PyInt 100))
      with (Ok (A := num) (PyFloat (fdiv p f_hundred))).
    intros H. inversion H. apply fdiv_hundred_not_nan.
    now apply (py_mul_not_nan a b).
Qed.

(** ** Operands inside the range of a float *)

Lemma digits_below_emax (m : positive) :
  Zpos m < 2 ^ 1023 -> Zpos (digits2_pos m) <= 1023.
Proof.
  intros H. apply (Zdigits2_le_pow (Zpos m) 1023); lia.
Qed.

Lemma int_to_float_fits (n : Z) :
  Z.abs n < 2 ^ 1023 -> exists x, int_to_float n = Ok x.
Proof.
  intros H. unfold int_to_float.
  destruct n as [ | m | m]; cbn [binary_normalize].
  - eauto.
  - pose proof (digits_below_emax m H) as Hd.
    pose proof (fun s' => binary_round_finite prec emax eq_refl
                            ltac:(discriminate) false s' m 0) as Hf.
    destruct (binary_round prec emax false m 0) as [s | s | | s m' e'];
      eauto.
    exfalso. apply (Hf s); trivial. unfold emax. lia.
  - pose proof (digits_below_emax m H) as Hd.
    pose proof (fun s' => binary_round_finite prec emax eq_refl
                            ltac:(discriminate) true s' m 0) as Hf.
    destruct (binary_round prec emax true m 0) as [s | s | | s m' e'];
      eauto.
    exfalso. apply (Hf s); trivial. unfold emax. lia.
Qed.

Lemma as_float_fits (a : num) :
  fits_float a = true -> exists x, as_float a = Ok x.
Proof.
  destruct a as [n | x]; cbn [fits_float as_float].
  - intros H. apply int_to_float_fits. now apply Z.ltb_lt.
  - eauto.
Qed.

Lemma int_true_divide_fits (x y : Z) :
  Z.abs x < 2 ^ 1023 -> y <> 0 ->
  exists q, int_true_divide x y = Ok (PyFloat q).
Proof.
  intros Hx Hy.
  destruct (int_true_divide_outcomes x y) as [H | H]; trivial.
  exfalso. revert H. unfold int_true_divide.
  destruct x as [ | p | p]; try discriminate.
  - pose proof (digits_below_emax p Hx) as Hd.
    pose proof (fun s' => SFdiv_finite prec emax eq_refl ltac:(discriminate)
                  (Z.pos p <? 0) (y <? 0) s'
                  (Z.to_pos (Z.abs (Z.pos p))) (Z.to_pos (Z.abs y)) 0 0)
      as Hf.
    fold (fdiv (S754_finite (Z.pos p <? 0) (Z.to_pos (Z.abs (Z.pos p))) 0)
               (S754_finite (y <? 0) (Z.to_pos (Z.abs y)) 0)) in Hf.
    destruct (fdiv _ _) as [s | s | | s m' e']; try discriminate.
    intros _. apply (Hf s); trivial.
    cbn [Z.abs Z.to_pos]. unfold emax. lia.
  - pose proof (digits_below_emax p Hx) as Hd.
    pose proof (fun s' => SFdiv_finite prec emax eq_refl ltac:(discriminate)
                  (Z.neg p <? 0) (y <? 0) s'
                  (Z.to_pos (Z.abs (Z.neg p))) (Z.to_pos (Z.abs y)) 0 0)
      as Hf.
    fold (fdiv (S754_finite (Z.neg p <? 0) (Z.to_pos (Z.abs (Z.neg p))) 0)
               (S754_finite (y <? 0) (Z.to_pos (Z.abs y)) 0)) in Hf.
    destruct (fdiv _ _) as [s | s | | s m' e']; try discriminate.
    intros _. apply (Hf s); trivial.
    cbn [Z.abs Z.to_pos]. unfold emax. lia.
Qed.

(** Inside the range of a float the division never raises past the guard. *)
Lemma py_truediv_fits (a b : num) :
  fits_float a = true -> fits_float b = true ->
  py_eq b (PyInt 0) = false ->
  exists q, py_truediv a b = Ok (PyFloat q).
Proof.
  intros Ha Hb H.
  destruct (py_truediv_nonzero_outcomes a b H) as [E | (e & E & _ & _)];
    trivial.
  exfalso. revert E. unfold py_truediv.
  destruct (as_float_fits a Ha) as [x Ea].
  destruct (as_float_fits b Hb) as [y Eb].
  destruct a as [n | x'], b as [n' | y'].
  - rewrite py_eq_int in H. rewrite H.
    destruct (int_true_divide_fits n n') as [q Eq].
    + now apply Z.ltb_lt.
    + now apply Z.eqb_neq.
    + now rewrite Eq.
  - rewrite Ea, Eb. cbn [bind].
    rewrite (as_float_eq_zero _ _ Eb), H. discriminate.
  - rewrite Ea, Eb. cbn [bind].
    rewrite (as_float_eq_zero _ _ Eb), H. discriminate.
  - rewrite Ea, Eb. cbn [bind].
    rewrite (as_float_eq_zero _ _ Eb), H. discriminate.
Qed.

(** Inside the range of a float the three ring operations return. *)
Lemma py_add_fits (a b : num) :
  fits_float a = true -> fits_float b = true -> exists v, py_add a b = Ok v.
Proof.
  intros Ha Hb. unfold py_add.
  destruct (as_float_fits a Ha) as [x Ea], (as_float_fits b Hb) as [y Eb].
  destruct a, b; rewrite ?Ea, ?Eb; cbn [bind]; eauto.
Qed.

Lemma py_sub_fits (a b : num) :
  fits_float a = true -> fits_float b = true -> exists v, py_sub a b = Ok v.
Proof.
  intros Ha Hb. unfold py_sub.
  destruct (as_float_fits a Ha) as [x Ea], (as_float_fits b Hb) as [y Eb].
  destruct a, b; rewrite ?Ea, ?Eb; cbn [bind]; eauto.
Qed.

Lemma py_mul_fits (a b : num) :
  fits_float a = true -> fits_float b = true -> exists v, py_mul a b = Ok v.
Proof.
  intros Ha Hb. unfold py_mul.
  destruct (as_float_fits a Ha) as [x Ea], (as_float_fits b Hb) as [y Eb].
  destruct a, b; rewrite ?Ea, ?Eb; cbn [bind]; eauto.
Qed.

(** Two expressions that agree and return: the values compare equal. *)
Lemma same_outcome_returns (r r' : result num) :
  same_outcome r r' -> (exists v, r = Ok v) ->
  exists v v', r = Ok v /\ r' = Ok v' /\ py_eq v v' = true.
Proof.
  intros H [v ->]. destruct r' as [v' | e]; cbn [same_outcome] in H.
  - now exists v, v'.
  - contradiction.
Qed.

(** ** The type of a result *)

Lemma float_op_returns_float (a b : num) (f : float -> float -> float)
  (v : num) :
  (x <- as_float a ;; y <- as_float b ;; Ok (PyFloat (f x y))) = Ok v ->
  is_int v = false.
Proof.
  destruct (as_float a) as [x | e]; cbn [bind]; try discriminate.
  destruct (as_float b) as [y | e]; cbn [bind]; try discriminate.
  intros E. now inversion E.
Qed.

Lemma py_truediv_returns_float (a b v : num) :
  py_truediv a b = Ok v -> is_int v = false.
Proof.
  unfold py_truediv. destruct a as [x | x], b as [y | y].
  - destruct (y =? 0); try discriminate.
    destruct (int_true_divide_outcomes x y) as [[q E] | E]; rewrite E;
      intros H; now inversion H.
  - cbn [as_float bind]. destruct (int_to_float x); cbn [bind];
      try discriminate.
    destruct (feqb y f_zero); intros H; now inversion H.
  - cbn [as_float bind]. destruct (int_to_float y) as [y' | e]; cbn [bind];
      try discriminate.
    destruct (feqb y' f_zero); intros H; now inversion H.
  - cbn [as_float bind].
    destruct (feqb y f_zero); intros H; now inversion H.
Qed.

Lemma float_pow_not_int (P : platform) (iv iw : float) (n : Z) :
  float_pow P iv iw <> Ok (VNum (PyInt n)).
Proof.
  unfold float_pow. split_ifs; discriminate.
Qed.

Lemma float_pow_obj_not_int (P : platform) (a b : num) (n : Z) :
  (iv <- as_float a ;; iw <- as_float b ;; float_pow P iv iw)
  <> Ok (VNum (PyInt n)).
Proof.
  destruct (as_float a) as [x | e]; cbn [bind]; try discriminate.
  destruct (as_float b) as [y | e]; cbn [bind]; try discriminate.
  apply float_pow_not_int.
Qed.


(** An [int] that converts to a float is below [2 ** 1024] in magnitude. *)
Lemma int_to_float_range (n : Z) (x : float) :
  int_to_float n = Ok x -> Z.abs n < 2 ^ 1024.
Proof.
  intros E. destruct (Z.lt_ge_cases (Z.abs n) (2 ^ 1024)) as [H | H]; trivial.
  exfalso. unfold int_to_float in E.
  assert (Hp : 0 < 2 ^ 1024) by (apply Z.pow_pos_nonneg; lia).
  destruct n as [ | m | m]; cbn [Z.abs binary_normalize] in *; try lia.
  - pose proof (Zdigits2_ge_pow (Zpos m) 1025 H) as Hd. cbn [Zdigits2] in Hd.
    destruct (binary_round_overflow prec emax eq_refl ltac:(discriminate)
                false m) as [s' Hi]; [ unfold emax; lia | ].
    rewrite Hi in E. discriminate.
  - pose proof (Zdigits2_ge_pow (Zpos m) 1025 H) as Hd. cbn [Zdigits2] in Hd.
    destruct (binary_round_overflow prec emax eq_refl ltac:(discriminate)
                true m) as [s' Hi]; [ unfold emax; lia | ].
    rewrite Hi in E. discriminate.
Qed.
(** ** The logging lines *)

(** The bound on the digits of a text is far above the range of a float. *)
Lemma str_limit_above_float : 2 ^ 2046 < 10 ^ int_max_str_digits.
Proof.
  apply Z.lt_le_trans with (2 ^ int_max_str_digits).
  - apply Z.pow_lt_mono_r; unfold int_max_str_digits; lia.
  - apply Z.pow_le_mono_l. lia.
Qed.

Lemma printable_below (n : Z) :
  Z.abs n < 2 ^ 2046 -> printable (PyInt n) = true.
Proof.
  intros H. apply Z.ltb_lt.
  eapply Z.lt_trans; [ exact H | apply str_limit_above_float ].
Qed.

Lemma printable_fits (a : num) : fits_float a = true -> printable a = true.
Proof.
  destruct a as [n | x]; [ | reflexivity ]. cbn [fits_float]. intros H.
  apply Z.ltb_lt in H. apply printable_below.
  eapply Z.lt_trans; [ exact H | ]. apply Z.pow_lt_mono_r; lia.
Qed.

Lemma printable_float (v : num) : is_int v = false -> printable v = true.
Proof. destruct v; [ discriminate | reflexivity ]. Qed.

Lemma printable_neg (a : num) : printable (py_neg a) = printable a.
Proof.
  destruct a as [n | x]; cbn [py_neg printable]; trivial.
  now rewrite Z.abs_opp.
Qed.

Lemma printable_le (m n : Z) :
  Z.abs m <= Z.abs n -> printable (PyInt n) = true ->
  printable (PyInt m) = true.
Proof.
  cbn [printable]. rewrite !Z.ltb_lt.
  generalize (10 ^ int_max_str_digits). lia.
Qed.

Lemma not_printable (n : Z) :
  10 ^ int_max_str_digits <= Z.abs n -> printable (PyInt n) = false.
Proof. intros H. now apply Z.ltb_ge. Qed.

Lemma printable_zero : printable (PyInt 0) = true.
Proof. apply printable_below. apply Z.pow_pos_nonneg; lia. Qed.

Lemma printable_one : printable (PyInt 1) = true.
Proof.
  apply printable_below. change (Z.abs 1) with (2 ^ 0).
  apply Z.pow_lt_mono_r; lia.
Qed.

(** An operand that converts to a float has a text. *)
Lemma as_float_printable (a : num) (x : float) :
  as_float a = Ok x -> printable a = true.
Proof.
  destruct a as [n | y]; cbn [as_float]; [ | reflexivity ].
  intros E. apply int_to_float_range in E. apply printable_below.
  eapply Z.lt_trans; [ exact E | ]. apply Z.pow_lt_mono_r; lia.
Qed.

(** What a logging line does: nothing, or the [ValueError] of a field. *)
Lemma logger_info_one (a : num) :
  logger_info [VNum a] = if printable a then Ok tt else Raise int_str_limit.
Proof.
  unfold logger_info. cbn [f_string format_field].
  now destruct (printable a).
Qed.

Lemma logger_info_two (a b : num) :
  logger_info [VNum a; VNum b]
  = if printable a && printable b then Ok tt else Raise int_str_limit.
Proof.
  unfold logger_info. cbn [f_string format_field].
  now destruct (printable a), (printable b).
Qed.

Lemma logger_info_value (v : value) :
  logger_info [v] = if printable_value v then Ok tt else Raise int_str_limit.
Proof.
  destruct v as [a | re im]; [ apply logger_info_one | reflexivity ].
Qed.

Lemma logged_float (r : result num) :
  (forall v, r = Ok v -> is_int v = false) -> logged r = r.
Proof.
  intros H. destruct r as [v | e]; cbn [logged bind]; trivial.
  now rewrite (printable_float v (H v eq_refl)).
Qed.

Lemma logged_printable (r : result num) :
  (forall v, r = Ok v -> printable v = true) -> logged r = r.
Proof.
  intros H. destruct r as [v | e]; cbn [logged bind]; trivial.
  now rewrite (H v eq_refl).
Qed.

Lemma logged_returns (r : result num) (v : num) :
  logged r = Ok v <-> r = Ok v /\ printable v = true.
Proof.
  destruct r as [w | e]; cbn [logged bind].
  - destruct (printable w) eqn:E; split.
    + intros H. inversion H. subst. auto.
    + now intros [H _].
    + discriminate.
    + intros [H Hv]. inversion H. subst. congruence.
  - split; [ discriminate | now intros [H _] ].
Qed.

Lemma logged_raises (r : result num) (e : exn) :
  logged r = Raise e <->
  r = Raise e \/
  (e = int_str_limit /\ exists v, r = Ok v /\ printable v = false).
Proof.
  destruct r as [w | e']; cbn [logged bind].
  - destruct (printable w) eqn:E; split.
    + discriminate.
    + intros [H | (_ & v & H & Hv)]; [ discriminate | ].
      inversion H. subst. congruence.
    + intros H. inversion H. right. eauto.
    + intros [H | (-> & _)]; [ discriminate | reflexivity ].
  - split; [ auto | ].
    intros [H | (_ & v & H & _)]; [ exact H | discriminate ].
Qed.

Lemma logged_value_returns (r : result value) (v : value) :
  logged_value r = Ok v <-> r = Ok v /\ printable_value v = true.
Proof.
  destruct r as [w | e]; cbn [logged_value bind].
  - destruct (printable_value w) eqn:E; split.
    + intros H. inversion H. subst. auto.
    + now intros [H _].
    + discriminate.
    + intros [H Hv]. inversion H. subst. congruence.
  - split; [ discriminate | now intros [H _] ].
Qed.

Lemma logged_value_raises (r : result value) (e : exn) :
  logged_value r = Raise e <->
  r = Raise e \/
  (e = int_str_limit /\ exists v, r = Ok v /\ printable_value v = false).
Proof.
  destruct r as [w | e']; cbn [logged_value bind].
  - destruct (printable_value w) eqn:E; split.
    + discriminate.
    + intros [H | (_ & v & H & Hv)]; [ discriminate | ].
      inversion H. subst. congruence.
    + intros H. inversion H. right. eauto.
    + intros [H | (-> & _)]; [ discriminate | reflexivity ].
  - split; [ auto | ].
    intros [H | (_ & v & H & _)]; [ exact H | discriminate ].
Qed.

(** The power with a float exponent never returns an [int]. *)
Lemma py_pow_float_exponent (P : platform) (a : num) (w : float) (r : value) :
  py_pow P a (PyFloat w) = Ok r -> printable_value r = true.
Proof.
  intros E. destruct r as [[n | x] | re im]; trivial.
  exfalso. revert E. destruct a as [y | y];
    apply (float_pow_obj_not_int P _ (PyFloat w)).
Qed.

(** Each operation, with its logging lines read off. *)
Lemma add_logged (a b : num) :
  add a b
  = if printable a && printable b then logged (py_add a b)
    else Raise int_str_limit.
Proof.
  unfold add, logged. rewrite logger_info_two.
  destruct (printable a && printable b); cbn [bind]; trivial.
  destruct (py_add a b) as [r | e]; cbn [bind]; trivial.
  rewrite logger_info_one. now destruct (printable r).
Qed.

Lemma subtract_logged (a b : num) :
  subtract a b
  = if printable a && printable b then logged (py_sub a b)
    else Raise int_str_limit.
Proof.
  unfold subtract, logged. rewrite logger_info_two, andb_comm.
  destruct (printable a && printable b); cbn [bind]; trivial.
  destruct (py_sub a b) as [r | e]; cbn [bind]; trivial.
  rewrite logger_info_one. now destruct (printable r).
Qed.

Lemma multiply_logged (a b : num) :
  multiply a b
  = if printable a && printable b then logged (py_mul a b)
    else Raise int_str_limit.
Proof.
  unfold multiply, logged. rewrite logger_info_two.
  destruct (printable a && printable b); cbn [bind]; trivial.
  destruct (py_mul a b) as [r | e]; cbn [bind]; trivial.
  rewrite logger_info_one. now destruct (printable r).
Qed.

Lemma divide_logged (a b : num) :
  divide a b
  = if printable a && printable b
    then if py_eq b (PyInt 0) then Raise divide_by_zero else py_truediv a b
    else Raise int_str_limit.
Proof.
  unfold divide. rewrite logger_info_two.
  destruct (printable a && printable b); cbn [bind]; trivial.
  destruct (py_eq b (PyInt 0)); trivial.
  destruct (py_truediv a b) as [r | e] eqn:E; cbn [bind]; trivial.
  rewrite logger_info_one, (printable_float r); trivial.
  eapply py_truediv_returns_float, E.
Qed.

Lemma power_logged (P : platform) (a b : num) :
  power P a b
  = if printable a && printable b then logged_value (py_pow P a b)
    else Raise int_str_limit.
Proof.
  unfold power, logged_value. rewrite logger_info_two.
  destruct (printable a && printable b); cbn [bind]; trivial.
  destruct (py_pow P a b) as [r | e]; cbn [bind]; trivial.
  rewrite logger_info_value. now destruct (printable_value r).
Qed.

Lemma square_root_logged (P : platform) (a : num) :
  square_root P a
  = if printable a
    then if py_lt a (PyInt 0) then Raise negative_square_root
         else py_pow P a (PyFloat f_half)
    else Raise int_str_limit.
Proof.
  unfold square_root. rewrite logger_info_one.
  destruct (printable a); cbn [bind]; trivial.
  destruct (py_lt a (PyInt 0)); trivial.
  destruct (py_pow P a (PyFloat f_half)) as [r | e] eqn:E; cbn [bind];
    trivial.
  now rewrite logger_info_value, (py_pow_float_exponent P a f_half r E).
Qed.

Lemma percentage_logged (a b : num) :
  percentage a b
  = if printable a && printable b
    then p <- py_mul a b ;; py_truediv p (PyInt 100)
    else Raise int_str_limit.
Proof.
  unfold percentage. rewrite logger_info_two, andb_comm.
  destruct (printable a && printable b); cbn [bind]; trivial.
  destruct (py_mul a b) as [p | e]; cbn [bind]; trivial.
  destruct (py_truediv p (PyInt 100)) as [r | e] eqn:E; cbn [bind]; trivial.
  rewrite logger_info_one, (printable_float r); trivial.
  eapply py_truediv_returns_float, E.
Qed.


Lemma square_root_beyond_limit (P : platform) (a : num) :
  printable a = false -> square_root P a = Raise int_str_limit.
Proof. intros H. now rewrite square_root_logged, H. Qed.

(** Inside the limit the two guarded operations are their guard and then
    the operator. *)
Lemma divide_within (a b : num) :
  printable a = true -> printable b = true ->
  divide a b
  = if py_eq b (PyInt 0) then Raise divide_by_zero else py_truediv a b.
Proof. intros Ha Hb. now rewrite divide_logged, Ha, Hb. Qed.

Lemma square_root_within (P : platform) (a : num) :
  printable a = true ->
  square_root P a
  = if py_lt a (PyInt 0) then Raise negative_square_root
    else py_pow P a (PyFloat f_half).
Proof. intros Ha. now rewrite square_root_logged, Ha. Qed.

Lemma percentage_within (a b : num) :
  printable a = true -> printable b = true ->
  percentage a b = p <- py_mul a b ;; py_truediv p (PyInt 100).
Proof. intros Ha Hb. now rewrite percentage_logged, Ha, Hb. Qed.

(** ** add, subtract and multiply *)

Lemma py_add_is_int (a b v : num) :
  py_add a b = Ok v -> is_int v = is_int a && is_int b.
Proof.
  unfold py_add. destruct a as [x | x], b as [y | y];
    try apply float_op_returns_float.
  intros E. now inversion E.
Qed.

Lemma py_sub_is_int (a b v : num) :
  py_sub a b = Ok v -> is_int v = is_int a && is_int b.
Proof.
  unfold py_sub. destruct a as [x | x], b as [y | y];
    try apply float_op_returns_float.
  intros E. now inversion E.
Qed.

Lemma py_mul_is_int (a b v : num) :
  py_mul a b = Ok v -> is_int v = is_int a && is_int b.
Proof.
  unfold py_mul. destruct a as [x | x], b as [y | y];
    try apply float_op_returns_float.
  intros E. now inversion E.
Qed.

Lemma is_int_neg (a : num) : is_int (py_neg a) = is_int a.
Proof. now destruct a. Qed.

(** Two values of one type that compare equal have a text together. *)
Lemma printable_py_eq (v v' : num) :
  py_eq v v' = true -> is_int v = is_int v' -> printable v = printable v'.
Proof.
  destruct v as [x | x], v' as [y | y]; try discriminate; trivial.
  rewrite py_eq_int. intros H _. apply Z.eqb_eq in H. now subst.
Qed.

Lemma same_outcome_logged (r r' : result num) :
  same_outcome r r' ->
  (forall v v', r = Ok v -> r' = Ok v' -> is_int v = is_int v') ->
  same_outcome (logged r) (logged r').
Proof.
  destruct r as [v | e], r' as [v' | e']; cbn [same_outcome logged bind];
    try (intros H; contradiction); trivial.
  intros H Hi. rewrite <- (printable_py_eq v v' H (Hi v v' eq_refl eq_refl)).
  now destruct (printable v).
Qed.

Lemma negated_logged (r : result num) : negated (logged r) = logged (negated r).
Proof.
  destruct r as [v | e]; cbn [negated logged bind]; trivial.
  rewrite printable_neg. now destruct (printable v).
Qed.

Section Commutation.

Variables a b : num.
Hypothesis finite_a : finite_num a = true.
Hypothesis finite_b : finite_num b = true.

Lemma add_comm_outcome : same_outcome (add a b) (add b a).
Proof.
  rewrite !add_logged, (andb_comm (printable b)).
  destruct (printable a && printable b); [ | reflexivity ].
  apply same_outcome_logged; [ now apply py_add_comm_outcome | ].
  intros v v' E E'. rewrite (py_add_is_int _ _ _ E), (py_add_is_int _ _ _ E').
  apply andb_comm.
Qed.

Lemma multiply_comm_outcome : same_outcome (multiply a b) (multiply b a).
Proof.
  rewrite !multiply_logged, (andb_comm (printable b)).
  destruct (printable a && printable b); [ | reflexivity ].
  apply same_outcome_logged; [ now apply py_mul_comm_outcome | ].
  intros v v' E E'. rewrite (py_mul_is_int _ _ _ E), (py_mul_is_int _ _ _ E').
  apply andb_comm.
Qed.

Lemma subtract_antisym_outcome :
  same_outcome (subtract a b) (negated (subtract b a)).
Proof.
  rewrite !subtract_logged, (andb_comm (printable b)).
  destruct (printable a && printable b); [ | reflexivity ].
  rewrite negated_logged.
  apply same_outcome_logged; [ now apply py_sub_antisym_outcome | ].
  intros v v' E E'. rewrite (py_sub_is_int _ _ _ E).
  destruct (py_sub b a) as [w | e] eqn:Ew; cbn [negated bind] in E';
    inversion E'.
  rewrite is_int_neg, (py_sub_is_int _ _ _ Ew). apply andb_comm.
Qed.

End Commutation.

(** Inside the range of a float the results of the ring have a text. *)
Lemma ring_fits_printable (a b : num) :
  fits_float a = true -> fits_float b = true ->
  (forall v, py_add a b = Ok v -> printable v = true) /\
  (forall v, py_sub a b = Ok v -> printable v = true) /\
  (forall v, py_mul a b = Ok v -> printable v = true).
Proof.
  intros Ha Hb.
  destruct a as [x | x], b as [y | y];
    try (repeat split; intros v E; apply printable_float;
         [ now rewrite (py_add_is_int _ _ _ E)
         | now rewrite (py_sub_is_int _ _ _ E)
         | now rewrite (py_mul_is_int _ _ _ E) ]).
  cbn [fits_float] in Ha, Hb. apply Z.ltb_lt in Ha, Hb.
  assert (HB : 2 ^ 2046 = 2 ^ 1023 * 2 ^ 1023)
    by (rewrite <- Z.pow_add_r by lia; reflexivity).
  assert (H2 : 2 <= 2 ^ 1023).
  { change 2 with (2 ^ 1) at 1. apply Z.pow_le_mono_r; lia. }
  revert Ha Hb HB H2. generalize (2 ^ 1023). intros B Ha Hb HB H2.
  repeat split; intros v E; inversion E; apply printable_below; rewrite HB.
  - nia.
  - nia.
  - rewrite Z.abs_mul. nia.
Qed.

Lemma add_fits (a b : num) :
  fits_float a = true -> fits_float b = true -> exists v, add a b = Ok v.
Proof.
  intros Ha Hb. destruct (py_add_fits a b Ha Hb) as [v E]. exists v.
  rewrite add_logged, !printable_fits by trivial. cbn [andb].
  apply logged_returns. split; trivial.
  now apply (proj1 (ring_fits_printable a b Ha Hb)).
Qed.

Lemma subtract_fits (a b : num) :
  fits_float a = true -> fits_float b = true -> exists v, subtract a b = Ok v.
Proof.
  intros Ha Hb. destruct (py_sub_fits a b Ha Hb) as [v E]. exists v.
  rewrite subtract_logged, !printable_fits by trivial. cbn [andb].
  apply logged_returns. split; trivial.
  now apply (proj1 (proj2 (ring_fits_printable a b Ha Hb))).
Qed.

Lemma multiply_fits (a b : num) :
  fits_float a = true -> fits_float b = true -> exists v, multiply a b = Ok v.
Proof.
  intros Ha Hb. destruct (py_mul_fits a b Ha Hb) as [v E]. exists v.
  rewrite multiply_logged, !printable_fits by trivial. cbn [andb].
  apply logged_returns. split; trivial.
  now apply (proj2 (proj2 (ring_fits_printable a b Ha Hb))).
Qed.

(** ** divide *)

Lemma divide_zero (a b : num) :
  printable a = true -> printable b = true ->
  py_eq b (PyInt 0) = true -> divide a b = Raise divide_by_zero.
Proof. intros Ha Hb H. now rewrite divide_within, H. Qed.

Lemma divide_nonzero (a b : num) :
  printable a = true -> printable b = true ->
  py_eq b (PyInt 0) = false -> divide a b = py_truediv a b.
Proof. intros Ha Hb H. now rewrite divide_within, H. Qed.

Lemma divide_floats (x y : float) :
  feqb y f_zero = false ->
  divide (PyFloat x) (PyFloat y) = Ok (PyFloat (fdiv x y)).
Proof.
  intros H. rewrite divide_nonzero; trivial.
  - unfold py_truediv. cbn [as_float bind]. now rewrite H.
  - now rewrite <- (as_float_eq_zero (PyFloat y) y eq_refl).
Qed.

(** Every error of [divide]: the [ValueError] of the logging line on an
    operand without a text, the domain violation on a zero divisor, or the
    [OverflowError] of the interpreter on an [int] operand. *)
Lemma divide_errors (a b : num) (e : exn) :
  divide a b = Raise e ->
  (e = int_str_limit /\ printable a && printable b = false) \/
  (e = divide_by_zero /\ py_eq b (PyInt 0) = true /\
   printable a && printable b = true) \/
  (exn_cls e = OverflowError /\ py_eq b (PyInt 0) = false /\
   is_int a || is_int b = true /\ printable a && printable b = true).
Proof.
  rewrite divide_logged.
  destruct (printable a && printable b).
  - destruct (py_eq b (PyInt 0)) eqn:H.
    + intros E. inversion E. auto.
    + intros E. right. right.
      destruct (py_truediv_nonzero_outcomes a b H)
        as [[q Eq] | (e' & Ee & Hc)].
      * congruence.
      * rewrite Ee in E. inversion E. subst. tauto.
  - intros E. inversion E. auto.
Qed.

(** ** power and square_root *)

Lemma logged_value_float_exponent (P : platform) (a : num) (w : float) :
  logged_value (py_pow P a (PyFloat w)) = py_pow P a (PyFloat w).
Proof.
  destruct (py_pow P a (PyFloat w)) as [r | e] eqn:E;
    cbn [logged_value bind]; trivial.
  now rewrite (py_pow_float_exponent P a w r E).
Qed.

Lemma power_float_exponent (P : platform) (a : num) (w : float) :
  printable a = true -> power P a (PyFloat w) = py_pow P a (PyFloat w).
Proof.
  intros Ha. rewrite power_logged, Ha. cbn [printable andb].
  apply logged_value_float_exponent.
Qed.


Lemma square_root_negative (P : platform) (a : num) :
  printable a = true ->
  py_lt a (PyInt 0) = true -> square_root P a = Raise negative_square_root.
Proof. intros Ha H. now rewrite square_root_within, H. Qed.

Lemma square_root_not_negative (P : platform) (a : num) :
  printable a = true ->
  py_lt a (PyInt 0) = false ->
  square_root P a = py_pow P a (PyFloat f_half).
Proof. intros Ha H. now rewrite square_root_within, H. Qed.

Lemma py_pow_half_outcomes (P : platform) (a : num) :
  py_lt a (PyInt 0) = false ->
  (exists r, py_pow P a (PyFloat f_half) = Ok (VNum (PyFloat r))) \/
  (exists e, py_pow P a (PyFloat f_half) = Raise e /\
             exn_cls e = OverflowError).
Proof.
  intros H. rewrite py_pow_half.
  destruct (as_float a) as [iv | e] eqn:Ea; cbn [bind].
  - rewrite <- (as_float_lt_zero a iv Ea) in H.
    destruct (float_pow_half P iv H) as [[r E] | [E _]]; rewrite E; eauto.
  - right. exists e. split; trivial.
    apply as_float_error in Ea. now destruct Ea as [-> _].
Qed.

Lemma square_root_outcomes (P : platform) (a : num) :
  printable a = true ->
  py_lt a (PyInt 0) = false ->
  (exists r, square_root P a = Ok (VNum (PyFloat r))) \/
  (exists e, square_root P a = Raise e /\ exn_cls e = OverflowError).
Proof.
  intros Ha H. rewrite square_root_not_negative by trivial.
  now apply py_pow_half_outcomes.
Qed.

Lemma square_root_errors (P : platform) (a : num) (e : exn) :
  square_root P a = Raise e ->
  (e = int_str_limit /\ printable a = false) \/
  (e = negative_square_root /\ py_lt a (PyInt 0) = true /\
   printable a = true) \/
  (exn_cls e = OverflowError /\ py_lt a (PyInt 0) = false /\
   printable a = true).
Proof.
  destruct (printable a) eqn:Ha.
  - destruct (py_lt a (PyInt 0)) eqn:H.
    + rewrite square_root_negative by trivial. intros E. inversion E. auto.
    + intros E. right. right.
      destruct (square_root_outcomes P a Ha H) as [[r Er] | (e' & Ee & Hc)];
        [ congruence | ].
      rewrite Ee in E. inversion E. subst. auto.
  - rewrite square_root_beyond_limit by trivial. intros E. inversion E. auto.
Qed.

Lemma percentage_not_nan (a b : num) (z : float) :
  finite_num a = true -> finite_num b = true ->
  percentage a b = Ok (PyFloat z) -> z <> S754_nan.
Proof.
  intros Ha Hb. rewrite percentage_logged.
  destruct (printable a && printable b); [ | discriminate ].
  now apply percent_not_nan.
Qed.

(** Powers of ten against the limit of the digits. *)
Lemma printable_pow10 (k : Z) :
  0 <= k < int_max_str_digits -> printable (PyInt (10 ^ k)) = true.
Proof.
  intros H. apply Z.ltb_lt. rewrite Z.abs_eq by (apply Z.pow_nonneg; lia).
  apply Z.pow_lt_mono_r; lia.
Qed.

Lemma not_printable_pow10 (k : Z) :
  int_max_str_digits <= k -> printable (PyInt (10 ^ k)) = false.
Proof.
  intros H. apply not_printable.
  rewrite Z.abs_eq by (apply Z.pow_nonneg; lia).
  apply Z.pow_le_mono_r; unfold int_max_str_digits in *; lia.
Qed.


(** [10 ** 400], [10 ** 200] and [10 ** 3000] have a text; [10 ** 4300] and
    [10 ** 6000] have none. *)
Lemma printable_10_400 : printable (PyInt (10 ^ 400)) = true.
Proof. exact (printable_pow10 400 ltac:(unfold int_max_str_digits; lia)). Qed.

Lemma printable_10_200 : printable (PyInt (10 ^ 200)) = true.
Proof. exact (printable_pow10 200 ltac:(unfold int_max_str_digits; lia)). Qed.


Lemma not_printable_10_4300 : printable (PyInt (10 ^ 4300)) = false.
Proof. exact (not_printable_pow10 4300 (Z.le_refl _)). Qed.


(** ** The tests of the repository, on the model *)

Example test_add : returns (add (PyInt 2) (PyInt 3)) (PyInt 5) = true.
Proof. reflexivity. Qed.

Example test_subtract :
  returns (subtract (PyInt 3) (PyInt 5)) (PyInt (-2)) = true.
Proof. reflexivity. Qed.

Example test_multiply :
  returns (multiply (PyFloat (dyadic 5 (-1))) (PyInt 4)) (PyInt 10) = true.
Proof. reflexivity. Qed.

Example test_divide :
  returns (divide (PyInt 7) (PyInt 2)) (PyFloat (dyadic 7 (-1))) = true /\
  returns (divide (PyInt 0) (PyInt (-5))) (PyInt 0) = true /\
  returns (divide (PyFloat (dyadic 15 (-1))) (PyFloat (dyadic 5 (-1))))
          (PyInt 3) = true.
Proof. repeat split. Qed.

Example test_divide_by_zero :
  divide (PyInt 5) (PyInt 0) = Raise divide_by_zero /\
  divide (PyInt (-5)) (PyInt 0) = Raise divide_by_zero.
Proof. split; reflexivity. Qed.

Example test_power :
  returns_value (power sample_platform (PyInt 10) (PyInt 0)) (PyInt 1) = true /\
  returns_value (power sample_platform (PyInt (-2)) (PyInt 3)) (PyInt (-8))
  = true /\
  returns_value (power sample_platform (PyInt 0) (PyInt 5)) (PyInt 0) = true /\
  returns_value (power sample_platform (PyInt 0) (PyInt 0)) (PyInt 1) = true /\
  returns_value (power sample_platform (PyInt 9) (PyFloat f_half)) (PyInt 3)
  = true.
Proof. repeat split. Qed.

Example test_square_root :
  returns_value (square_root sample_platform (PyInt 16)) (PyInt 4) = true /\
  returns_value (square_root sample_platform (PyInt 0)) (PyInt 0) = true /\
  returns_value (square_root sample_platform (PyFloat (dyadic 9 (-2))))
                (PyFloat (dyadic 3 (-1))) = true /\
  square_root sample_platform (PyInt (-4)) = Raise negative_square_root.
Proof. repeat split. Qed.

Example test_percentage :
  returns (percentage (PyInt 100) (PyInt 50)) (PyInt 50) = true /\
  returns (percentage (PyInt (-50)) (PyInt 25)) (PyFloat (dyadic (-25) (-1)))
  = true.
Proof. repeat split. Qed.

Example test_api_divide_by_zero :
  api_divide sample_platform (mk_CalculationRequest (PyInt 5) (PyInt 0))
  = HTTPException 400 "Cannot divide by zero".
Proof. reflexivity. Qed.

Example test_api_square_root_negative :
  api_square_root sample_platform (mk_SingleOperandRequest (PyInt (-4)))
  = HTTPException 400 "Cannot calculate square root of negative number".
Proof. reflexivity. Qed.

Example test_api_power :
  api_power sample_platform (mk_CalculationRequest (PyInt 9) (PyFloat f_half))
  = Returned (mk_CalculationResponse (PyFloat (dyadic 3 0)) "power"
                [("a", PyInt 9); ("b", PyFloat f_half)]).
Proof. reflexivity. Qed.

(** ** The claims on the operations *)

(** C6, as stated, fails: [add(10 ** 4300, 1)] raises the [ValueError] of
    its logging line, where the interpreter's [10 ** 4300 + 1] returns. *)
Lemma add_huge_int_raises :
  add (PyInt (10 ^ 4300)) (PyInt 1) = Raise int_str_limit /\
  py_add (PyInt (10 ^ 4300)) (PyInt 1) = Ok (PyInt (10 ^ 4300 + 1)).
Proof.
  split; [ | reflexivity ].
  rewrite add_logged, not_printable_10_4300.
  reflexivity.
Qed.

(** C6, amended.  On operands that have a text, [add], [subtract],
    [multiply] and [percentage] are the interpreter's [a + b], [a - b],
    [a * b] and [(a * b) / 100]: exact integer arithmetic on two [int]s
    whenever the result has a text (the quotient by 100 rounded once), the
    binary64 operations on two floats (the product rounded, then the
    quotient rounded), and on finite operands each result compares equal,
    with [==], to the value of that expression.  The first three return on
    all operands inside the range of a float. *)
Theorem arithmetic_is_host_arithmetic :
  (forall x y : Z,
      printable (PyInt x) = true -> printable (PyInt y) = true ->
      (printable (PyInt (x + y)) = true ->
       add (PyInt x) (PyInt y) = Ok (PyInt (x + y))) /\
      (printable (PyInt (x - y)) = true ->
       subtract (PyInt x) (PyInt y) = Ok (PyInt (x - y))) /\
      (printable (PyInt (x * y)) = true ->
       multiply (PyInt x) (PyInt y) = Ok (PyInt (x * y))) /\
      percentage (PyInt x) (PyInt y) = int_true_divide (x * y) 100) /\
  (forall x y : float,
      add (PyFloat x) (PyFloat y) = Ok (PyFloat (fadd x y)) /\
      subtract (PyFloat x) (PyFloat y) = Ok (PyFloat (fsub x y)) /\
      multiply (PyFloat x) (PyFloat y) = Ok (PyFloat (fmul x y)) /\
      percentage (PyFloat x) (PyFloat y)
      = Ok (PyFloat (fdiv (fmul x y) f_hundred))) /\
  (forall a b : num,
      finite_num a = true -> finite_num b = true ->
      printable a = true -> printable b = true ->
      ((forall v, py_add a b = Ok v -> printable v = true) ->
       same_outcome (add a b) (py_add a b)) /\
      ((forall v, py_sub a b = Ok v -> printable v = true) ->
       same_outcome (subtract a b) (py_sub a b)) /\
      ((forall v, py_mul a b = Ok v -> printable v = true) ->
       same_outcome (multiply a b) (py_mul a b)) /\
      same_outcome (percentage a b)
                   (p <- py_mul a b ;; py_truediv p (PyInt 100))) /\
  (forall a b : num,
      fits_float a = true -> fits_float b = true ->
      (exists v, add a b = Ok v) /\
      (exists v, subtract a b = Ok v) /\
      (exists v, multiply a b = Ok v)).
Proof.
  split; [ | split; [ | split ] ].
  - intros x y Hx Hy.
    rewrite add_logged, subtract_logged, multiply_logged, percentage_within,
      Hx, Hy by trivial.
    cbn [andb py_add py_sub py_mul logged bind].
    split; [ | split; [ | split ] ]; try (intros ->); reflexivity.
  - intros x y. repeat split.
  - intros a b Ha Hb Pa Pb.
    rewrite add_logged, subtract_logged, multiply_logged, percentage_within,
      Pa, Pb by trivial.
    cbn [andb]. split; [ | split; [ | split ] ].
    + intros H. rewrite logged_printable by exact H.
      apply same_outcome_refl. intros z. now apply py_add_not_nan.
    + intros H. rewrite logged_printable by exact H.
      apply same_outcome_refl. intros z. now apply py_sub_not_nan.
    + intros H. rewrite logged_printable by exact H.
      apply same_outcome_refl. intros z. now apply py_mul_not_nan.
    + apply same_outcome_refl. intros z. now apply percent_not_nan.
  - intros a b Ha Hb. split; [ | split ].
    + now apply add_fits.
    + now apply subtract_fits.
    + now apply multiply_fits.
Qed.

(** The operands 33.33 and 30 of the test suite, and two [int]s. *)
Lemma arithmetic_is_host_arithmetic_witness :
  same_outcome
    (percentage (PyFloat (S754_finite false 4690780486883082 (-47)))
                (PyInt 30))
    (p <- py_mul (PyFloat (S754_finite false 4690780486883082 (-47)))
                 (PyInt 30) ;;
     py_truediv p (PyInt 100)) /\
  add (PyInt 2) (PyInt 3) = Ok (PyInt 5).
Proof.
  destruct arithmetic_is_host_arithmetic as (Hint & _ & Hfin & _).
  split.
  - apply Hfin; reflexivity.
  - apply (Hint 2 3); reflexivity.
Defined.

(** C7.  On finite operands [add] and [multiply] are commutative and
    [subtract(a, b)] is [-subtract(b, a)]: the two sides return values that
    compare equal with [==], or raise the same exception; inside the range
    of a float they return. *)
Theorem add_multiply_commute_subtract_negates (a b : num) :
  finite_num a = true -> finite_num b = true ->
  (same_outcome (add a b) (add b a) /\
   same_outcome (multiply a b) (multiply b a) /\
   same_outcome (subtract a b) (negated (subtract b a))) /\
  (fits_float a = true -> fits_float b = true ->
   (exists v v', add a b = Ok v /\ add b a = Ok v' /\ py_eq v v' = true) /\
   (exists v v', multiply a b = Ok v /\ multiply b a = Ok v' /\
                 py_eq v v' = true) /\
   (exists v v', subtract a b = Ok v /\ negated (subtract b a) = Ok v' /\
                 py_eq v v' = true)).
Proof.
  intros Ha Hb.
  pose proof (add_comm_outcome a b Ha Hb) as Hadd.
  pose proof (multiply_comm_outcome a b Ha Hb) as Hmul.
  pose proof (subtract_antisym_outcome a b Ha Hb) as Hsub.
  split; [ tauto | ].
  intros Fa Fb. split; [ | split ].
  - apply same_outcome_returns; trivial. now apply add_fits.
  - apply same_outcome_returns; trivial. now apply multiply_fits.
  - apply same_outcome_returns; trivial. now apply subtract_fits.
Qed.

(** The operands 0.5 and 3. *)
Lemma add_multiply_commute_subtract_negates_witness :
  same_outcome (add (PyFloat f_half) (PyInt 3))
               (add (PyInt 3) (PyFloat f_half)) /\
  same_outcome (multiply (PyFloat f_half) (PyInt 3))
               (multiply (PyInt 3) (PyFloat f_half)) /\
  same_outcome (subtract (PyFloat f_half) (PyInt 3))
               (negated (subtract (PyInt 3) (PyFloat f_half))).
Proof.
  apply (add_multiply_commute_subtract_negates (PyFloat f_half) (PyInt 3));
    reflexivity.
Defined.

(** C1, as stated, fails on both sides of the guard.  [divide(10 ** 400, 1)]
    raises the [OverflowError] of the interpreter's true division, and
    [divide(10 ** 4300, 0)] raises the [ValueError] of the logging line, which
    comes before the guard, and not the domain violation. *)
Lemma divide_huge_int_raises :
  divide (PyInt (10 ^ 400)) (PyInt 1) = Raise int_division_too_large /\
  divide (PyInt (10 ^ 4300)) (PyInt 0) = Raise int_str_limit.
Proof.
  split.
  - rewrite divide_nonzero;
      [ vm_compute; reflexivity
      | exact printable_10_400
      | apply printable_one
      | reflexivity ].
  - rewrite divide_logged, not_printable_10_4300.
    reflexivity.
Qed.

(** C1, amended.  On operands that have a text: a divisor equal to zero
    ([0], [0.0] or [-0.0]) makes [divide] raise
    [ValueError("Cannot divide by zero")] for every [a].  With any other
    divisor [divide(a, b)] is the interpreter's [a / b]: it returns a float,
    the binary64 quotient on two floats, for all operands inside the range
    of a float, and beyond that range the only failure is the
    [OverflowError] raised on an [int] operand. *)
Theorem divide_guard_then_quotient (a b : num) :
  printable a = true -> printable b = true ->
  (py_eq b (PyInt 0) = true -> divide a b = Raise divide_by_zero) /\
  (b = PyInt 0 \/ b = PyFloat (S754_zero false) \/ b = PyFloat (S754_zero true)
   -> divide a b = Raise divide_by_zero) /\
  (py_eq b (PyInt 0) = false ->
   divide a b = py_truediv a b /\
   ((exists q, divide a b = Ok (PyFloat q)) \/
    (exists e, divide a b = Raise e /\ exn_cls e = OverflowError /\
               is_int a || is_int b = true))) /\
  (py_eq b (PyInt 0) = false ->
   fits_float a = true -> fits_float b = true ->
   exists q, divide a b = Ok (PyFloat q)) /\
  (forall x y, a = PyFloat x -> b = PyFloat y -> feqb y f_zero = false ->
               divide a b = Ok (PyFloat (fdiv x y))).
Proof.
  intros Pa Pb. repeat split.
  - now apply divide_zero.
  - intros H. apply divide_zero; trivial. now apply py_eq_zero_cases.
  - now apply divide_nonzero.
  - rewrite divide_nonzero by trivial.
    now apply py_truediv_nonzero_outcomes.
  - intros H Ha Hb. rewrite divide_nonzero by trivial.
    now apply py_truediv_fits.
  - intros x y -> -> H. now apply divide_floats.
Qed.

(** 5 / 0 and 7 / 2. *)
Lemma divide_guard_then_quotient_witness :
  divide (PyInt 5) (PyInt 0) = Raise divide_by_zero /\
  divide (PyInt 7) (PyInt 2)
  = Ok (PyFloat (S754_finite false 7881299347898368 (-51))).
Proof.
  split.
  - apply (proj1 (divide_guard_then_quotient (PyInt 5) (PyInt 0)
                    eq_refl eq_refl)).
    reflexivity.
  - destruct (divide_guard_then_quotient (PyInt 7) (PyInt 2) eq_refl eq_refl)
      as (_ & _ & H & _ & _).
    destruct (H eq_refl) as [E _]. rewrite E. reflexivity.
Defined.


Lemma power_returns (P : platform) (a b : num) (r : value) :
  printable a = true -> printable b = true ->
  py_pow P a b = Ok r -> printable_value r = true ->
  power P a b = Ok r.
Proof.
  intros Ha Hb E Hr. rewrite power_logged, Ha, Hb. cbn [andb].
  now apply logged_value_returns.
Qed.

Lemma printable_eq_small (v : num) (k : Z) :
  py_eq v (PyInt k) = true -> printable (PyInt k) = true ->
  printable v = true.
Proof.
  destruct v as [n | x]; [ | reflexivity ].
  rewrite py_eq_int. intros H. apply Z.eqb_eq in H. now subst.
Qed.

(** The interpreter's [a ** 0] and [0 ** b]. *)
Lemma py_pow_zero_cases (P : platform) :
  (forall a, exists v,
      py_pow P a (PyInt 0) = Ok (VNum v) /\ py_eq v (PyInt 1) = true) /\
  (forall b, py_gt b (PyInt 0) = true ->
      exists v, py_pow P (PyInt 0) b = Ok (VNum v) /\
                py_eq v (PyInt 0) = true) /\
  (forall a z iv, as_float a = Ok iv -> py_eq z (PyInt 0) = true ->
      exists v, py_pow P a z = Ok (VNum v) /\ py_eq v (PyInt 1) = true) /\
  (forall z b iw, as_float b = Ok iw -> py_eq z (PyInt 0) = true ->
      py_gt b (PyInt 0) = true ->
      exists v, py_pow P z b = Ok (VNum v) /\ py_eq v (PyInt 0) = true).
Proof.
  assert (Hexp : forall a z iv iw,
             as_float a = Ok iv -> as_float z = Ok iw ->
             py_eq z (PyInt 0) = true ->
             (iv' <- as_float a ;; iw' <- as_float z ;; float_pow P iv' iw')
             = Ok (VNum (PyFloat f_one))).
  { intros a z iv iw Ea Ez Hz. rewrite Ea, Ez. cbn [bind]. unfold float_pow.
    now rewrite (as_float_eq_zero z iw Ez), Hz. }
  assert (Hbase : forall z b iv iw,
             as_float z = Ok iv -> as_float b = Ok iw ->
             py_eq z (PyInt 0) = true -> py_gt b (PyInt 0) = true ->
             exists s,
               (iv' <- as_float z ;; iw' <- as_float b ;; float_pow P iv' iw')
               = Ok (VNum (PyFloat (S754_zero s)))).
  { intros z b iv iw Ez Eb Hz Hb. rewrite Ez, Eb. cbn [bind].
    rewrite <- (as_float_eq_zero z iv Ez) in Hz.
    rewrite <- (as_float_gt_zero b iw Eb) in Hb.
    unfold float_pow.
    destruct iv as [s | [ | ] | | [ | ] m e]; try discriminate.
    destruct iw as [s' | [ | ] | | [ | ] m' e']; try discriminate.
    - exists false. reflexivity.
    - change (feqb (S754_finite false m' e') f_zero) with false.
      change (fltb (S754_finite false m' e') f_zero) with false.
      cbn [is_nan is_inf]. change (feqb (S754_zero s) f_zero) with true.
      cbv iota. destruct (is_odd_integer _); eexists; reflexivity. }
  assert (Hzero : forall z, py_eq z (PyInt 0) = true ->
                            exists s, as_float z = Ok (S754_zero s)).
  { intros z Hz. apply py_eq_zero_cases in Hz.
    destruct Hz as [-> | [-> | ->]]; eexists; reflexivity. }
  assert (Hone : py_eq (PyFloat f_one) (PyInt 1) = true) by reflexivity.
  assert (Hz0 : forall s, py_eq (PyFloat (S754_zero s)) (PyInt 0) = true)
    by reflexivity.
  split; [ | split; [ | split ] ].
  - intros [x | x].
    + exists (PyInt 1). split; reflexivity.
    + exists (PyFloat f_one). split; [ | exact Hone ].
      apply (Hexp (PyFloat x) (PyInt 0) x f_zero); reflexivity.
  - intros [y | y] Hb.
    + exists (PyInt 0). split; trivial.
      unfold py_gt in Hb. cbn [py_compare] in Hb.
      destruct (Z.compare_spec y 0); try discriminate.
      unfold py_pow.
      replace (0 <=? y) with true by (symmetry; apply Z.leb_le; lia).
      rewrite Z.pow_0_l by lia. reflexivity.
    + destruct (Hbase (PyInt 0) (PyFloat y) f_zero y) as [s E]; trivial.
      exists (PyFloat (S754_zero s)). split; [ exact E | apply Hz0 ].
  - intros a z iv Ea Hz. destruct (Hzero z Hz) as [s Ez].
    pose proof (Hexp a z iv _ Ea Ez Hz) as E.
    unfold py_pow. destruct a as [x | x], z as [y | y];
      try (exists (PyFloat f_one); split; [ exact E | exact Hone ]).
    rewrite py_eq_int in Hz. apply Z.eqb_eq in Hz. subst y.
    exists (PyInt 1). split; reflexivity.
  - intros z b iw Eb Hz Hb. destruct (Hzero z Hz) as [s Ez].
    destruct (Hbase z b _ iw Ez Eb Hz Hb) as [s' E].
    unfold py_pow. destruct z as [x | x], b as [y | y];
      try (exists (PyFloat (S754_zero s')); split; [ exact E | apply Hz0 ]).
    rewrite py_eq_int in Hz. apply Z.eqb_eq in Hz. subst x.
    unfold py_gt in Hb. cbn [py_compare] in Hb.
    destruct (Z.compare_spec y 0); try discriminate.
    replace (0 <=? y) with true by (symmetry; apply Z.leb_le; lia).
    rewrite Z.pow_0_l by lia. exists (PyInt 0). split; reflexivity.
Qed.

Lemma py_eq_zero_printable (z : num) :
  py_eq z (PyInt 0) = true -> printable z = true.
Proof. intros H. apply (printable_eq_small z 0 H), printable_zero. Qed.

(** C4, as stated, fails: [power(10 ** 4300, 0)] raises the [ValueError] of
    the logging line.  The platform has no part in it. *)
Lemma power_huge_base_raises :
  power sample_platform (PyInt (10 ^ 4300)) (PyInt 0) = Raise int_str_limit.
Proof.
  rewrite power_logged, not_printable_10_4300.
  reflexivity.
Qed.

(** C4, amended.  [power(a, 0)] returns a value equal to 1 for every operand
    [a] that has a text, an [int] of at most 4300 digits or any float, and
    [power(0, b)] returns a value equal to 0 for every such [b > 0].  The
    same holds when the zero is written [0.0] or [-0.0] and the other
    operand converts to a float. *)
Theorem power_zero_exponent_and_zero_base (P : platform) :
  (forall a, printable a = true ->
      exists v,
        power P a (PyInt 0) = Ok (VNum v) /\ py_eq v (PyInt 1) = true) /\
  (forall b, printable b = true -> py_gt b (PyInt 0) = true ->
      exists v, power P (PyInt 0) b = Ok (VNum v) /\
                py_eq v (PyInt 0) = true) /\
  (forall a z iv, as_float a = Ok iv -> py_eq z (PyInt 0) = true ->
      exists v, power P a z = Ok (VNum v) /\ py_eq v (PyInt 1) = true) /\
  (forall z b iw, as_float b = Ok iw -> py_eq z (PyInt 0) = true ->
      py_gt b (PyInt 0) = true ->
      exists v, power P z b = Ok (VNum v) /\ py_eq v (PyInt 0) = true).
Proof.
  destruct (py_pow_zero_cases P) as (H1 & H2 & H3 & H4).
  split; [ | split; [ | split ] ].
  - intros a Pa. destruct (H1 a) as (v & E & Hv). exists v.
    split; [ | exact Hv ].
    apply power_returns; [ exact Pa | apply printable_zero | exact E | ].
    apply (printable_eq_small v 1 Hv), printable_one.
  - intros b Pb Hb. destruct (H2 b Hb) as (v & E & Hv). exists v.
    split; [ | exact Hv ].
    apply power_returns; [ apply printable_zero | exact Pb | exact E | ].
    apply (printable_eq_small v 0 Hv), printable_zero.
  - intros a z iv Ea Hz. destruct (H3 a z iv Ea Hz) as (v & E & Hv).
    exists v. split; [ | exact Hv ].
    apply power_returns; [ | | exact E | ].
    + apply (as_float_printable a iv Ea).
    + now apply py_eq_zero_printable.
    + apply (printable_eq_small v 1 Hv), printable_one.
  - intros z b iw Eb Hz Hb. destruct (H4 z b iw Eb Hz Hb) as (v & E & Hv).
    exists v. split; [ | exact Hv ].
    apply power_returns; [ | | exact E | ].
    + now apply py_eq_zero_printable.
    + apply (as_float_printable b iw Eb).
    + apply (printable_eq_small v 0 Hv), printable_zero.
Qed.

(** [power(0, 5)] of the test suite. *)
Lemma power_zero_exponent_and_zero_base_witness :
  exists v, power sample_platform (PyInt 0) (PyInt 5) = Ok (VNum v) /\
            py_eq v (PyInt 0) = true.
Proof.
  destruct (power_zero_exponent_and_zero_base sample_platform)
    as (_ & H & _).
  apply (H (PyInt 5)); reflexivity.
Defined.




(** C10.  On an operand that is not negative, [square_root(a)] is
    [power(a, 0.5)]: the same value or the same exception. *)
Theorem square_root_is_power_half (P : platform) (a : num) :
  py_ge a (PyInt 0) = true ->
  square_root P a = power P a (PyFloat f_half).
Proof.
  intros H. rewrite square_root_logged, power_logged.
  cbn [printable]. rewrite andb_true_r.
  destruct (printable a); trivial.
  rewrite (py_ge_not_lt _ _ H). symmetry.
  apply logged_value_float_exponent.
Qed.

(** The square root of 9, which is 3.0 on the sample platform. *)
Lemma square_root_is_power_half_witness :
  py_ge (PyInt 9) (PyInt 0) = true /\
  square_root sample_platform (PyInt 9)
  = power sample_platform (PyInt 9) (PyFloat f_half).
Proof.
  split; [ reflexivity | ].
  apply (square_root_is_power_half sample_platform (PyInt 9)). reflexivity.
Defined.


(** ** The square root of a float *)











(** ** The floats of a conversion are of the format *)

Section Validity.

Variables prec emax : Z.
Hypothesis prec_pos : 0 < prec.




End Validity.








(** ** The request handlers *)

Lemma square_root_returns_float (P : platform) (a : num) (v : value) :
  square_root P a = Ok v -> exists x, v = VNum (PyFloat x).
Proof.
  rewrite square_root_logged.
  destruct (printable a); [ | discriminate ].
  destruct (py_lt a (PyInt 0)) eqn:H; [ discriminate | ].
  destruct (py_pow_half_outcomes P a H) as [[r Er] | (e & Ee & _)].
  - rewrite Er. intros E. inversion E. now exists r.
  - rewrite Ee. discriminate.
Qed.

Section HandlerFacts.

Variable P : platform.

Lemma except_Exception_returned (body : result CalculationResponse)
  (r : CalculationResponse) :
  except_Exception body = Returned r <-> body = Ok r.
Proof.
  destruct body as [r' | e]; cbn [except_Exception]; split; intros H;
    try discriminate; now inversion H.
Qed.

Lemma except_ValueError_Exception_returned
  (body : result CalculationResponse) (r : CalculationResponse) :
  except_ValueError_Exception body = Returned r <-> body = Ok r.
Proof.
  destruct body as [r' | e]; cbn [except_ValueError_Exception]; split;
    intros H; try discriminate; try now inversion H.
  destruct (is_ValueError (exn_cls e)); discriminate.
Qed.

(** The line that logs the request raises only where the first line of the
    operation does: the [try] block is the call and the response. *)
Lemma try_add_eq (c : CalculationRequest) :
  try_add P c
  = r <- add (req_a c) (req_b c) ;;
    new_CalculationResponse P (VNum r) "addition" (two_operands c).
Proof.
  unfold try_add. rewrite logger_info_two, add_logged.
  now destruct (printable (req_a c) && printable (req_b c)).
Qed.

Lemma try_subtract_eq (c : CalculationRequest) :
  try_subtract P c
  = r <- subtract (req_a c) (req_b c) ;;
    new_CalculationResponse P (VNum r) "subtraction" (two_operands c).
Proof.
  unfold try_subtract. rewrite logger_info_two, subtract_logged.
  now destruct (printable (req_a c) && printable (req_b c)).
Qed.

Lemma try_multiply_eq (c : CalculationRequest) :
  try_multiply P c
  = r <- multiply (req_a c) (req_b c) ;;
    new_CalculationResponse P (VNum r) "multiplication" (two_operands c).
Proof.
  unfold try_multiply. rewrite logger_info_two, multiply_logged.
  now destruct (printable (req_a c) && printable (req_b c)).
Qed.

Lemma try_divide_eq (c : CalculationRequest) :
  try_divide P c
  = r <- divide (req_a c) (req_b c) ;;
    new_CalculationResponse P (VNum r) "division" (two_operands c).
Proof.
  unfold try_divide. rewrite logger_info_two, divide_logged.
  now destruct (printable (req_a c) && printable (req_b c)).
Qed.

Lemma try_power_eq (c : CalculationRequest) :
  try_power P c
  = r <- power P (req_a c) (req_b c) ;;
    new_CalculationResponse P r "power" (two_operands c).
Proof.
  unfold try_power. rewrite logger_info_two, power_logged.
  now destruct (printable (req_a c) && printable (req_b c)).
Qed.

Lemma try_square_root_eq (c : SingleOperandRequest) :
  try_square_root P c
  = r <- square_root P (single_a c) ;;
    new_CalculationResponse P r "square_root" [("a", single_a c)].
Proof.
  unfold try_square_root. rewrite logger_info_one, square_root_logged.
  now destruct (printable (single_a c)).
Qed.

Lemma try_percentage_eq (c : CalculationRequest) :
  try_percentage P c
  = r <- percentage (req_a c) (req_b c) ;;
    new_CalculationResponse P (VNum r) "percentage" (two_operands c).
Proof.
  unfold try_percentage. rewrite logger_info_two, percentage_logged, andb_comm.
  now destruct (printable (req_a c) && printable (req_b c)).
Qed.

(** The [try] block of a handler whose operation returns a number. *)
Lemma try_num_returned (op : result num) (name : string)
  (ops : list (string * num)) (r : CalculationResponse) :
  (v <- op ;; new_CalculationResponse P (VNum v) name ops) = Ok r <->
  exists v, op = Ok v /\ r = mk_CalculationResponse v name ops.
Proof.
  destruct op as [v | e]; cbn [bind new_CalculationResponse]; split.
  - intros H. inversion H. now exists v.
  - intros (v' & E & ->). now inversion E.
  - discriminate.
  - intros (v' & E & _). discriminate.
Qed.

Lemma try_num_raised (op : result num) (name : string)
  (ops : list (string * num)) (e : exn) :
  (v <- op ;; new_CalculationResponse P (VNum v) name ops) = Raise e <->
  op = Raise e.
Proof.
  destruct op as [v | e']; cbn [bind new_CalculationResponse]; split;
    intros H; try discriminate; now inversion H.
Qed.

(** The [try] block of a handler whose operation returns what [**] does. *)
Lemma try_value_returned (op : result value) (name : string)
  (ops : list (string * num)) (r : CalculationResponse) :
  (v <- op ;; new_CalculationResponse P v name ops) = Ok r <->
  exists v, op = Ok (VNum v) /\ r = mk_CalculationResponse v name ops.
Proof.
  destruct op as [[v | re im] | e]; cbn [bind new_CalculationResponse]; split.
  - intros H. inversion H. now exists v.
  - intros (v' & E & ->). now inversion E.
  - discriminate.
  - intros (v' & E & _). discriminate.
  - discriminate.
  - intros (v' & E & _). discriminate.
Qed.

Lemma try_divide_raised (c : CalculationRequest) (e : exn) :
  try_divide P c = Raise e <-> divide (req_a c) (req_b c) = Raise e.
Proof. rewrite try_divide_eq. apply try_num_raised. Qed.

Lemma try_square_root_raised (c : SingleOperandRequest) (e : exn) :
  try_square_root P c = Raise e <-> square_root P (single_a c) = Raise e.
Proof.
  rewrite try_square_root_eq.
  destruct (square_root P (single_a c)) as [v | e'] eqn:E; cbn [bind].
  - destruct (square_root_returns_float P _ v E) as [x ->].
    cbn [new_CalculationResponse]. split; discriminate.
  - split; intros H; now inversion H.
Qed.

(** What the handler of the division answers to each error of [divide]. *)
Lemma api_divide_raised (c : CalculationRequest) (e : exn) :
  divide (req_a c) (req_b c) = Raise e ->
  api_divide P c
  = if is_ValueError (exn_cls e) then HTTPException 400 (str e)
    else HTTPException 500 "Internal server error".
Proof.
  intros E. apply try_divide_raised in E. unfold api_divide. now rewrite E.
Qed.

Lemma api_square_root_raised (s : SingleOperandRequest) (e : exn) :
  square_root P (single_a s) = Raise e ->
  api_square_root P s
  = if is_ValueError (exn_cls e) then HTTPException 400 (str e)
    else HTTPException 500 "Internal server error".
Proof.
  intros E. apply try_square_root_raised in E. unfold api_square_root.
  now rewrite E.
Qed.

End HandlerFacts.




(** C8.  A handler returns a response, which is sent with the status 200,
    exactly when its operation returns a number; the response carries that
    number, the name of the operation and the operands as they came in the
    request, under their names. *)
Theorem handlers_return_envelope
  (P : platform) (c : CalculationRequest) (s : SingleOperandRequest)
  (r : CalculationResponse) :
  status (Returned r) = 200 /\
  (api_add P c = Returned r <->
   exists v, add (req_a c) (req_b c) = Ok v /\
     r = mk_CalculationResponse v "addition"
           [("a", req_a c); ("b", req_b c)]) /\
  (api_subtract P c = Returned r <->
   exists v, subtract (req_a c) (req_b c) = Ok v /\
     r = mk_CalculationResponse v "subtraction"
           [("a", req_a c); ("b", req_b c)]) /\
  (api_multiply P c = Returned r <->
   exists v, multiply (req_a c) (req_b c) = Ok v /\
     r = mk_CalculationResponse v "multiplication"
           [("a", req_a c); ("b", req_b c)]) /\
  (api_divide P c = Returned r <->
   exists v, divide (req_a c) (req_b c) = Ok v /\
     r = mk_CalculationResponse v "division"
           [("a", req_a c); ("b", req_b c)]) /\
  (api_power P c = Returned r <->
   exists v, power P (req_a c) (req_b c) = Ok (VNum v) /\
     r = mk_CalculationResponse v "power"
           [("a", req_a c); ("b", req_b c)]) /\
  (api_square_root P s = Returned r <->
   exists v, square_root P (single_a s) = Ok (VNum v) /\
     r = mk_CalculationResponse v "square_root" [("a", single_a s)]) /\
  (api_percentage P c = Returned r <->
   exists v, percentage (req_a c) (req_b c) = Ok v /\
     r = mk_CalculationResponse v "percentage"
           [("a", req_a c); ("b", req_b c)]).
Proof.
  split; [ reflexivity | ].
  unfold api_add, api_subtract, api_multiply, api_divide, api_power,
    api_square_root, api_percentage.
  rewrite !except_Exception_returned, !except_ValueError_Exception_returned.
  rewrite try_add_eq, try_subtract_eq, try_multiply_eq, try_divide_eq,
    try_power_eq, try_square_root_eq, try_percentage_eq.
  unfold two_operands.
  rewrite !try_num_returned, !try_value_returned.
  tauto.
Qed.

(** The request [{"a": 2, "b": 3}] to [/api/add]. *)
Lemma handlers_return_envelope_witness :
  api_add sample_platform (mk_CalculationRequest (PyInt 2) (PyInt 3))
  = Returned (mk_CalculationResponse (PyInt 5) "addition"
                [("a", PyInt 2); ("b", PyInt 3)]).
Proof.
  apply (handlers_return_envelope sample_platform
           (mk_CalculationRequest (PyInt 2) (PyInt 3))
           (mk_SingleOperandRequest (PyInt 0))).
  exists (PyInt 5). split; reflexivity.
Defined.

(** C9, as stated, fails: the branch of [api_divide] that answers 500 is
    reached on numeric operands.  The request [{"a": 10 ** 400, "b": 1}]
    gets the status 500: the quotient is too large for a float. *)
Lemma api_divide_huge_int_is_500 :
  api_divide sample_platform
    (mk_CalculationRequest (PyInt (10 ^ 400)) (PyInt 1))
  = HTTPException 500 "Internal server error".
Proof.
  rewrite (api_divide_raised sample_platform _ int_division_too_large);
    [ reflexivity | ].
  cbn [req_a req_b].
  rewrite divide_nonzero;
    [ vm_compute; reflexivity
    | exact printable_10_400
    | apply printable_one
    | reflexivity ].
Qed.

(** C9, amended.  On operands that have a text [divide] raises the domain
    violation exactly on a zero divisor, and [square_root] exactly on a
    negative operand: the guard keeps the interpreter's division by zero out
    of reach.  Besides the domain violation the two raise nothing but the
    errors of the interpreter on a large [int]: the [ValueError] of a logging
    line on an [int] without a text, and an [OverflowError], which in
    [divide] takes an [int] operand.  The two handlers answer 500 exactly on
    that [OverflowError].  On operands inside the range of a float
    [api_divide] never answers 500, and [api_square_root] does only if the C
    library's [pow] reports a range error. *)
Theorem divide_and_square_root_errors (P : platform) :
  (forall a b e, divide a b = Raise e ->
     (e = int_str_limit /\ printable a && printable b = false) \/
     (e = divide_by_zero /\ py_eq b (PyInt 0) = true) \/
     (exn_cls e = OverflowError /\ py_eq b (PyInt 0) = false /\
      is_int a || is_int b = true)) /\
  (forall a b, printable a = true -> printable b = true ->
     (divide a b = Raise divide_by_zero <-> py_eq b (PyInt 0) = true)) /\
  (forall a e, square_root P a = Raise e ->
     (e = int_str_limit /\ printable a = false) \/
     (e = negative_square_root /\ py_lt a (PyInt 0) = true) \/
     (exn_cls e = OverflowError /\ py_lt a (PyInt 0) = false)) /\
  (forall a, printable a = true ->
     (square_root P a = Raise negative_square_root <->
      py_lt a (PyInt 0) = true)) /\
  (forall c, status (api_divide P c) = 500 <->
     exists e, divide (req_a c) (req_b c) = Raise e /\
               exn_cls e = OverflowError) /\
  (forall s, status (api_square_root P s) = 500 <->
     exists e, square_root P (single_a s) = Raise e /\
               exn_cls e = OverflowError) /\
  (forall c, fits_float (req_a c) = true -> fits_float (req_b c) = true ->
     status (api_divide P c) <> 500) /\
  (forall s x, as_float (single_a s) = Ok x ->
     status (api_square_root P s) = 500 ->
     is_inf (c_pow P x f_half) = true).
Proof.
  assert (Hdiv : forall c, status (api_divide P c) = 500 <->
            exists e, divide (req_a c) (req_b c) = Raise e /\
                      exn_cls e = OverflowError).
  { intros c. destruct (divide (req_a c) (req_b c)) as [v | e] eqn:E.
    - unfold api_divide. rewrite try_divide_eq, E.
      cbn. split; [ discriminate | ].
      intros (e & E' & _). discriminate.
    - rewrite (api_divide_raised P c e E).
      destruct (divide_errors _ _ _ E) as [[-> _] | [(-> & _) | (Hc & _)]].
      + cbn. split; [ discriminate | ].
        intros (e & E' & Hc). inversion E'. subst. discriminate.
      + cbn. split; [ discriminate | ].
        intros (e & E' & Hc). inversion E'. subst. discriminate.
      + rewrite Hc. cbn. split; eauto. }
  assert (Hsqrt : forall s, status (api_square_root P s) = 500 <->
            exists e, square_root P (single_a s) = Raise e /\
                      exn_cls e = OverflowError).
  { intros s. destruct (square_root P (single_a s)) as [v | e] eqn:E.
    - destruct (square_root_returns_float P _ v E) as [x ->].
      unfold api_square_root. rewrite try_square_root_eq, E.
      cbn. split; [ discriminate | ].
      intros (e & E' & _). discriminate.
    - rewrite (api_square_root_raised P s e E).
      destruct (square_root_errors _ _ _ E)
        as [[-> _] | [(-> & _) | (Hc & _)]].
      + cbn. split; [ discriminate | ].
        intros (e & E' & Hc). inversion E'. subst. discriminate.
      + cbn. split; [ discriminate | ].
        intros (e & E' & Hc). inversion E'. subst. discriminate.
      + rewrite Hc. cbn. split; eauto. }
  split; [ | split; [ | split; [ | split;
    [ | split; [ | split; [ | split ] ] ] ] ] ]; trivial.
  - intros a b e E. destruct (divide_errors a b e E) as [H | [H | H]]; tauto.
  - intros a b Pa Pb. rewrite divide_within by trivial.
    destruct (py_eq b (PyInt 0)) eqn:Hz; [ tauto | ].
    split; [ | discriminate ]. intros E.
    destruct (py_truediv_nonzero_outcomes a b Hz)
      as [[q Eq] | (e & Ee & Hc & _)]; rewrite E in *.
    + discriminate.
    + inversion Ee. subst. discriminate.
  - intros a e E. destruct (square_root_errors P a e E) as [H | [H | H]];
      tauto.
  - intros a Pa. rewrite square_root_within by trivial.
    destruct (py_lt a (PyInt 0)) eqn:Hlt; [ tauto | ].
    split; [ | discriminate ]. intros E.
    destruct (py_pow_half_outcomes P a Hlt) as [[r Er] | (e & Ee & Hc)];
      rewrite E in *.
    + discriminate.
    + inversion Ee. subst. discriminate.
  - intros c Ha Hb H. apply Hdiv in H. destruct H as (e & E & Hc).
    rewrite divide_within in E by now apply printable_fits.
    destruct (py_eq (req_b c) (PyInt 0)) eqn:Hz.
    + inversion E. subst. discriminate.
    + destruct (py_truediv_fits _ _ Ha Hb Hz) as [q Eq]. congruence.
  - intros s x Ea H. apply Hsqrt in H. destruct H as (e & E & Hc).
    rewrite square_root_within in E by apply (as_float_printable _ x Ea).
    destruct (py_lt (single_a s) (PyInt 0)) eqn:Hlt.
    + inversion E. subst. discriminate.
    + rewrite py_pow_half in E.
      rewrite Ea in E. cbn [bind] in E.
      rewrite <- (as_float_lt_zero _ x Ea) in Hlt.
      destruct (float_pow_half P x Hlt) as [[r Er] | [_ Hi]]; congruence.
Qed.

(** The square root of [2 ** 1024], and the quotient of 7 by 2. *)
Lemma divide_and_square_root_errors_witness :
  status (api_square_root sample_platform
            (mk_SingleOperandRequest (PyInt (2 ^ 1024)))) = 500 /\
  status (api_divide sample_platform
            (mk_CalculationRequest (PyInt 7) (PyInt 2))) <> 500.
Proof.
  destruct (divide_and_square_root_errors sample_platform)
    as (_ & _ & _ & _ & _ & Hs & Hd & _).
  split.
  - apply Hs. exists int_too_large. split; [ | reflexivity ].
    cbn [single_a]. rewrite square_root_not_negative;
      [ vm_compute; reflexivity | | reflexivity ].
    apply printable_below. rewrite Z.abs_eq by (apply Z.pow_nonneg; lia).
    apply Z.pow_lt_mono_r; lia.
  - apply Hd; reflexivity.
Defined.

(** ** Further properties of the operations *)

(** X1.  The type of a result follows the types of the operands: [add],
    [subtract] and [multiply] return an [int] exactly on two [int]s;
    [divide] and [percentage] never return an [int]; [power] returns an
    [int] exactly on two [int]s with an exponent that is not negative; and
    [square_root] returns nothing but a float. *)
Theorem result_types (P : platform) (a b : num) :
  (forall v, add a b = Ok v -> is_int v = is_int a && is_int b) /\
  (forall v, subtract a b = Ok v -> is_int v = is_int a && is_int b) /\
  (forall v, multiply a b = Ok v -> is_int v = is_int a && is_int b) /\
  (forall v, divide a b = Ok v -> is_int v = false) /\
  (forall v, percentage a b = Ok v -> is_int v = false) /\
  (forall v, power P a b = Ok v ->
     ((exists n, v = VNum (PyInt n)) <->
      is_int a && is_int b = true /\ py_lt b (PyInt 0) = false)) /\
  (forall v, square_root P a = Ok v -> exists x, v = VNum (PyFloat x)).
Proof.
  rewrite add_logged, subtract_logged, multiply_logged, divide_logged,
    percentage_logged, power_logged.
  split; [ | split; [ | split; [ | split; [ | split; [ | split ] ] ] ] ].
  - intros v. destruct (printable a && printable b); [ | discriminate ].
    intros E. apply logged_returns in E. now apply py_add_is_int.
  - intros v. destruct (printable a && printable b); [ | discriminate ].
    intros E. apply logged_returns in E. now apply py_sub_is_int.
  - intros v. destruct (printable a && printable b); [ | discriminate ].
    intros E. apply logged_returns in E. now apply py_mul_is_int.
  - intros v. destruct (printable a && printable b); [ | discriminate ].
    destruct (py_eq b (PyInt 0)); try discriminate.
    apply py_truediv_returns_float.
  - intros v. destruct (printable a && printable b); [ | discriminate ].
    destruct (py_mul a b) as [p | e]; cbn [bind]; try discriminate.
    apply py_truediv_returns_float.
  - intros v. destruct (printable a && printable b); [ | discriminate ].
    intros E. apply logged_value_returns in E. destruct E as [E _].
    unfold py_pow in E.
    destruct a as [x | x], b as [y | y]; cbn [is_int andb];
      try (split; [ intros [n ->]; now apply float_pow_obj_not_int in E
                  | intros [H _]; discriminate ]).
    unfold py_lt. cbn [py_compare].
    destruct (Z.leb_spec 0 y) as [Hy | Hy].
    + inversion E. split; [ intros _ | eauto ].
      split; trivial. destruct (Z.compare_spec y 0); trivial. lia.
    + split; [ intros [n ->]; now apply float_pow_obj_not_int in E | ].
      intros [_ H]. destruct (Z.compare_spec y 0); try discriminate; lia.
  - apply square_root_returns_float.
Qed.

(** The quotient of two [int]s that divide exactly is still a float. *)
Lemma result_types_witness :
  exists v, divide (PyInt 6) (PyInt 3) = Ok v /\ is_int v = false.
Proof.
  exists (PyFloat (dyadic 2 0)). split; [ reflexivity | ].
  destruct (result_types sample_platform (PyInt 6) (PyInt 3))
    as (_ & _ & _ & H & _).
  apply H. reflexivity.
Defined.

(** The errors of the operations that have no guard. *)

Lemma as_float_error_range (a : num) (e : exn) :
  as_float a = Raise e ->
  e = int_too_large /\ is_int a = true /\ fits_float a = false.
Proof.
  intros E. destruct (as_float_error a e E) as [-> Hi].
  repeat split; trivial.
  destruct (fits_float a) eqn:F; trivial.
  destruct (as_float_fits a F) as [x Ex]. congruence.
Qed.

Lemma float_op_errors (a b : num) (f : float -> float -> float) (e : exn) :
  (x <- as_float a ;; y <- as_float b ;; Ok (PyFloat (f x y))) = Raise e ->
  e = int_too_large /\
  ((is_int a = true /\ fits_float a = false) \/
   (is_int b = true /\ fits_float b = false)).
Proof.
  destruct (as_float a) as [x | ea] eqn:Ea; cbn [bind].
  - destruct (as_float b) as [y | eb] eqn:Eb; cbn [bind]; try discriminate.
    intros E. inversion E. subst.
    apply as_float_error_range in Eb. tauto.
  - intros E. inversion E. subst.
    apply as_float_error_range in Ea. tauto.
Qed.

(** The errors of the interpreter's three operators of the ring. *)
Lemma py_ring_errors (a b : num) (e : exn) :
  py_add a b = Raise e \/ py_sub a b = Raise e \/ py_mul a b = Raise e ->
  e = int_too_large /\
  is_int a <> is_int b /\
  ((is_int a = true /\ fits_float a = false) \/
   (is_int b = true /\ fits_float b = false)).
Proof.
  unfold py_add, py_sub, py_mul.
  intros H.
  destruct a as [x | x], b as [y | y]; cbn [is_int].
  - destruct H as [H | [H | H]]; discriminate.
  - destruct H as [H | [H | H]]; apply float_op_errors in H;
      destruct H as [-> H]; repeat split; trivial; discriminate.
  - destruct H as [H | [H | H]]; apply float_op_errors in H;
      destruct H as [-> H]; repeat split; trivial; discriminate.
  - destruct H as [H | [H | H]]; discriminate.
Qed.

(** A result without a text is an [int]. *)
Lemma not_printable_is_int (v : num) : printable v = false -> is_int v = true.
Proof. destruct v; [ reflexivity | discriminate ]. Qed.

(** The errors of the three operations of the ring, shared below. *)
Lemma ring_errors (a b : num) (e : exn) :
  add a b = Raise e \/ subtract a b = Raise e \/ multiply a b = Raise e ->
  (e = int_str_limit /\
   (printable a && printable b = false \/ is_int a && is_int b = true)) \/
  (e = int_too_large /\
   is_int a <> is_int b /\
   ((is_int a = true /\ fits_float a = false) \/
    (is_int b = true /\ fits_float b = false))).
Proof.
  rewrite add_logged, subtract_logged, multiply_logged.
  destruct (printable a && printable b).
  - rewrite !logged_raises.
    intros [[H | (-> & v & E & Hv)] | [[H | (-> & v & E & Hv)]
                                      | [H | (-> & v & E & Hv)]]];
      try (right; apply py_ring_errors; tauto);
      left; split; trivial; right; apply not_printable_is_int in Hv.
    + now rewrite <- (py_add_is_int a b v E).
    + now rewrite <- (py_sub_is_int a b v E).
    + now rewrite <- (py_mul_is_int a b v E).
  - intros [H | [H | H]]; inversion H; auto.
Qed.

(** X2.  [add], [subtract] and [multiply] raise two errors and no other.
    The [ValueError] of a logging line, on an [int] without a text: an
    operand, or the exact result of two [int]s.  And, on an [int] and a
    float, [OverflowError("int too large to convert to float")], only when
    the [int] is at least [2 ** 1023] in magnitude. *)
Theorem ring_operations_errors (a b : num) (e : exn) :
  add a b = Raise e \/ subtract a b = Raise e \/ multiply a b = Raise e ->
  (e = int_str_limit /\
   (printable a && printable b = false \/ is_int a && is_int b = true)) \/
  (e = int_too_large /\
   is_int a <> is_int b /\
   ((is_int a = true /\ fits_float a = false) \/
    (is_int b = true /\ fits_float b = false))).
Proof. apply ring_errors. Qed.

(** [2 ** 1024 + 0.5]. *)
Lemma ring_operations_errors_witness :
  add (PyInt (2 ^ 1024)) (PyFloat f_half) = Raise int_too_large /\
  fits_float (PyInt (2 ^ 1024)) = false.
Proof.
  assert (E : add (PyInt (2 ^ 1024)) (PyFloat f_half) = Raise int_too_large).
  { rewrite add_logged, printable_below;
      [ vm_compute; reflexivity | ].
    rewrite Z.abs_eq by (apply Z.pow_nonneg; lia).
    apply Z.pow_lt_mono_r; lia. }
  split; [ exact E | ].
  destruct (ring_operations_errors (PyInt (2 ^ 1024)) (PyFloat f_half)
              int_too_large (or_introl E))
    as [[N _] | (_ & _ & [[_ H] | [H _]])].
  - discriminate N.
  - exact H.
  - discriminate H.
Defined.

Lemma int_true_divide_error (x y : Z) (e : exn) :
  int_true_divide x y = Raise e -> e = int_division_too_large.
Proof.
  destruct (int_true_divide_outcomes x y) as [[q E] | E]; rewrite E;
    intros H; now inversion H.
Qed.


(** The errors of the interpreter's [(a * b) / 100]. *)
Lemma percent_errors (a b : num) (e : exn) :
  (p <- py_mul a b ;; py_truediv p (PyInt 100)) = Raise e ->
  (e = int_too_large /\ is_int a <> is_int b) \/
  (e = int_division_too_large /\ is_int a && is_int b = true).
Proof.
  destruct (py_mul a b) as [p | e'] eqn:Em; cbn [bind].
  - destruct a as [x | x], b as [y | y].
    + inversion Em. subst.
      change (py_truediv (PyInt (x * y)) (PyInt 100))
        with (int_true_divide (x * y) 100).
      intros E. apply int_true_divide_error in E. now right.
    + apply float_op_returns_float in Em as Hp.
      destruct p as [n | p]; discriminate.
    + apply float_op_returns_float in Em as Hp.
      destruct p as [n | p]; discriminate.
    + apply float_op_returns_float in Em as Hp.
      destruct p as [n | p]; discriminate.
  - intros E. inversion E. subst. left.
    destruct (py_ring_errors a b e) as (-> & H & _); auto.
Qed.

(** The errors of [percentage], shared below. *)
Lemma percentage_raises (a b : num) :
  (forall e, percentage a b = Raise e ->
     (e = int_str_limit /\ printable a && printable b = false) \/
     (e = int_too_large /\ is_int a <> is_int b) \/
     (e = int_division_too_large /\ is_int a && is_int b = true)) /\
  (is_int a = false -> is_int b = false ->
   exists x y, a = PyFloat x /\ b = PyFloat y /\
     percentage a b = Ok (PyFloat (fdiv (fmul x y) f_hundred))).
Proof.
  split.
  - intros e. rewrite percentage_logged.
    destruct (printable a && printable b).
    + intros E. right. now apply percent_errors.
    + intros E. inversion E. auto.
  - intros Ha Hb. destruct a as [x | x], b as [y | y]; try discriminate.
    exists x, y. repeat split.
Qed.

(** X3.  [percentage] never raises on two floats.  What it raises otherwise
    is the [ValueError] of its logging line on an [int] operand without a
    text, or an [OverflowError]: the conversion of an [int] too large for a
    float, or, on two [int]s, a quotient of the exact product by 100 that is
    too large for a float.  Its divisor is the constant 100, so it never
    divides by zero. *)
Theorem percentage_errors (a b : num) :
  (forall e, percentage a b = Raise e ->
     (e = int_str_limit /\ printable a && printable b = false) \/
     (e = int_too_large /\ is_int a <> is_int b) \/
     (e = int_division_too_large /\ is_int a && is_int b = true)) /\
  (is_int a = false -> is_int b = false ->
   exists x y, a = PyFloat x /\ b = PyFloat y /\
     percentage a b = Ok (PyFloat (fdiv (fmul x y) f_hundred))).
Proof. apply percentage_raises. Qed.

(** The percentage of [10 ** 200] at [10 ** 200] percent: both operands are
    inside the range of a float. *)
Lemma percentage_errors_witness :
  fits_float (PyInt (10 ^ 200)) = true /\
  percentage (PyInt (10 ^ 200)) (PyInt (10 ^ 200))
  = Raise int_division_too_large.
Proof.
  split; [ reflexivity | ].
  pose proof printable_10_200 as Hp.
  assert (E : exists e, percentage (PyInt (10 ^ 200)) (PyInt (10 ^ 200))
                        = Raise e).
  { rewrite percentage_within by exact Hp. eexists. vm_compute. reflexivity. }
  destruct E as [e E]. rewrite E. f_equal.
  destruct (proj1 (percentage_errors (PyInt (10 ^ 200)) (PyInt (10 ^ 200)))
              e E) as [[_ H] | [[_ H] | [H _]]].
  - rewrite Hp in H. discriminate H.
  - now elim H.
  - exact H.
Defined.

(** ** Further properties of the handlers *)

Lemma except_Exception_num (P : platform) (op : result num) (name : string)
  (ops : list (string * num)) :
  except_Exception (v <- op ;; new_CalculationResponse P (VNum v) name ops)
  = match op with
    | Ok v => Returned (mk_CalculationResponse v name ops)
    | Raise e => HTTPException 400 (exn_msg e)
    end.
Proof. now destruct op. Qed.


(** X4.  The handlers of [add], [subtract] and [multiply] return a response
    on all operands inside the range of a float.  They never answer 500;
    when they answer 400 the detail is "int too large to convert to float"
    or the message of the [ValueError] of a logging line. *)
Theorem ring_handlers_replies (P : platform) (c : CalculationRequest) :
  (fits_float (req_a c) = true -> fits_float (req_b c) = true ->
   (exists r, api_add P c = Returned r) /\
   (exists r, api_subtract P c = Returned r) /\
   (exists r, api_multiply P c = Returned r)) /\
  (forall code detail,
     api_add P c = HTTPException code detail \/
     api_subtract P c = HTTPException code detail \/
     api_multiply P c = HTTPException code detail ->
     code = 400 /\
     (detail = "int too large to convert to float" \/
      detail = str int_str_limit)).
Proof.
  unfold api_add, api_subtract, api_multiply.
  rewrite try_add_eq, try_subtract_eq, try_multiply_eq.
  rewrite !except_Exception_num.
  split.
  - intros Fa Fb.
    destruct (add_fits _ _ Fa Fb) as [va ->].
    destruct (subtract_fits _ _ Fa Fb) as [vs ->].
    destruct (multiply_fits _ _ Fa Fb) as [vm ->].
    split; [ | split ]; eexists; reflexivity.
  - intros code detail [H | [H | H]].
    + destruct (add (req_a c) (req_b c)) as [v | e] eqn:E; try discriminate.
      inversion H. split; trivial.
      destruct (ring_errors _ _ e (or_introl E)) as [(-> & _) | (-> & _)];
        auto.
    + destruct (subtract (req_a c) (req_b c)) as [v | e] eqn:E;
        try discriminate.
      inversion H. split; trivial.
      destruct (ring_errors _ _ e (or_intror (or_introl E)))
        as [(-> & _) | (-> & _)]; auto.
    + destruct (multiply (req_a c) (req_b c)) as [v | e] eqn:E;
        try discriminate.
      inversion H. split; trivial.
      destruct (ring_errors _ _ e (or_intror (or_intror E)))
        as [(-> & _) | (-> & _)]; auto.
Qed.

(** The request [{"a": 0.5, "b": 3}] to [/api/multiply]. *)
Lemma ring_handlers_replies_witness :
  exists r,
    api_multiply sample_platform
      (mk_CalculationRequest (PyFloat f_half) (PyInt 3)) = Returned r.
Proof.
  destruct (proj1 (ring_handlers_replies sample_platform
                     (mk_CalculationRequest (PyFloat f_half) (PyInt 3)))
              eq_refl eq_refl) as (_ & _ & H).
  exact H.
Defined.

(** The complex results of [power]. *)

Lemma float_pow_complex (P : platform) (iv iw re im : float) :
  float_pow P iv iw = Ok (VComplex re im) ->
  fltb iv f_zero = true /\ is_finite iw = true /\ is_integer iw = false /\
  c_complex_pow P iv iw = Some (re, im).
Proof.
  unfold float_pow.
  destruct (feqb iw f_zero); try discriminate.
  destruct (is_nan iv); try discriminate.
  destruct (is_nan iw) eqn:Hn; try discriminate.
  destruct (is_inf iw) eqn:Hi.
  { destruct (feqb (fabs iv) f_one); try discriminate.
    destruct (Bool.eqb _ _); discriminate. }
  destruct (is_inf iv).
  { destruct (fltb f_zero iw); discriminate. }
  destruct (feqb iv f_zero).
  { destruct (fltb iw f_zero); discriminate. }
  destruct (fltb iv f_zero) eqn:Hlt; cbn [andb].
  - destruct (is_integer iw) eqn:Hint; cbn [negb].
    + destruct (feqb (fopp iv) f_one); try discriminate.
      destruct (is_inf (c_pow P (fopp iv) iw)); discriminate.
    + destruct (c_complex_pow P iv iw) as [[re' im'] | ]; try discriminate.
      intros E. inversion E. subst. repeat split.
      destruct iw; try discriminate; reflexivity.
  - destruct (feqb iv f_one); try discriminate.
    destruct (is_inf (c_pow P iv iw)); discriminate.
Qed.

Lemma float_pow_negative_fraction (P : platform) (iv iw : float) :
  is_finite iv = true -> fltb iv f_zero = true ->
  is_finite iw = true -> is_integer iw = false ->
  float_pow P iv iw
  = match c_complex_pow P iv iw with
    | Some (re, im) => Ok (VComplex re im)
    | None => Raise complex_overflow
    end.
Proof.
  intros Hv Hlt Hw Hint. unfold float_pow.
  destruct iv as [s' | s' | | [ | ] m' e']; try discriminate.
  destruct iw as [s | s | | [ | ] m e]; try discriminate.
  - change (feqb (S754_finite true m e) f_zero) with false.
    cbn [is_nan is_inf].
    change (feqb (S754_finite true m' e') f_zero) with false.
    rewrite Hlt, Hint. reflexivity.
  - change (feqb (S754_finite false m e) f_zero) with false.
    cbn [is_nan is_inf].
    change (feqb (S754_finite true m' e') f_zero) with false.
    rewrite Hlt, Hint. reflexivity.
Qed.

(** The interpreter's power on a finite negative base and a finite float
    exponent that is no integer. *)
Lemma py_pow_negative_fraction (P : platform) (a : num) (iv iw : float) :
  finite_num a = true -> py_lt a (PyInt 0) = true ->
  as_float a = Ok iv -> is_finite iw = true -> is_integer iw = false ->
  py_pow P a (PyFloat iw)
  = match c_complex_pow P iv iw with
    | Some (re, im) => Ok (VComplex re im)
    | None => Raise complex_overflow
    end.
Proof.
  intros Ha Hlt Ea Hw Hint.
  assert (Hv : is_finite iv = true) by (eapply as_float_finite; eauto).
  rewrite <- (as_float_lt_zero a iv Ea) in Hlt.
  unfold py_pow.
  destruct a as [x | x]; rewrite Ea; cbn [as_float bind];
    now apply float_pow_negative_fraction.
Qed.

(** X5.  [power] returns a complex number only on a negative base and a
    finite exponent that is no integer; on a finite negative base and such an
    exponent given as a float it returns nothing else: the complex power of
    the platform, or [OverflowError("complex exponentiation")]. *)
Theorem power_complex_cases (P : platform) (a b : num) :
  (forall re im, power P a b = Ok (VComplex re im) ->
     py_lt a (PyInt 0) = true /\
     exists iw, as_float b = Ok iw /\ is_finite iw = true /\
                is_integer iw = false) /\
  (forall iv iw, finite_num a = true -> py_lt a (PyInt 0) = true ->
     as_float a = Ok iv -> b = PyFloat iw ->
     is_finite iw = true -> is_integer iw = false ->
     power P a b
     = match c_complex_pow P iv iw with
       | Some (re, im) => Ok (VComplex re im)
       | None => Raise complex_overflow
       end).
Proof.
  split.
  - intros re im.
    assert (H : (iv <- as_float a ;; iw <- as_float b ;; float_pow P iv iw)
                = Ok (VComplex re im) ->
                py_lt a (PyInt 0) = true /\
                exists iw, as_float b = Ok iw /\ is_finite iw = true /\
                           is_integer iw = false).
    { destruct (as_float a) as [iv | e] eqn:Ea; cbn [bind]; try discriminate.
      destruct (as_float b) as [iw | e] eqn:Eb; cbn [bind]; try discriminate.
      intros E. apply float_pow_complex in E.
      destruct E as (Hlt & Hf & Hi & _).
      rewrite (as_float_lt_zero a iv Ea) in Hlt. eauto. }
    rewrite power_logged.
    destruct (printable a && printable b); [ | discriminate ].
    intros E. apply logged_value_returns in E. destruct E as [E _].
    revert E. unfold py_pow. destruct a as [x | x], b as [y | y]; trivial.
    destruct (0 <=? y); trivial. discriminate.
  - intros iv iw Ha Hlt Ea -> Hw Hint.
    rewrite power_float_exponent by apply (as_float_printable a iv Ea).
    now apply py_pow_negative_fraction.
Qed.

(** X6.  [api_power] never returns a response on a finite negative base and
    a finite float exponent that is no integer: the complex result fails the
    validation of the response, and the handler answers 400 with the report
    of the validation, or with "complex exponentiation" on a range error. *)
Theorem api_power_rejects_complex
  (P : platform) (c : CalculationRequest) (iv iw : float) :
  finite_num (req_a c) = true -> py_lt (req_a c) (PyInt 0) = true ->
  as_float (req_a c) = Ok iv -> req_b c = PyFloat iw ->
  is_finite iw = true -> is_integer iw = false ->
  api_power P c
  = HTTPException 400
      match c_complex_pow P iv iw with
      | Some _ => validation_report P
      | None => "complex exponentiation"
      end.
Proof.
  intros Ha Hlt Ea Eb Hw Hint. unfold api_power. rewrite try_power_eq.
  assert (E : power P (req_a c) (req_b c)
              = match c_complex_pow P iv iw with
                | Some (re, im) => Ok (VComplex re im)
                | None => Raise complex_overflow
                end).
  { rewrite Eb.
    rewrite power_float_exponent by apply (as_float_printable _ iv Ea).
    now apply py_pow_negative_fraction. }
  rewrite E. now destruct (c_complex_pow P iv iw) as [[re im] | ].
Qed.

(** The request [{"a": -8, "b": 0.5}] to [/api/power]. *)
Lemma api_power_rejects_complex_witness :
  api_power sample_platform
    (mk_CalculationRequest (PyInt (-8)) (PyFloat f_half))
  = HTTPException 400 "complex exponentiation".
Proof.
  apply (api_power_rejects_complex sample_platform
           (mk_CalculationRequest (PyInt (-8)) (PyFloat f_half))
           (dyadic (-8) 0) f_half); reflexivity.
Defined.

(** The base -0.5 under the exponent 2.5. *)
Lemma power_complex_cases_witness :
  power sample_platform (PyFloat (dyadic (-1) (-1))) (PyFloat (dyadic 5 (-1)))
  = Raise complex_overflow.
Proof.
  apply (proj2 (power_complex_cases sample_platform
                  (PyFloat (dyadic (-1) (-1))) (PyFloat (dyadic 5 (-1))))
           (dyadic (-1) (-1)) (dyadic 5 (-1))); reflexivity.
Defined.


(** X7.  On an operand that is not negative the handler of the square root
    and the handler of the power with the exponent 0.5 return the same
    number.  They answer the failure of [a ** 0.5] differently: [api_power]
    with the status 400 and the text of the exception, [api_square_root]
    with the status 500.  On an [int] without a text both answer 400 with
    the message of the [ValueError] of the logging line. *)
Theorem square_root_handler_versus_power (P : platform) (a : num) :
  py_ge a (PyInt 0) = true ->
  (forall r,
     api_power P (mk_CalculationRequest a (PyFloat f_half)) = Returned r ->
     api_square_root P (mk_SingleOperandRequest a)
     = Returned (mk_CalculationResponse (result_ r) "square_root"
                   [("a", a)])) /\
  (forall code detail,
     api_power P (mk_CalculationRequest a (PyFloat f_half))
     = HTTPException code detail ->
     code = 400 /\
     (printable a = true ->
      api_square_root P (mk_SingleOperandRequest a)
      = HTTPException 500 "Internal server error") /\
     (printable a = false ->
      detail = str int_str_limit /\
      api_square_root P (mk_SingleOperandRequest a)
      = HTTPException 400 (str int_str_limit))).
Proof.
  intros Hge. apply py_ge_not_lt in Hge.
  unfold api_power, api_square_root.
  rewrite try_power_eq, try_square_root_eq.
  cbn [req_a req_b single_a].
  rewrite power_logged, square_root_logged. cbn [printable].
  rewrite andb_true_r, Hge, logged_value_float_exponent.
  destruct (printable a).
  - destruct (py_pow_half_outcomes P a Hge) as [[x E] | (e & E & Hc)];
      rewrite E;
      cbn [bind new_CalculationResponse except_Exception
             except_ValueError_Exception].
    + split.
      * intros r H. now inversion H.
      * discriminate.
    + split.
      * discriminate.
      * intros code detail H. inversion H. split; trivial.
        split; [ intros _ | discriminate ].
        destruct e as [cls msg]. cbn [exn_cls] in *. now subst cls.
  - cbn [bind except_Exception except_ValueError_Exception].
    split; [ discriminate | ].
    intros code detail H. inversion H. split; trivial.
    split; [ discriminate | ]. intros _. split; reflexivity.
Qed.

(** The operand 9, and the operand [2 ** 1024]. *)
Lemma square_root_handler_versus_power_witness :
  api_square_root sample_platform (mk_SingleOperandRequest (PyInt 9))
  = Returned (mk_CalculationResponse (PyFloat (dyadic 3 0)) "square_root"
                [("a", PyInt 9)]) /\
  api_power sample_platform
    (mk_CalculationRequest (PyInt 9) (PyFloat f_half))
  = Returned (mk_CalculationResponse (PyFloat (dyadic 3 0)) "power"
                [("a", PyInt 9); ("b", PyFloat f_half)]).
Proof.
  assert (E : api_power sample_platform
                (mk_CalculationRequest (PyInt 9) (PyFloat f_half))
              = Returned (mk_CalculationResponse (PyFloat (dyadic 3 0)) "power"
                            [("a", PyInt 9); ("b", PyFloat f_half)]))
    by reflexivity.
  split; [ | exact E ].
  apply (proj1 (square_root_handler_versus_power sample_platform (PyInt 9)
                  eq_refl) _ E).
Defined.

(** X8.  [api_divide] answers 400 exactly on an [int] operand without a text
    or a divisor equal to zero, and with the detail "Cannot divide by zero"
    on a zero divisor when the operands have a text; [api_square_root]
    answers 400 exactly on an [int] without a text or a negative operand,
    and with the detail "Cannot calculate square root of negative number" on
    a negative operand that has a text.  Each returns a response exactly
    when its operation returns, and no handler answers with a status other
    than 200, 400 and 500. *)
Theorem domain_handlers_status
  (P : platform) (c : CalculationRequest) (s : SingleOperandRequest) :
  (status (api_divide P c) = 400 <->
   printable (req_a c) && printable (req_b c) = false \/
   py_eq (req_b c) (PyInt 0) = true) /\
  (printable (req_a c) = true -> printable (req_b c) = true ->
   py_eq (req_b c) (PyInt 0) = true ->
   api_divide P c = HTTPException 400 "Cannot divide by zero") /\
  (status (api_divide P c) = 200 <->
   exists v, divide (req_a c) (req_b c) = Ok v) /\
  (status (api_square_root P s) = 400 <->
   printable (single_a s) = false \/ py_lt (single_a s) (PyInt 0) = true) /\
  (printable (single_a s) = true -> py_lt (single_a s) (PyInt 0) = true ->
   api_square_root P s
   = HTTPException 400 "Cannot calculate square root of negative number") /\
  (status (api_square_root P s) = 200 <->
   exists v, square_root P (single_a s) = Ok v) /\
  (forall h, In h [api_add P c; api_subtract P c; api_multiply P c;
                   api_divide P c; api_power P c; api_square_root P s;
                   api_percentage P c] ->
             status h = 200 \/ status h = 400 \/ status h = 500).
Proof.
  assert (Hd : forall body, status (except_ValueError_Exception body) = 200
                            \/ status (except_ValueError_Exception body) = 400
                            \/ status (except_ValueError_Exception body) = 500).
  { intros [r | e]; cbn; auto. destruct (is_ValueError (exn_cls e)); auto. }
  assert (He : forall body, status (except_Exception body) = 200
                            \/ status (except_Exception body) = 400
                            \/ status (except_Exception body) = 500).
  { intros [r | e]; cbn; auto. }
  split; [ | split; [ | split; [ | split; [ | split; [ | split ] ] ] ] ].
  - destruct (divide (req_a c) (req_b c)) as [v | e] eqn:E.
    + unfold api_divide. rewrite try_divide_eq, E. cbn.
      split; [ discriminate | ].
      rewrite divide_logged in E. intros [H | H]; rewrite H in E.
      * discriminate.
      * destruct (printable (req_a c) && printable (req_b c)); discriminate.
    + rewrite (api_divide_raised P c e E).
      destruct (divide_errors _ _ _ E)
        as [[-> H] | [(-> & H & _) | (Hc & H & _ & H')]]; cbn.
      * tauto.
      * tauto.
      * rewrite Hc. cbn. split; [ discriminate | ].
        intros [H0 | H0]; congruence.
  - intros Pa Pb Hz.
    rewrite (api_divide_raised P c divide_by_zero); [ reflexivity | ].
    now apply divide_zero.
  - unfold api_divide. rewrite try_divide_eq.
    destruct (divide (req_a c) (req_b c)) as [v | e] eqn:E; cbn.
    + split; eauto.
    + split; [ | intros [v H]; discriminate ].
      destruct (is_ValueError (exn_cls e)); discriminate.
  - destruct (square_root P (single_a s)) as [v | e] eqn:E.
    + destruct (square_root_returns_float P _ v E) as [x ->].
      unfold api_square_root. rewrite try_square_root_eq, E. cbn.
      split; [ discriminate | ].
      rewrite square_root_logged in E. intros [H | H]; rewrite H in E.
      * discriminate.
      * destruct (printable (single_a s)); discriminate.
    + rewrite (api_square_root_raised P s e E).
      destruct (square_root_errors _ _ _ E)
        as [[-> H] | [(-> & H & _) | (Hc & H & H')]]; cbn.
      * tauto.
      * tauto.
      * rewrite Hc. cbn. split; [ discriminate | ].
        intros [H0 | H0]; congruence.
  - intros Pa Hlt.
    rewrite (api_square_root_raised P s negative_square_root);
      [ reflexivity | ].
    now apply square_root_negative.
  - unfold api_square_root. rewrite try_square_root_eq.
    destruct (square_root P (single_a s)) as [v | e] eqn:E.
    + destruct (square_root_returns_float P _ v E) as [x ->]. cbn.
      split; eauto.
    + cbn. split; [ | intros [v H]; discriminate ].
      destruct (is_ValueError (exn_cls e)); discriminate.
  - intros h [<- | [<- | [<- | [<- | [<- | [<- | [<- | []]]]]]]];
      first [ apply He | apply Hd ].
Qed.

(** The requests 5 / 0 and the square root of -4. *)
Lemma domain_handlers_status_witness :
  api_divide sample_platform (mk_CalculationRequest (PyInt 5) (PyInt 0))
  = HTTPException 400 "Cannot divide by zero" /\
  api_square_root sample_platform (mk_SingleOperandRequest (PyInt (-4)))
  = HTTPException 400 "Cannot calculate square root of negative number".
Proof.
  destruct (domain_handlers_status sample_platform
              (mk_CalculationRequest (PyInt 5) (PyInt 0))
              (mk_SingleOperandRequest (PyInt (-4))))
    as (_ & Hd & _ & _ & Hs & _).
  split; [ apply Hd | apply Hs ]; reflexivity.
Defined.

(** ** Laws of the arithmetic *)

Lemma returns_float (x y : float) :
  feqb x y = true -> returns (Ok (PyFloat x)) (PyFloat y) = true.
Proof. intros H. exact H. Qed.

Lemma feqb_zero_zero (s s' : bool) :
  feqb (S754_zero s) (S754_zero s') = true.
Proof. reflexivity. Qed.

Lemma not_nan_float (x : float) : negb (is_nan x) = true -> x <> S754_nan.
Proof. destruct x; simpl; congruence. Qed.

Lemma fadd_zero_r (x : float) :
  x <> S754_nan -> feqb (fadd x f_zero) x = true.
Proof.
  intros H. destruct x as [[ | ] | s | | s m e]; try reflexivity.
  - now apply feqb_refl.
  - congruence.
  - now apply feqb_refl.
Qed.

Lemma fsub_zero_r (x : float) :
  x <> S754_nan -> feqb (fsub x f_zero) x = true.
Proof.
  intros H. destruct x as [[ | ] | s | | s m e]; try reflexivity.
  - now apply feqb_refl.
  - congruence.
  - now apply feqb_refl.
Qed.

Lemma fsub_diag (x : float) :
  is_finite x = true -> feqb (fsub x x) f_zero = true.
Proof.
  destruct x as [[ | ] | s | | s m e]; try discriminate; try reflexivity.
  intros _. unfold fsub. cbn [SFsub]. now rewrite Z.sub_diag.
Qed.

Lemma fmul_zero_r (x : float) :
  is_finite x = true -> feqb (fmul x f_zero) f_zero = true.
Proof. destruct x as [s | s | | s m e]; try discriminate; reflexivity. Qed.

(** X9.  Zero is neutral for [add] and [subtract] on every operand that is
    not a NaN, and absorbing for [multiply] on every finite operand; a
    finite operand minus itself is zero.  All on an operand that has a text
    and with [==], which does not tell the two zeros of the floats apart. *)
Theorem zero_laws (a : num) :
  printable a = true ->
  (not_nan a = true ->
   returns (add a (PyInt 0)) a = true /\
   returns (add (PyInt 0) a) a = true /\
   returns (subtract a (PyInt 0)) a = true) /\
  (finite_num a = true ->
   returns (multiply a (PyInt 0)) (PyInt 0) = true /\
   returns (multiply (PyInt 0) a) (PyInt 0) = true /\
   returns (subtract a a) (PyInt 0) = true).
Proof.
  intros Pa.
  rewrite !add_logged, !subtract_logged, !multiply_logged, Pa, printable_zero.
  cbn [andb].
  destruct a as [n | x]; cbn [not_nan finite_num].
  - cbn [py_add py_sub py_mul logged bind].
    rewrite Z.add_0_r, Z.add_0_l, Z.sub_0_r, Z.mul_0_r, Z.mul_0_l, Z.sub_diag.
    rewrite Pa, printable_zero. unfold returns.
    rewrite !py_eq_refl_int. tauto.
  - split.
    + intros H. apply not_nan_float in H.
      change (logged (py_add (PyFloat x) (PyInt 0)))
        with (Ok (PyFloat (fadd x f_zero))).
      change (logged (py_add (PyInt 0) (PyFloat x)))
        with (Ok (PyFloat (fadd f_zero x))).
      change (logged (py_sub (PyFloat x) (PyInt 0)))
        with (Ok (PyFloat (fsub x f_zero))).
      rewrite (fadd_comm f_zero x).
      repeat split; apply returns_float;
        [ now apply fadd_zero_r | now apply fadd_zero_r
        | now apply fsub_zero_r ].
    + intros H.
      change (logged (py_mul (PyFloat x) (PyInt 0)))
        with (Ok (PyFloat (fmul x f_zero))).
      change (logged (py_mul (PyInt 0) (PyFloat x)))
        with (Ok (PyFloat (fmul f_zero x))).
      change (logged (py_sub (PyFloat x) (PyFloat x)))
        with (Ok (PyFloat (fsub x x))).
      rewrite (fmul_comm f_zero x).
      unfold returns. rewrite <- !(as_float_eq_zero (PyFloat _) _ eq_refl).
      repeat split; [ now apply fmul_zero_r | now apply fmul_zero_r
                    | now apply fsub_diag ].
Qed.

(** The operands -0.0 and 7.5. *)
Lemma zero_laws_witness :
  returns (add (PyFloat (S754_zero true)) (PyInt 0))
          (PyFloat (S754_zero true)) = true /\
  returns (subtract (PyFloat (dyadic 15 (-1))) (PyFloat (dyadic 15 (-1))))
          (PyInt 0) = true.
Proof.
  split.
  - apply (proj1 (zero_laws (PyFloat (S754_zero true)) eq_refl)).
    reflexivity.
  - apply (proj2 (zero_laws (PyFloat (dyadic 15 (-1))) eq_refl)).
    reflexivity.
Defined.

(** X10.  A zero dividend gives a quotient equal to zero under every divisor
    that has a text and is neither zero nor a NaN; and a finite float
    divided by an infinity is zero. *)
Theorem divide_zero_dividend_and_infinite_divisor :
  (forall b, printable b = true ->
     py_eq b (PyInt 0) = false -> not_nan b = true ->
     returns (divide (PyInt 0) b) (PyInt 0) = true) /\
  (forall x s, is_finite x = true ->
     returns (divide (PyFloat x) (PyFloat (S754_infinity s))) (PyInt 0)
     = true).
Proof.
  split.
  - intros b Pb Hz Hn.
    rewrite divide_nonzero; [ | apply printable_zero | exact Pb | exact Hz ].
    destruct b as [y | y].
    + rewrite py_eq_int in Hz. unfold py_truediv. rewrite Hz. reflexivity.
    + rewrite <- (as_float_eq_zero (PyFloat y) y eq_refl) in Hz.
      unfold py_truediv. cbn [as_float bind].
      change (int_to_float 0) with (Ok f_zero). cbn [bind]. rewrite Hz.
      destruct y as [s | s | | s m e]; try discriminate; reflexivity.
  - intros x s Hx. rewrite divide_floats by now destruct s.
    destruct x as [s' | s' | | s' m e]; try discriminate; reflexivity.
Qed.

(** Zero by -5, and 7.5 by an infinity. *)
Lemma divide_zero_dividend_and_infinite_divisor_witness :
  returns (divide (PyInt 0) (PyInt (-5))) (PyInt 0) = true /\
  returns (divide (PyFloat (dyadic 15 (-1))) (PyFloat (S754_infinity true)))
          (PyInt 0) = true.
Proof.
  destruct divide_zero_dividend_and_infinite_divisor as [H1 H2].
  split.
  - apply H1; reflexivity.
  - apply H2. reflexivity.
Defined.

(** X11.  A NaN passes both guards, which are comparisons and false on it:
    [divide] returns a NaN whenever the dividend is a NaN and the divisor is
    not zero, or the divisor is a NaN; [square_root] and its handler return
    a NaN on a NaN, and so does [api_divide]. *)
Theorem nan_passes_the_guards (P : platform) :
  (forall a x, as_float a = Ok x ->
     divide a (PyFloat S754_nan) = Ok (PyFloat S754_nan)) /\
  (forall b y, as_float b = Ok y -> py_eq b (PyInt 0) = false ->
     divide (PyFloat S754_nan) b = Ok (PyFloat S754_nan)) /\
  square_root P (PyFloat S754_nan) = Ok (VNum (PyFloat S754_nan)) /\
  api_square_root P (mk_SingleOperandRequest (PyFloat S754_nan))
  = Returned (mk_CalculationResponse (PyFloat S754_nan) "square_root"
                [("a", PyFloat S754_nan)]) /\
  (forall a x, as_float a = Ok x ->
     api_divide P (mk_CalculationRequest a (PyFloat S754_nan))
     = Returned (mk_CalculationResponse (PyFloat S754_nan) "division"
                   [("a", a); ("b", PyFloat S754_nan)])).
Proof.
  assert (Hd : forall a x, as_float a = Ok x ->
                 divide a (PyFloat S754_nan) = Ok (PyFloat S754_nan)).
  { intros a x Ea.
    rewrite divide_nonzero;
      [ | apply (as_float_printable a x Ea) | reflexivity | reflexivity ].
    unfold py_truediv. destruct a as [n | x']; rewrite Ea; cbn [as_float bind];
      change (feqb S754_nan f_zero) with false; cbv iota;
      destruct x as [s | s | | s m e]; reflexivity. }
  split; [ exact Hd | ]. split; [ | split; [ reflexivity | split ] ].
  - intros b y Eb Hz.
    rewrite divide_nonzero;
      [ | reflexivity | apply (as_float_printable b y Eb) | exact Hz ].
    rewrite <- (as_float_eq_zero b y Eb) in Hz.
    unfold py_truediv. destruct b as [n | y']; rewrite ?Eb;
      cbn [as_float bind]; rewrite ?Eb; cbn [bind].
    + now rewrite Hz.
    + inversion Eb. subst. now rewrite Hz.
  - reflexivity.
  - intros a x Ea. unfold api_divide. rewrite try_divide_eq.
    cbn [req_a req_b]. now rewrite (Hd a x Ea).
Qed.

Lemma nan_passes_the_guards_witness :
  divide (PyInt 1) (PyFloat S754_nan) = Ok (PyFloat S754_nan).
Proof.
  apply (proj1 (nan_passes_the_guards sample_platform) (PyInt 1) f_one).
  reflexivity.
Defined.

(** X12.  One to any power is one: [power(1, b)] and [power(1.0, b)] return
    a value equal to 1 for every exponent that converts to a float, negative,
    infinite or NaN as it may be, without a call to the C library. *)
Theorem power_of_one (P : platform) (b : num) (iw : float) :
  as_float b = Ok iw ->
  returns_value (power P (PyInt 1) b) (PyInt 1) = true /\
  returns_value (power P (PyFloat f_one) b) (PyInt 1) = true.
Proof.
  intros Eb.
  assert (H : float_pow P f_one iw = Ok (VNum (PyFloat f_one))).
  { unfold float_pow.
    change (is_nan f_one) with false.
    change (feqb f_one f_one) with true.
    change (feqb (fabs f_one) f_one) with true.
    change (is_inf f_one) with false.
    change (feqb f_one f_zero) with false.
    change (fltb f_one f_zero) with false.
    cbn [andb]. cbv iota.
    destruct (feqb iw f_zero); trivial.
    destruct (is_nan iw); trivial.
    destruct (is_inf iw); trivial. }
  assert (Hf : (iv <- Ok f_one ;; iw' <- as_float b ;; float_pow P iv iw')
               = Ok (VNum (PyFloat f_one))).
  { rewrite Eb. exact H. }
  pose proof (as_float_printable b iw Eb) as Pb.
  rewrite !power_logged, Pb, printable_one. cbn [printable andb].
  split.
  - unfold py_pow. destruct b as [y | y].
    + destruct (0 <=? y) eqn:Hy.
      * apply Z.leb_le in Hy. rewrite Z.pow_1_l by exact Hy.
        cbn [logged_value bind printable_value]. now rewrite printable_one.
      * change (as_float (PyInt 1)) with (Ok f_one). now rewrite Hf.
    + change (as_float (PyInt 1)) with (Ok f_one). now rewrite Hf.
  - unfold py_pow. cbn [as_float].
    destruct b as [y | y]; now rewrite Hf.
Qed.

(** One to the power [-inf]. *)
Lemma power_of_one_witness :
  returns_value
    (power sample_platform (PyInt 1) (PyFloat (S754_infinity true)))
    (PyInt 1) = true.
Proof.
  apply (power_of_one sample_platform (PyFloat (S754_infinity true))
           (S754_infinity true)).
  reflexivity.
Defined.

Lemma py_mul_comm (a b : num) : py_mul a b = py_mul b a.
Proof.
  unfold py_mul. destruct a as [x | x], b as [y | y]; cbn [as_float bind].
  - now rewrite Z.mul_comm.
  - destruct (int_to_float x); cbn [bind]; trivial. now rewrite fmul_comm.
  - destruct (int_to_float y); cbn [bind]; trivial. now rewrite fmul_comm.
  - now rewrite fmul_comm.
Qed.

(** X13.  The two operands of [percentage] can be exchanged: the outcome,
    value or exception, is the same; and the percentage is zero when either
    operand is zero and the other is finite and has a text. *)
Theorem percentage_commutes_and_zero (a b : num) :
  percentage a b = percentage b a /\
  (finite_num a = true -> printable a = true ->
   returns (percentage a (PyInt 0)) (PyInt 0) = true /\
   returns (percentage (PyInt 0) a) (PyInt 0) = true).
Proof.
  split.
  - rewrite !percentage_logged, (andb_comm (printable b)).
    now rewrite py_mul_comm.
  - intros Ha Pa.
    rewrite !percentage_within by (trivial; apply printable_zero).
    assert (H : returns (p <- py_mul a (PyInt 0) ;; py_truediv p (PyInt 100))
                        (PyInt 0) = true).
    { destruct a as [n | x].
      - unfold py_mul. rewrite Z.mul_0_r. reflexivity.
      - change (p <- py_mul (PyFloat x) (PyInt 0) ;; py_truediv p (PyInt 100))
          with (Ok (A := num) (PyFloat (fdiv (fmul x f_zero) f_hundred))).
        destruct x as [s | s | | s m e]; try discriminate; reflexivity. }
    split; trivial. now rewrite py_mul_comm.
Qed.

(** Zero percent of 33.33. *)
Lemma percentage_commutes_and_zero_witness :
  returns (percentage (PyFloat (S754_finite false 4690780486883082 (-47)))
                      (PyInt 0)) (PyInt 0) = true.
Proof.
  apply (proj2 (percentage_commutes_and_zero
                  (PyFloat (S754_finite false 4690780486883082 (-47)))
                  (PyInt 0))); reflexivity.
Defined.

Lemma cond_Zopp_negb (s : bool) (m : Z) :
  cond_Zopp (negb s) m = - cond_Zopp s m.
Proof. destruct s; simpl; lia. Qed.

Lemma fsub_fadd_opp (x y : float) : fsub x y = fadd x (fopp y).
Proof.
  destruct x as [sx | sx | | sx mx ex], y as [sy | sy | | sy my ey];
    try reflexivity.
  - now destruct sx, sy.
  - now destruct sx, sy.
  - unfold fsub, fadd, fopp. cbn [SFsub SFadd SFopp].
    rewrite cond_Zopp_negb. now rewrite Z.add_opp_r.
Qed.

Lemma int_to_float_opp (n : Z) :
  n <> 0 ->
  int_to_float (- n)
  = x <- int_to_float n ;; Ok (fopp x).
Proof.
  intros Hn. unfold int_to_float.
  destruct n as [ | p | p]; try congruence; cbn [Z.opp binary_normalize].
  - pose proof (binary_round_opp prec emax false p 0) as H.
    cbn [negb] in H. rewrite <- H.
    now destruct (binary_round prec emax false p 0).
  - pose proof (binary_round_opp prec emax true p 0) as H.
    cbn [negb] in H. rewrite <- H.
    now destruct (binary_round prec emax true p 0).
Qed.

(** The interpreter's [a - b] and [a + (-b)]. *)
Lemma py_sub_add_neg (a b : num) :
  finite_num a = true -> finite_num b = true ->
  same_outcome (py_sub a b) (py_add a (py_neg b)).
Proof.
  intros Ha Hb. unfold py_sub, py_add.
  destruct a as [x | x], b as [y | y]; cbn [py_neg finite_num] in *.
  - rewrite Z.add_opp_r. apply same_outcome_refl_int.
  - cbn [as_float bind]. destruct (int_to_float x) as [x' | e] eqn:E;
      cbn [bind]; [ | reflexivity ].
    rewrite fsub_fadd_opp. apply same_outcome_refl_float.
    apply fadd_not_nan.
    + eapply int_to_float_finite, E.
    + now destruct y.
  - cbn [as_float bind]. destruct (Z.eq_dec y 0) as [-> | Hy].
    + change (int_to_float (- 0)) with (Ok f_zero).
      change (int_to_float 0) with (Ok f_zero). cbn [bind].
      apply same_outcome_float.
      destruct x as [[ | ] | s | | s m e]; try discriminate; try reflexivity;
        apply feqb_refl; discriminate.
    + rewrite int_to_float_opp by exact Hy.
      destruct (int_to_float y) as [y' | e] eqn:E; cbn [bind];
        [ | reflexivity ].
      rewrite fsub_fadd_opp. apply same_outcome_refl_float.
      apply fadd_not_nan; trivial.
      apply int_to_float_finite in E. now destruct y'.
  - cbn [as_float bind]. rewrite fsub_fadd_opp.
    apply same_outcome_refl_float. apply fadd_not_nan; trivial.
    now destruct y.
Qed.

(** X14.  On finite operands [subtract(a, b)] is [add(a, -b)]: the two
    return values that compare equal with [==], or raise the same
    exception. *)
Theorem subtract_is_add_of_negation (a b : num) :
  finite_num a = true -> finite_num b = true ->
  same_outcome (subtract a b) (add a (py_neg b)).
Proof.
  intros Ha Hb. rewrite subtract_logged, add_logged, printable_neg.
  destruct (printable a && printable b); [ | reflexivity ].
  apply same_outcome_logged; [ now apply py_sub_add_neg | ].
  intros v v' E E'.
  now rewrite (py_sub_is_int _ _ _ E), (py_add_is_int _ _ _ E'), is_int_neg.
Qed.

(** The operands -0.0 and 0, where the two sides are zeros of opposite
    signs. *)
Lemma subtract_is_add_of_negation_witness :
  same_outcome (subtract (PyFloat (S754_zero true)) (PyInt 0))
               (add (PyFloat (S754_zero true)) (py_neg (PyInt 0))).
Proof.
  apply (subtract_is_add_of_negation (PyFloat (S754_zero true)) (PyInt 0));
    reflexivity.
Defined.

(** The sign of a product and of a quotient. *)

Lemma xorb_negb_l (s s' : bool) : xorb (negb s) s' = negb (xorb s s').
Proof. now destruct s, s'. Qed.

Lemma fmul_opp_l (x y : float) : fmul (fopp x) y = fopp (fmul x y).
Proof.
  destruct x as [sx | sx | | sx mx ex], y as [sy | sy | | sy my ey];
    unfold fmul, fopp; cbn [SFmul SFopp]; rewrite ?xorb_negb_l; trivial.
  symmetry. apply binary_round_aux_opp.
Qed.

Lemma fdiv_opp_l (x y : float) : fdiv (fopp x) y = fopp (fdiv x y).
Proof.
  destruct x as [sx | sx | | sx mx ex], y as [sy | sy | | sy my ey];
    unfold fdiv, fopp; cbn [SFdiv SFopp]; rewrite ?xorb_negb_l; trivial.
  destruct (SFdiv_core_binary prec emax (Zpos mx) ex (Zpos my) ey)
    as [[q e] l].
  symmetry. apply binary_round_aux_opp.
Qed.

Lemma fopp_not_nan (x : float) : x <> S754_nan -> fopp x <> S754_nan.
Proof. destruct x; simpl; congruence. Qed.

Lemma fdiv_finite_not_nan (x y : float) :
  is_finite x = true -> is_finite y = true -> feqb y f_zero = false ->
  fdiv x y <> S754_nan.
Proof.
  intros Hx Hy Hz. destruct y as [s | s | | s m e]; try discriminate.
  apply SFdiv_not_nan. now apply is_finite_not_nan.
Qed.

(** The conversion of [-a], from the conversion of [a]: the opposite float,
    but for the [int] zero, whose opposite is itself. *)
Lemma as_float_neg (a : num) :
  match as_float a with
  | Raise e => as_float (py_neg a) = Raise e
  | Ok x => as_float (py_neg a) = Ok (fopp x) \/
            (x = f_zero /\ as_float (py_neg a) = Ok f_zero)
  end.
Proof.
  destruct a as [n | x]; cbn [py_neg as_float]; auto.
  destruct (Z.eq_dec n 0) as [-> | Hn].
  - right. split; reflexivity.
  - rewrite int_to_float_opp by exact Hn.
    destruct (int_to_float n); cbn [bind]; auto.
Qed.

(** A float operation that is odd in its first operand and gives a zero on
    the zero, on the opposite of a finite operand. *)
Lemma float_op_negated (f : float -> float -> float) (a b : num) :
  finite_num a = true -> finite_num b = true ->
  (forall x y, f (fopp x) y = fopp (f x y)) ->
  (forall x y, is_finite x = true -> is_finite y = true ->
               f x y <> S754_nan) ->
  (forall y, is_finite y = true -> exists s, f f_zero y = S754_zero s) ->
  same_outcome
    (x <- as_float (py_neg a) ;; y <- as_float b ;; Ok (PyFloat (f x y)))
    (negated (x <- as_float a ;; y <- as_float b ;; Ok (PyFloat (f x y)))).
Proof.
  intros Ha Hb Hodd Hnan Hzero.
  pose proof (as_float_neg a) as Hn.
  destruct (as_float a) as [x | e] eqn:Ea.
  - pose proof (as_float_finite a x Ha Ea) as Hx.
    destruct (as_float b) as [y | e] eqn:Eb.
    + pose proof (as_float_finite b y Hb Eb) as Hy.
      destruct Hn as [-> | [-> ->]]; cbn [bind negated py_neg].
      * rewrite Hodd. apply same_outcome_refl_float, fopp_not_nan.
        now apply Hnan.
      * destruct (Hzero y Hy) as [s ->]. reflexivity.
    + destruct Hn as [-> | [-> ->]]; reflexivity.
  - rewrite Hn. reflexivity.
Qed.

(** The interpreter's product and quotient of an opposite. *)
Lemma py_mul_neg (a b : num) :
  finite_num a = true -> finite_num b = true ->
  same_outcome (py_mul (py_neg a) b) (negated (py_mul a b)).
Proof.
  intros Ha Hb. unfold py_mul.
  destruct a as [x | x], b as [y | y];
    try (apply (float_op_negated fmul); trivial;
         [ apply fmul_opp_l | apply fmul_not_nan
         | intros z Hz; destruct z; try discriminate; eexists;
           reflexivity ]).
  cbn [py_neg negated bind]. rewrite Z.mul_opp_l.
  apply same_outcome_refl_int.
Qed.

Lemma py_truediv_neg (a b : num) :
  finite_num a = true -> finite_num b = true ->
  py_eq b (PyInt 0) = false ->
  same_outcome (py_truediv (py_neg a) b) (negated (py_truediv a b)).
Proof.
  intros Ha Hb Hz.
  unfold py_truediv.
  destruct a as [x | x], b as [y | y]; cbn [py_neg].
    + rewrite py_eq_int in Hz. rewrite Hz.
      unfold int_true_divide. destruct x as [ | p | p]; cbn [Z.opp].
      * reflexivity.
      * pose proof (SFdiv_not_nan prec emax
                      (S754_finite false p 0) (y <? 0)
                      (Z.to_pos (Z.abs y)) 0 ltac:(discriminate)) as Hq.
        pose proof (fdiv_opp_l (S754_finite false p 0)
                      (S754_finite (y <? 0) (Z.to_pos (Z.abs y)) 0)) as Ho.
        cbn [Z.ltb Z.compare Z.abs Z.to_pos] in *.
        fold (fdiv (S754_finite false p 0)
                   (S754_finite (y <? 0) (Z.to_pos (Z.abs y)) 0)) in Hq.
        change (fopp (S754_finite false p 0)) with (S754_finite true p 0)
          in Ho.
        rewrite Ho.
        destruct (fdiv (S754_finite false p 0) _) as [s | s | | s m e];
          cbn [fopp SFopp negated bind py_neg]; try reflexivity.
        -- congruence.
        -- apply same_outcome_refl_float. discriminate.
      * pose proof (SFdiv_not_nan prec emax
                      (S754_finite true p 0) (y <? 0)
                      (Z.to_pos (Z.abs y)) 0 ltac:(discriminate)) as Hq.
        pose proof (fdiv_opp_l (S754_finite true p 0)
                      (S754_finite (y <? 0) (Z.to_pos (Z.abs y)) 0)) as Ho.
        cbn [Z.ltb Z.compare Z.abs Z.to_pos] in *.
        fold (fdiv (S754_finite true p 0)
                   (S754_finite (y <? 0) (Z.to_pos (Z.abs y)) 0)) in Hq.
        change (fopp (S754_finite true p 0)) with (S754_finite false p 0)
          in Ho.
        rewrite Ho.
        destruct (fdiv (S754_finite true p 0) _) as [s | s | | s m e];
          cbn [fopp SFopp negated bind py_neg]; try reflexivity.
        -- congruence.
        -- apply same_outcome_refl_float. discriminate.
    + rewrite <- (as_float_eq_zero (PyFloat y) y eq_refl) in Hz.
      pose proof (as_float_neg (PyInt x)) as Hn. cbn [py_neg] in Hn.
      cbn [as_float bind] in *.
      destruct (int_to_float x) as [x' | e] eqn:Ex.
      * pose proof (int_to_float_finite x x' Ex) as Hx.
        destruct Hn as [-> | [-> ->]]; cbn [bind negated]; rewrite Hz;
          cbn [bind py_neg].
        -- rewrite fdiv_opp_l. apply same_outcome_refl_float, fopp_not_nan.
           now apply fdiv_finite_not_nan.
        -- destruct y as [s | s | | s m e]; try discriminate; reflexivity.
      * rewrite Hn. reflexivity.
    + cbn [as_float bind].
      destruct (int_to_float y) as [y' | e] eqn:Ey; cbn [bind negated];
        [ | reflexivity ].
      rewrite (as_float_eq_zero (PyInt y) y' Ey), Hz. cbn [bind py_neg].
      rewrite fdiv_opp_l. apply same_outcome_refl_float, fopp_not_nan.
      apply fdiv_finite_not_nan; trivial.
      * eapply int_to_float_finite, Ey.
      * now rewrite (as_float_eq_zero (PyInt y) y' Ey).
    + cbn [as_float bind negated].
      rewrite <- (as_float_eq_zero (PyFloat y) y eq_refl) in Hz.
      rewrite Hz. cbn [bind py_neg].
      rewrite fdiv_opp_l. apply same_outcome_refl_float, fopp_not_nan.
      now apply fdiv_finite_not_nan.
Qed.

(** X15.  On finite operands [multiply] and [divide] are odd in their first
    operand: [multiply(-a, b)] is [-multiply(a, b)] and [divide(-a, b)] is
    [-divide(a, b)], with values that compare equal with [==] or with the
    same exception. *)
Theorem multiply_and_divide_are_odd (a b : num) :
  finite_num a = true -> finite_num b = true ->
  same_outcome (multiply (py_neg a) b) (negated (multiply a b)) /\
  same_outcome (divide (py_neg a) b) (negated (divide a b)).
Proof.
  intros Ha Hb. split.
  - rewrite !multiply_logged, printable_neg.
    destruct (printable a && printable b); [ | reflexivity ].
    rewrite negated_logged.
    apply same_outcome_logged; [ now apply py_mul_neg | ].
    intros v v' E E'. rewrite (py_mul_is_int _ _ _ E), is_int_neg.
    destruct (py_mul a b) as [w | e] eqn:Ew; cbn [negated bind] in E';
      inversion E'.
    now rewrite is_int_neg, (py_mul_is_int _ _ _ Ew).
  - rewrite !divide_logged, printable_neg.
    destruct (printable a && printable b); [ | reflexivity ].
    destruct (py_eq b (PyInt 0)) eqn:Hz; [ reflexivity | ].
    now apply py_truediv_neg.
Qed.

(** The quotients of -7 and of 7 by 2, and of the two zeros by -5. *)
Lemma multiply_and_divide_are_odd_witness :
  same_outcome (divide (py_neg (PyInt 7)) (PyInt 2))
               (negated (divide (PyInt 7) (PyInt 2))) /\
  same_outcome (divide (py_neg (PyInt 0)) (PyInt (-5)))
               (negated (divide (PyInt 0) (PyInt (-5)))).
Proof.
  split.
  - apply (multiply_and_divide_are_odd (PyInt 7) (PyInt 2)); reflexivity.
  - apply (multiply_and_divide_are_odd (PyInt 0) (PyInt (-5))); reflexivity.
Defined.

(** The exact shifts of a rounding. *)

Lemma iter_pos_shift {A : Type} (f : A -> A) (p : positive) :
  forall x, iter_pos f p (f x) = f (iter_pos f p x).
Proof.
  induction p as [p IH | p IH | ]; intros x; cbn [iter_pos].
  - now rewrite !IH.
  - now rewrite !IH.
  - reflexivity.
Qed.

Lemma iter_pos_succ {A : Type} (f : A -> A) (p : positive) (x : A) :
  iter_pos f (Pos.succ p) x = iter_pos f p (f x).
Proof.
  revert x. induction p as [p IH | p IH | ]; intros x; cbn [Pos.succ iter_pos].
  - rewrite !IH. now rewrite !iter_pos_shift.
  - now rewrite !iter_pos_shift.
  - reflexivity.
Qed.

(** Shifting right what was shifted left loses nothing. *)
Lemma shr_iter_xO (p : positive) :
  forall m,
    iter_pos shr_1 p (Build_shr_record (Zpos (Pos.iter xO m p)) false false)
    = Build_shr_record (Zpos m) false false.
Proof.
  induction p as [ | p IH] using Pos.peano_ind; intros m.
  - reflexivity.
  - rewrite iter_pos_succ, Pos.iter_succ. cbn [shr_1 orb]. apply IH.
Qed.

(** The rounding of a canonical mantissa shifted left is the mantissa. *)
Lemma binary_round_aux_shifted (s : bool) (m p : positive) (e : Z) :
  bounded prec emax m e = true ->
  binary_round_aux prec emax s (Zpos (Pos.iter xO m p)) (e - Zpos p) loc_Exact
  = S754_finite s m e.
Proof.
  unfold bounded, canonical_mantissa. intros H.
  apply andb_prop in H. destruct H as [Hc He]. apply Z.eqb_eq in Hc.
  unfold binary_round_aux.
  assert (E1 : shr_fexp prec emax (Zpos (Pos.iter xO m p)) (e - Zpos p)
                 loc_Exact
               = (Build_shr_record (Zpos m) false false, e)).
  { unfold shr_fexp. cbn [Zdigits2]. rewrite digits2_pos_iter_xO.
    replace (Z.pos (digits2_pos m + p) + (e - Z.pos p))
      with (Z.pos (digits2_pos m) + e) by lia.
    rewrite Hc. replace (e - (e - Z.pos p)) with (Z.pos p) by lia.
    cbn [shr shr_record_of_loc]. rewrite shr_iter_xO. f_equal. lia. }
  rewrite E1. cbn [shr_m loc_of_shr_record round_nearest_even].
  assert (E2 : shr_fexp prec emax (Zpos m) e loc_Exact
               = (Build_shr_record (Zpos m) false false, e)).
  { unfold shr_fexp. cbn [Zdigits2]. rewrite Hc, Z.sub_diag. reflexivity. }
  rewrite E2. cbn [shr_m]. now rewrite He.
Qed.

Lemma fmul_one_r (x : float) : binary64 x = true -> fmul x f_one = x.
Proof.
  intros H. destruct x as [[ | ] | [ | ] | | s m e]; try reflexivity.
  unfold fmul, f_one. cbn [SFmul]. rewrite xorb_false_r.
  replace (Pos.mul m 4503599627370496) with (Pos.iter xO m 52)
    by (rewrite Pos.mul_comm; reflexivity).
  apply (binary_round_aux_shifted s m 52 e). exact H.
Qed.


Lemma binary_round_aux_canonical (s : bool) (m : positive) (e : Z) :
  bounded prec emax m e = true ->
  binary_round_aux prec emax s (Zpos m) e loc_Exact = S754_finite s m e.
Proof.
  unfold bounded, canonical_mantissa. intros H.
  apply andb_prop in H. destruct H as [Hc He]. apply Z.eqb_eq in Hc.
  unfold binary_round_aux.
  assert (E : shr_fexp prec emax (Zpos m) e loc_Exact
              = (Build_shr_record (Zpos m) false false, e)).
  { unfold shr_fexp. cbn [Zdigits2]. rewrite Hc, Z.sub_diag. reflexivity. }
  rewrite E. cbn [shr_m loc_of_shr_record round_nearest_even].
  rewrite E. cbn [shr_m]. now rewrite He.
Qed.

Lemma div_eucl_exact (a b q : Z) :
  0 < b -> a = b * q -> Z.div_eucl a b = (q, 0).
Proof.
  intros Hb Ha. pose proof (Z_div_mod a b ltac:(lia)) as H.
  destruct (Z.div_eucl a b) as [q' r]. destruct H as [H1 H2].
  assert (q' = q) by nia. subst q'. f_equal. lia.
Qed.

Lemma fdiv_one_r (x : float) : binary64 x = true -> fdiv x f_one = x.
Proof.
  intros H. destruct x as [[ | ] | [ | ] | | s m e]; try reflexivity.
  unfold fdiv, f_one. cbn [SFdiv]. rewrite xorb_false_r.
  unfold binary64 in H. cbn [valid_binary] in H. pose proof H as Hb.
  unfold bounded, canonical_mantissa in H.
  apply andb_prop in H. destruct H as [Hc He]. apply Z.eqb_eq in Hc.
  unfold SFdiv_core_binary.
  change (Zdigits2 (Z.pos 4503599627370496)) with 53.
  cbn [Zdigits2].
  set (d := Z.pos (digits2_pos m)) in *.
  destruct (Z.eq_dec (fexp prec emax (d + e - (53 + -52))) e) as [Hk | Hk].
  - rewrite Hk. replace (Z.min e (e - -52)) with e by lia.
    replace (e - -52 - e) with 52 by lia. cbv iota.
    rewrite (div_eucl_exact _ _ (Zpos m)); [ | lia | ].
    + change (new_location (Z.pos 4503599627370496) 0) with loc_Exact.
      now apply binary_round_aux_canonical.
    + rewrite Z.shiftl_mul_pow2 by lia. change (2 ^ 52) with 4503599627370496.
      lia.
  - assert (Hk' : fexp prec emax (d + e - (53 + -52)) = e - 1).
    { unfold fexp, emin, prec, emax in *. lia. }
    rewrite Hk'. replace (Z.min (e - 1) (e - -52)) with (e - 1) by lia.
    replace (e - -52 - (e - 1)) with 53 by lia. cbv iota.
    rewrite (div_eucl_exact _ _ (Zpos (Pos.iter xO m 1))); [ | lia | ].
    + change (new_location (Z.pos 4503599627370496) 0) with loc_Exact.
      now apply (binary_round_aux_shifted s m 1 e).
    + rewrite Z.shiftl_mul_pow2 by lia.
      change (2 ^ 53) with 9007199254740992.
      cbn [Pos.iter]. lia.
Qed.

(** X16.  One is neutral, exactly: [multiply(a, 1)] and [multiply(1, a)]
    return [a] itself, an [int] that has a text or a float of the binary64
    format, and [divide(a, 1)] returns the float [a] itself, with its sign,
    a zero, an infinity or a NaN included. *)
Theorem one_is_neutral (a : num) :
  match a with
  | PyInt _ => printable a = true
  | PyFloat x => binary64 x = true
  end ->
  multiply a (PyInt 1) = Ok a /\
  multiply (PyInt 1) a = Ok a /\
  (is_int a = false ->
   divide a (PyInt 1) = Ok a /\ divide a (PyFloat f_one) = Ok a).
Proof.
  destruct a as [n | x]; intros H.
  - rewrite !multiply_logged, H, printable_one.
    cbn [andb py_mul logged bind]. rewrite Z.mul_1_r, Z.mul_1_l, H.
    repeat split; discriminate.
  - rewrite !multiply_logged, !divide_logged, printable_one.
    cbn [printable andb].
    change (logged (py_mul (PyFloat x) (PyInt 1)))
      with (Ok (PyFloat (fmul x f_one))).
    change (logged (py_mul (PyInt 1) (PyFloat x)))
      with (Ok (PyFloat (fmul f_one x))).
    change (py_eq (PyInt 1) (PyInt 0)) with false.
    change (py_eq (PyFloat f_one) (PyInt 0)) with false.
    change (py_truediv (PyFloat x) (PyInt 1))
      with (Ok (A := num) (PyFloat (fdiv x f_one))).
    change (py_truediv (PyFloat x) (PyFloat f_one))
      with (Ok (A := num) (PyFloat (fdiv x f_one))).
    rewrite (fmul_comm f_one x), fmul_one_r, fdiv_one_r by exact H.
    repeat split.
Qed.

(** The operand 33.33. *)
Lemma one_is_neutral_witness :
  multiply (PyFloat (S754_finite false 4690780486883082 (-47))) (PyInt 1)
  = Ok (PyFloat (S754_finite false 4690780486883082 (-47))) /\
  divide (PyFloat (S754_finite false 4690780486883082 (-47))) (PyInt 1)
  = Ok (PyFloat (S754_finite false 4690780486883082 (-47))).
Proof.
  destruct (one_is_neutral
              (PyFloat (S754_finite false 4690780486883082 (-47))) eq_refl)
    as (H1 & _ & H2).
  split; [ exact H1 | exact (proj1 (H2 eq_refl)) ].
Defined.


(** X17.  [api_percentage] returns a response on two floats and never
    answers 500; when it answers 400 the detail is the message of the
    [ValueError] of a logging line, on an [int] operand without a text, or
    one of the two messages of an [OverflowError], "int too large to convert
    to float" on an [int] and a float, "integer division result too large
    for a float" on two [int]s. *)
Theorem percentage_handler_replies (P : platform) (c : CalculationRequest) :
  (is_int (req_a c) = false -> is_int (req_b c) = false ->
   exists r, api_percentage P c = Returned r) /\
  (forall code detail, api_percentage P c = HTTPException code detail ->
     code = 400 /\
     ((detail = str int_str_limit /\
       printable (req_a c) && printable (req_b c) = false) \/
      (detail = "int too large to convert to float" /\
       is_int (req_a c) <> is_int (req_b c)) \/
      (detail = "integer division result too large for a float" /\
       is_int (req_a c) && is_int (req_b c) = true))).
Proof.
  unfold api_percentage. rewrite try_percentage_eq, except_Exception_num.
  destruct (percentage_raises (req_a c) (req_b c)) as [He Hf].
  split.
  - intros Ha Hb. destruct (Hf Ha Hb) as (x & y & _ & _ & ->). eauto.
  - intros code detail H.
    destruct (percentage (req_a c) (req_b c)) as [v | e]; try discriminate.
    inversion H. split; trivial.
    destruct (He e eq_refl) as [[-> N] | [[-> N] | [-> N]]]; auto.
Qed.

(** The request [{"a": 10 ** 200, "b": 10 ** 200}] to [/api/percentage]. *)
Lemma percentage_handler_replies_witness :
  exists detail,
    api_percentage sample_platform
      (mk_CalculationRequest (PyInt (10 ^ 200)) (PyInt (10 ^ 200)))
    = HTTPException 400 detail /\
    (detail = str int_str_limit \/
     detail = "int too large to convert to float" \/
     detail = "integer division result too large for a float").
Proof.
  pose proof printable_10_200 as Hp.
  assert (E : exists code detail,
             api_percentage sample_platform
               (mk_CalculationRequest (PyInt (10 ^ 200)) (PyInt (10 ^ 200)))
             = HTTPException code detail).
  { unfold api_percentage. rewrite try_percentage_eq. cbn [req_a req_b].
    rewrite percentage_within by exact Hp.
    do 2 eexists. vm_compute. reflexivity. }
  destruct E as (code & detail & E). exists detail.
  destruct (proj2 (percentage_handler_replies sample_platform
                     (mk_CalculationRequest (PyInt (10 ^ 200))
                        (PyInt (10 ^ 200))))
              code detail E) as [-> [[-> _] | [[-> _] | [-> _]]]]; auto.
Defined.

(** ** The limit on the digits of an [int] *)

Lemma api_raised_400 (P : platform) (op : result num) (name : string)
  (ops : list (string * num)) (e : exn) :
  op = Raise e ->
  except_Exception (v <- op ;; new_CalculationResponse P (VNum v) name ops)
  = HTTPException 400 (str e).
Proof. intros ->. reflexivity. Qed.



